(** * BaziAnalyzer: four pillars, ten gods, elemental strength and use-god

    A shallow embedding of the chart pipeline of
    [server/services/yijingAnalyzer.cjs] (class [BaziAnalyzer]):
    [calculatePreciseBazi] and the four pillar functions, [calculateTenGod],
    the strength scorer ([getMonthStrength], [analyzeHiddenStemSupport],
    [analyzeStemSupport], [calculateOverallStrength], [getStrengthLevel]) and
    [analyzeUseGod] with its four element tables.

    Further parts follow the chart: the pattern determination, the start
    of luck with the luck periods and the yearly outlook, the count of the
    five elements, the solar terms and the lunar date, the note on the Zi
    hour; the class [YijingAnalyzer] of the same file with its table of the
    64 hexagrams; the checks of the birth time and of the gender in
    [server/utils/inputValidator.cjs] and at the head of
    [performFullBaziAnalysis]; and the middleware [aiRateLimit] that caps
    the AI requests of a client per day.

    Conventions of the embedding.
    - JavaScript strings are [string]s (UTF-8 bytes); [===] on strings is
      [String.eqb].
    - An object literal used as a lookup table is an association list read
      with [js_get]; a missing key is [None] (JavaScript's [undefined]) and
      [tbl[k] || d] is [js_or (js_get tbl k) d].  Keys inherited from
      [Object.prototype] are outside the embedding.
    - JavaScript numbers are doubles; integral indices are [Z] and scores are
      exact rationals [Q] (every score of the source is a short decimal).
    - The classes [BaseData], [WanNianLi] and [SolarTermsCalculator] are
      required by the source from other files; they are records of functions
      that the analyzer receives, as [this.baseData], [this.wanNianLi] and
      [this.solarTermsCalculator]. *)

From Stdlib Require Import ZArith QArith Qabs Lqa List Ascii String Bool Lia.
From Stdlib Require Import DecimalString.
Import ListNotations.

Open Scope string_scope.

(** ** JavaScript object literals as tables *)

Fixpoint js_get {A : Type} (tbl : list (string * A)) (key : string) : option A :=
  match tbl with
  | [] => None
  | (k, v) :: rest => if String.eqb k key then Some v else js_get rest key
  end.

Definition js_or {A : Type} (o : option A) (d : A) : A :=
  match o with
  | Some v => v
  | None => d
  end.

(** [tbl[key] === value], where a missing key never equals a string. *)
Definition js_get_is (tbl : list (string * string)) (key value : string) : bool :=
  match js_get tbl key with
  | Some v => String.eqb v value
  | None => false
  end.

(** [Array.prototype.includes] and [Array.prototype.join] on strings. *)
Definition includes (xs : list string) (x : string) : bool :=
  existsb (String.eqb x) xs.

Fixpoint join (sep : string) (xs : list string) : string :=
  match xs with
  | [] => ""
  | [x] => x
  | x :: rest => x ++ sep ++ join sep rest
  end.

(** [String.prototype.includes]: [sub] occurs in [s]. *)
Fixpoint contains (sub s : string) : bool :=
  if String.prefix sub s then true
  else match s with
       | EmptyString => false
       | String _ rest => contains sub rest
       end.

(** ** Helper tables of the analyzer *)

Definition stemElements : list (string * string) :=
  [("甲", "木"); ("乙", "木"); ("丙", "火"); ("丁", "火"); ("戊", "土");
   ("己", "土"); ("庚", "金"); ("辛", "金"); ("壬", "水"); ("癸", "水")].

Definition getElementFromStem (stem : string) : string :=
  js_or (js_get stemElements stem) "土".

Definition generateCycle : list (string * string) :=
  [("木", "火"); ("火", "土"); ("土", "金"); ("金", "水"); ("水", "木")].

Definition overcomeCycle : list (string * string) :=
  [("木", "土"); ("火", "金"); ("土", "水"); ("金", "木"); ("水", "火")].

Definition getElementRelation (element1 element2 : string) : string :=
  if String.eqb element1 element2 then "same"
  else if js_get_is generateCycle element1 element2 then "generate"
  else if js_get_is overcomeCycle element1 element2 then "overcome"
  else if js_get_is generateCycle element2 element1 then "beGenerated"
  else if js_get_is overcomeCycle element2 element1 then "beOvercome"
  else "neutral".

(** The five-element cycles as relations: [produces a b] when
    [generateCycle[a]] is [b], [destroys a b] when [overcomeCycle[a]] is [b]. *)
Definition produces (a b : string) : Prop := js_get generateCycle a = Some b.
Definition destroys (a b : string) : Prop := js_get overcomeCycle a = Some b.

(** The vocabulary the tables are keyed by: the ten stems and the five
    elements. *)
Definition stems : list string := map fst stemElements.
Definition elements : list string := map fst generateCycle.

(** ** Ten gods *)

Definition yangStems : list string := ["甲"; "丙"; "戊"; "庚"; "壬"].

Definition getStemYinYang (stem : string) : string :=
  if includes yangStems stem then "阳" else "阴".

Definition calculateTenGod (dayMaster targetStem : string) : string :=
  if String.eqb dayMaster targetStem then "比肩"
  else
    let dayElement := getElementFromStem dayMaster in
    let targetElement := getElementFromStem targetStem in
    let relation := getElementRelation dayElement targetElement in
    let dayYinYang := getStemYinYang dayMaster in
    let targetYinYang := getStemYinYang targetStem in
    let sameYinYang := String.eqb dayYinYang targetYinYang in
    if String.eqb relation "same" then
      (if sameYinYang then "比肩" else "劫财")
    else if String.eqb relation "generate" then
      (if sameYinYang then "食神" else "伤官")
    else if String.eqb relation "overcome" then
      (if sameYinYang then "偏财" else "正财")
    else if String.eqb relation "beOvercome" then
      (if sameYinYang then "七杀" else "正官")
    else if String.eqb relation "beGenerated" then
      (if sameYinYang then "偏印" else "正印")
    else "未知".

(** ** Elemental strength *)

Definition seasonStrength : list (string * list (string * string)) :=
  [("木", [("寅", "旺"); ("卯", "旺"); ("辰", "余气"); ("巳", "死"); ("午", "死"); ("未", "死");
           ("申", "绝"); ("酉", "绝"); ("戌", "墓"); ("亥", "生"); ("子", "生"); ("丑", "休")]);
   ("火", [("寅", "生"); ("卯", "生"); ("辰", "休"); ("巳", "旺"); ("午", "旺"); ("未", "余气");
           ("申", "死"); ("酉", "死"); ("戌", "墓"); ("亥", "绝"); ("子", "绝"); ("丑", "死")]);
   ("土", [("寅", "死"); ("卯", "死"); ("辰", "旺"); ("巳", "相"); ("午", "相"); ("未", "旺");
           ("申", "休"); ("酉", "休"); ("戌", "旺"); ("亥", "死"); ("子", "死"); ("丑", "旺")]);
   ("金", [("寅", "绝"); ("卯", "绝"); ("辰", "墓"); ("巳", "死"); ("午", "死"); ("未", "死");
           ("申", "旺"); ("酉", "旺"); ("戌", "余气"); ("亥", "生"); ("子", "生"); ("丑", "相")]);
   ("水", [("寅", "死"); ("卯", "死"); ("辰", "墓"); ("巳", "绝"); ("午", "绝"); ("未", "死");
           ("申", "生"); ("酉", "生"); ("戌", "死"); ("亥", "旺"); ("子", "旺"); ("丑", "余气")])].

(** [seasonStrength[element]?.[monthBranch] || '平'] *)
Definition getMonthStrength (element monthBranch : string) : string :=
  js_or (match js_get seasonStrength element with
         | Some row => js_get row monthBranch
         | None => None
         end) "平".

Local Open Scope Q_scope.

(** Comparisons of scores: [a > b] and [a >= b]. *)
Definition Qgtb (a b : Q) : bool := negb (Qle_bool a b).
Definition Qgeb (a b : Q) : bool := Qle_bool b a.

(** The four pillars handed to the scorer: a pillar as the pillar functions
    return it, and the object [{year, month, day, hour}]. *)
Record Pillar := mkPillar {
  stem : string;
  branch : string;
  stemIndex : Z;
  branchIndex : Z
}.

Record Pillars := mkPillars {
  year : Pillar;
  month : Pillar;
  day : Pillar;
  hour : Pillar
}.

(** [Object.values(pillars)] and [Object.entries(pillars)], in key order. *)
Definition Object_values (pillars : Pillars) : list Pillar :=
  [year pillars; month pillars; day pillars; hour pillars].

Definition Object_entries (pillars : Pillars) : list (string * Pillar) :=
  [("year", year pillars); ("month", month pillars);
   ("day", day pillars); ("hour", hour pillars)].

(** [xs.forEach((x, index) => ...)]: the elements with their indices. *)
Definition indexed {A : Type} (xs : list A) : list (nat * A) :=
  combine (seq 0 (List.length xs)) xs.

(** The collaborator [BaseData] ([./common/BaseData.cjs]). *)
Record BaseData := mkBaseData {
  getStemByIndex : Z -> string;
  getBranchByIndex : Z -> string;
  getBranchHiddenStems : string -> list string
}.

Module HiddenStemSupport.
Record detail := mkDetail {
  branch : string;
  hidden_stem : string;
  relation : string;
  score : Q
}.
Record t := mk {
  total_score : Q;
  details : list detail;
  level : string
}.
End HiddenStemSupport.

Module StemSupport.
Record detail := mkDetail {
  position : string;
  stem : string;
  relation : string;
  score : Q
}.
Record t := mk {
  total_score : Q;
  details : list detail;
  level : string
}.
End StemSupport.

(** The [if / else if] chain that scores a hidden stem's relation. *)
Definition hiddenStemScore (relation : string) : Q :=
  if String.eqb relation "same" then 3
  else if String.eqb relation "beGenerated" then 2
  else if String.eqb relation "generate" then -1
  else if String.eqb relation "overcome" then -2
  else if String.eqb relation "beOvercome" then -3
  else 0.

Definition positionMultiplier (index : nat) : Q :=
  match index with
  | O => 1.0
  | S O => 0.6
  | _ => 0.3
  end.

(** Body of the inner [forEach] of [analyzeHiddenStemSupport]; the pair is
    [(supportScore, supportDetails)]. *)
Definition hiddenStemStep (dayElement : string) (pillar : Pillar)
    (acc : Q * list HiddenStemSupport.detail) (entry : nat * string)
    : Q * list HiddenStemSupport.detail :=
  let '(supportScore, supportDetails) := acc in
  let '(index, hiddenStem) := entry in
  let hiddenElement := getElementFromStem hiddenStem in
  let relation := getElementRelation hiddenElement dayElement in
  let score := hiddenStemScore relation in
  let finalScore := score * positionMultiplier index in
  (supportScore + finalScore,
   if Qgtb (Qabs finalScore) 0.5
   then (supportDetails ++
         [HiddenStemSupport.mkDetail (branch pillar) hiddenStem relation finalScore])%list
   else supportDetails).

Definition hiddenSupportLevel (supportScore : Q) : string :=
  if Qgtb supportScore 3 then "强"
  else if Qgtb supportScore 0 then "中"
  else if Qgtb supportScore (-3) then "弱"
  else "很弱".

Definition analyzeHiddenStemSupport (baseData : BaseData) (dayElement : string)
    (pillars : Pillars) : HiddenStemSupport.t :=
  let '(supportScore, supportDetails) :=
    fold_left
      (fun acc pillar =>
         let hiddenStems := getBranchHiddenStems baseData (branch pillar) in
         fold_left (hiddenStemStep dayElement pillar) (indexed hiddenStems) acc)
      (Object_values pillars) (0, []) in
  HiddenStemSupport.mk supportScore supportDetails (hiddenSupportLevel supportScore).

(** The [if / else if] chain that scores a visible stem's relation. *)
Definition stemScore (relation : string) : Q :=
  if String.eqb relation "same" then 2
  else if String.eqb relation "beGenerated" then 1.5
  else if String.eqb relation "generate" then -0.5
  else if String.eqb relation "overcome" then -1
  else if String.eqb relation "beOvercome" then -1.5
  else 0.

(** Body of the [forEach] of [analyzeStemSupport]. *)
Definition stemStep (dayElement : string)
    (acc : Q * list StemSupport.detail) (entry : string * Pillar)
    : Q * list StemSupport.detail :=
  let '(supportScore, supportDetails) := acc in
  let '(position, pillar) := entry in
  if String.eqb position "day" then acc
  else
    let stemElement := getElementFromStem (stem pillar) in
    let relation := getElementRelation stemElement dayElement in
    let score := stemScore relation in
    (supportScore + score,
     if Qgtb (Qabs score) 0
     then (supportDetails ++
           [StemSupport.mkDetail position (stem pillar) relation score])%list
     else supportDetails).

Definition stemSupportLevel (supportScore : Q) : string :=
  if Qgtb supportScore 2 then "强"
  else if Qgtb supportScore 0 then "中"
  else if Qgtb supportScore (-2) then "弱"
  else "很弱".

Definition analyzeStemSupport (dayElement : string) (pillars : Pillars)
    : StemSupport.t :=
  let '(supportScore, supportDetails) :=
    fold_left (stemStep dayElement) (Object_entries pillars) (0, []) in
  StemSupport.mk supportScore supportDetails (stemSupportLevel supportScore).

Definition monthScoreTable : list (string * Q) :=
  [("旺", 4); ("相", 2); ("休", 0); ("囚", -2); ("死", -3); ("绝", -4);
   ("墓", -1); ("生", 1); ("余气", 1)].

Record OverallStrength := mkOverallStrength {
  month_score : Q;
  hidden_score : Q;
  stem_score : Q;
  total_score : Q
}.

Definition calculateOverallStrength (monthStrength : string)
    (hiddenSupport : HiddenStemSupport.t) (stemSupport : StemSupport.t)
    : OverallStrength :=
  let monthScore := js_or (js_get monthScoreTable monthStrength) 0 in
  let totalScore :=
    monthScore + HiddenStemSupport.total_score hiddenSupport
    + StemSupport.total_score stemSupport in
  mkOverallStrength monthScore
    (HiddenStemSupport.total_score hiddenSupport)
    (StemSupport.total_score stemSupport)
    totalScore.

Definition getStrengthLevel (overallStrength : OverallStrength) : string :=
  let score := total_score overallStrength in
  if Qgeb score 6 then "太旺"
  else if Qgeb score 3 then "偏旺"
  else if Qgeb score (-1) then "中和"
  else if Qgeb score (-4) then "偏弱"
  else "太弱".

(** ** Use-god inference *)

Definition restrainMap : list (string * list string) :=
  [("木", ["金"]); ("火", ["水"]); ("土", ["木"]); ("金", ["火"]); ("水", ["土"])].

Definition getRestrainElements (element : string) : list string :=
  js_or (js_get restrainMap element) [].

Definition drainMap : list (string * list string) :=
  [("木", ["火"]); ("火", ["土"]); ("土", ["金"]); ("金", ["水"]); ("水", ["木"])].

Definition getDrainElements (element : string) : list string :=
  js_or (js_get drainMap element) [].

Definition consumeMap : list (string * list string) :=
  [("木", ["土"]); ("火", ["金"]); ("土", ["水"]); ("金", ["木"]); ("水", ["火"])].

Definition getConsumeElements (element : string) : list string :=
  js_or (js_get consumeMap element) [].

Definition generateMap : list (string * list string) :=
  [("木", ["水"]); ("火", ["木"]); ("土", ["火"]); ("金", ["土"]); ("水", ["金"])].

Definition getGenerateElements (element : string) : list string :=
  js_or (js_get generateMap element) [].

Record UseGodAnalysis := mkUseGodAnalysis {
  use_god : string;
  avoid_god : string;
  analysis : string;
  strength_level : string
}.

Definition analyzeUseGod (dayElement : string) (strengthAnalysis : OverallStrength)
    (pillars : Pillars) : UseGodAnalysis :=
  let strengthLevel := getStrengthLevel strengthAnalysis in
  if String.eqb strengthLevel "太旺" || String.eqb strengthLevel "偏旺" then
    let restrainElements := getRestrainElements dayElement in
    let drainElements := getDrainElements dayElement in
    let consumeElements := getConsumeElements dayElement in
    mkUseGodAnalysis
      (join "、" restrainElements ++ "（官杀）、" ++ join "、" drainElements
       ++ "（食伤）、" ++ join "、" consumeElements ++ "（财星）")
      (dayElement ++ "（比劫）、" ++ join "、" (getGenerateElements dayElement)
       ++ "（印星）")
      ("日主" ++ dayElement ++ strengthLevel
       ++ "，需要克泄耗来平衡，宜用官杀制身、食伤泄秀、财星耗身。")
      strengthLevel
  else if String.eqb strengthLevel "太弱" || String.eqb strengthLevel "偏弱" then
    let generateElements := getGenerateElements dayElement in
    mkUseGodAnalysis
      (join "、" generateElements ++ "（印星）、" ++ dayElement ++ "（比劫）")
      (join "、" (getRestrainElements dayElement) ++ "（官杀）、"
       ++ join "、" (getDrainElements dayElement) ++ "（食伤）、"
       ++ join "、" (getConsumeElements dayElement) ++ "（财星）")
      ("日主" ++ dayElement ++ strengthLevel
       ++ "，需要生扶来增强，宜用印星生身、比劫助身。")
      strengthLevel
  else
    mkUseGodAnalysis
      "因时制宜，随运而变"
      "过旺过弱之五行"
      ("日主" ++ dayElement ++ "中和，命格平衡，宜顺其自然，忌大起大落。")
      strengthLevel.

(** The elements a use-god text names: the reading of [use_god] and
    [avoid_god] as sets of elements. *)
Definition namedElements (text : string) : list string :=
  filter (fun e => contains e text) elements.

Record ElementStrength := mkElementStrength {
  month_strength : string;
  hidden_stem_support : HiddenStemSupport.t;
  stem_support : StemSupport.t;
  overall_strength : OverallStrength;
  es_strength_level : string;
  use_god_analysis : UseGodAnalysis
}.

Definition analyzeElementStrength (baseData : BaseData)
    (dayMaster monthBranch : string) (pillars : Pillars) : ElementStrength :=
  let dayElement := getElementFromStem dayMaster in
  let monthStrength := getMonthStrength dayElement monthBranch in
  let hiddenStemSupport := analyzeHiddenStemSupport baseData dayElement pillars in
  let stemSupport := analyzeStemSupport dayElement pillars in
  let overallStrength :=
    calculateOverallStrength monthStrength hiddenStemSupport stemSupport in
  mkElementStrength monthStrength hiddenStemSupport stemSupport overallStrength
    (getStrengthLevel overallStrength)
    (analyzeUseGod dayElement overallStrength pillars).

Local Close Scope Q_scope.
Local Open Scope Z_scope.

(** ** Pillar computation *)

(** The arguments of [new Date(year, monthIndex, day, hours, minutes)], as
    the boundary resolver receives them. *)
Record JsDate := mkJsDate {
  date_year : Z;
  date_monthIndex : Z;
  date_day : Z;
  date_hours : Z;
  date_minutes : Z
}.

(** The collaborator [SolarTermsCalculator] ([../utils/solarTerms.cjs]); of
    the object [getSolarTermMonth] returns, the analyzer reads [monthBranch]. *)
Record SolarTermMonth := mkSolarTermMonth {
  monthBranch : string
}.

Record SolarTermsCalculator := mkSolarTermsCalculator {
  isAfterSpringBeginning : JsDate -> bool;
  getSolarTermMonth : JsDate -> SolarTermMonth
}.

(** The collaborator [WanNianLi] ([../utils/wanNianLi.cjs]). *)
Record WanNianLi := mkWanNianLi {
  getAccurateDayPillar : Z -> Z -> Z -> Pillar
}.

(** The fields of [this] that the chart pipeline reads. *)
Record BaziAnalyzer := mkBaziAnalyzer {
  baseData : BaseData;
  solarTermsCalculator : SolarTermsCalculator;
  wanNianLi : WanNianLi
}.

(** A table keyed by numbers, such as [monthStemBase]. *)
Fixpoint js_get_num {A : Type} (tbl : list (Z * A)) (key : Z) : option A :=
  match tbl with
  | [] => None
  | (k, v) :: rest => if Z.eqb k key then Some v else js_get_num rest key
  end.

(** [Array.prototype.indexOf]: the first position of [x], or [-1]. *)
Fixpoint indexOf_from (xs : list string) (x : string) (i : Z) : Z :=
  match xs with
  | [] => -1
  | y :: rest => if String.eqb y x then i else indexOf_from rest x (i + 1)
  end.

Definition indexOf (xs : list string) (x : string) : Z := indexOf_from xs x 0.

(** JavaScript's [%] on integers truncates toward zero: it is [Z.rem]. *)
Definition calculateYearPillar (this : BaziAnalyzer)
    (year month day hour minute : Z) : Pillar :=
  let currentDate := mkJsDate year (month - 1) day hour minute in
  let isAfterSpring :=
    isAfterSpringBeginning (solarTermsCalculator this) currentDate in
  let actualYear := if negb isAfterSpring then year - 1 else year in
  let stemIndex := Z.rem (actualYear - 1984) 10 in
  let branchIndex := Z.rem (actualYear - 1984) 12 in
  let finalStemIndex := Z.rem (Z.rem stemIndex 10 + 10) 10 in
  let finalBranchIndex := Z.rem (Z.rem branchIndex 12 + 12) 12 in
  mkPillar (getStemByIndex (baseData this) finalStemIndex)
           (getBranchByIndex (baseData this) finalBranchIndex)
           finalStemIndex finalBranchIndex.

Definition branchNames : list string :=
  ["子"; "丑"; "寅"; "卯"; "辰"; "巳"; "午"; "未"; "申"; "酉"; "戌"; "亥"].

(** The twelve branches. *)
Definition branches : list string := branchNames.

Definition monthStemBase : list (Z * Z) :=
  [(0, 2); (1, 4); (2, 6); (3, 8); (4, 0); (5, 2); (6, 4); (7, 6); (8, 8); (9, 0)].

(** [None] where the source would add [undefined] (a year-stem index that is
    no key of [monthStemBase]) and carry [NaN] into the pillar. *)
Definition calculateMonthPillar (this : BaziAnalyzer)
    (year month day yearStemIndex hour minute : Z) : option Pillar :=
  let currentDate := mkJsDate year (month - 1) day hour minute in
  let solarTermMonth := getSolarTermMonth (solarTermsCalculator this) currentDate in
  let monthBranchIndex := indexOf branchNames (monthBranch solarTermMonth) in
  match js_get_num monthStemBase yearStemIndex with
  | None => None
  | Some base =>
      let monthStemIndex :=
        Z.rem (base + Z.rem (monthBranchIndex - 2 + 12) 12) 10 in
      Some (mkPillar (getStemByIndex (baseData this) monthStemIndex)
                     (getBranchByIndex (baseData this) monthBranchIndex)
                     monthStemIndex monthBranchIndex)
  end.

Definition calculateDayPillar (this : BaziAnalyzer) (year month day : Z) : Pillar :=
  getAccurateDayPillar (wanNianLi this) year month day.

(** *** The built-in [Date] on calendar dates

    [nextDay year month day] is [(d.getFullYear(), d.getMonth() + 1,
    d.getDate())] for [d = new Date(year, month - 1, day + 1)], when
    [month] is in 1..12 and [day] is a day of that month: the overflow of
    [day + 1] past the month's end rolls into the next month, and the
    constructor reads a year in 0..99 as 1900 + year. *)
Definition isLeapYear (y : Z) : bool :=
  (y mod 4 =? 0) && (negb (y mod 100 =? 0) || (y mod 400 =? 0)).

Definition daysInMonth (y m : Z) : Z :=
  if m =? 2 then (if isLeapYear y then 29 else 28)
  else if (m =? 4) || (m =? 6) || (m =? 9) || (m =? 11) then 30
  else 31.

Definition Date_fullYear (year : Z) : Z :=
  if (0 <=? year) && (year <=? 99) then 1900 + year else year.

Definition nextDay (year month day : Z) : Z * Z * Z :=
  let y := Date_fullYear year in
  if day + 1 <=? daysInMonth y month then (y, month, day + 1)
  else if month =? 12 then (y + 1, 1, 1)
  else (y, month + 1, 1).

Record HourPillar := mkHourPillar {
  pillar : Pillar;
  zishi_type : option string;
  is_late_zishi : bool;
  is_early_zishi : bool
}.

Definition hourStemBase : list (Z * Z) :=
  [(0, 0); (1, 2); (2, 4); (3, 6); (4, 8); (5, 0); (6, 2); (7, 4); (8, 6); (9, 8)].

(** [None] where the source would add [undefined] (a day-stem index that is
    no key of [hourStemBase]) and carry [NaN] into the pillar. *)
Definition calculateHourPillar (this : BaziAnalyzer)
    (hour minute dayStemIndex year month day : Z) : option HourPillar :=
  let '(isLateZiShi, isEarlyZiShi, actualDayStemIndex) :=
    if hour =? 23 then
      let '(nextYear, nextMonth, nextDate) := nextDay year month day in
      let nextDayPillar := calculateDayPillar this nextYear nextMonth nextDate in
      (true, false, stemIndex nextDayPillar)
    else if hour =? 0 then (false, true, dayStemIndex)
    else (false, false, dayStemIndex) in
  let hourBranchIndex :=
    if (hour =? 23) || (hour =? 0) then 0
    else Z.rem ((hour + 1) / 2) 12 in
  match js_get_num hourStemBase actualDayStemIndex with
  | None => None
  | Some base =>
      let hourStemIndex := Z.rem (base + hourBranchIndex) 10 in
      Some (mkHourPillar
              (mkPillar (getStemByIndex (baseData this) hourStemIndex)
                        (getBranchByIndex (baseData this) hourBranchIndex)
                        hourStemIndex hourBranchIndex)
              (if isLateZiShi then Some "晚子时"
               else if isEarlyZiShi then Some "早子时" else None)
              isLateZiShi isEarlyZiShi)
  end.

Definition nayinTable : list (string * string) :=
  [("甲子", "海中金"); ("乙丑", "海中金"); ("丙寅", "炉中火"); ("丁卯", "炉中火");
   ("戊辰", "大林木"); ("己巳", "大林木"); ("庚午", "路旁土"); ("辛未", "路旁土");
   ("壬申", "剑锋金"); ("癸酉", "剑锋金"); ("甲戌", "山头火"); ("乙亥", "山头火");
   ("丙子", "涧下水"); ("丁丑", "涧下水"); ("戊寅", "城头土"); ("己卯", "城头土");
   ("庚辰", "白蜡金"); ("辛巳", "白蜡金"); ("壬午", "杨柳木"); ("癸未", "杨柳木");
   ("甲申", "泉中水"); ("乙酉", "泉中水"); ("丙戌", "屋上土"); ("丁亥", "屋上土");
   ("戊子", "霹雳火"); ("己丑", "霹雳火"); ("庚寅", "松柏木"); ("辛卯", "松柏木");
   ("壬辰", "长流水"); ("癸巳", "长流水"); ("甲午", "砂中金"); ("乙未", "砂中金");
   ("丙申", "山下火"); ("丁酉", "山下火"); ("戊戌", "平地木"); ("己亥", "平地木");
   ("庚子", "壁上土"); ("辛丑", "壁上土"); ("壬寅", "金箔金"); ("癸卯", "金箔金");
   ("甲辰", "覆灯火"); ("乙巳", "覆灯火"); ("丙午", "天河水"); ("丁未", "天河水");
   ("戊申", "大驿土"); ("己酉", "大驿土"); ("庚戌", "钗钏金"); ("辛亥", "钗钏金");
   ("壬子", "桑柘木"); ("癸丑", "桑柘木"); ("甲寅", "大溪水"); ("乙卯", "大溪水");
   ("丙辰", "沙中土"); ("丁巳", "沙中土"); ("戊午", "天上火"); ("己未", "天上火");
   ("庚申", "石榴木"); ("辛酉", "石榴木"); ("壬戌", "大海水"); ("癸亥", "大海水")].

Definition calculateNayin (stem branch : string) : string :=
  let ganzhi := stem ++ branch in
  js_or (js_get nayinTable ganzhi) "大林木".

(** *** The assembled chart *)

(** The fields a chart pillar has besides the common five. *)
Inductive PillarExtra :=
| NoExtra
| MonthOrder (is_month_order : bool)
| DayMaster (is_day_master : bool)
| ZiShi (zishi_type : option string) (is_late_zishi is_early_zishi : bool).

Module ChartPillar.
Record t := mk {
  stem : string;
  branch : string;
  element : string;
  hidden_stems : list string;
  ten_god : string;
  extra : PillarExtra
}.
End ChartPillar.

Record NayinInfo := mkNayinInfo {
  year_nayin : string;
  month_nayin : string;
  day_nayin : string;
  hour_nayin : string
}.

Record BaziChart := mkBaziChart {
  year_pillar : ChartPillar.t;
  month_pillar : ChartPillar.t;
  day_pillar : ChartPillar.t;
  hour_pillar : ChartPillar.t;
  day_master : string;
  day_master_element : string;
  nayin_info : NayinInfo;
  month_order : string;
  complete_chart : string;
  element_strength : ElementStrength
}.

(** [calculatePreciseBazi(birth_date, birth_time)] after the parsing of its
    two strings: [birthYear], [birthMonth] and [birthDay] are
    [getFullYear()], [getMonth() + 1] and [getDate()] of
    [new Date(birth_date)], and [birth_time] holds the two numbers [parseInt]
    reads from ["HH:MM"], [None] when no time is given. *)
Definition calculatePreciseBazi (this : BaziAnalyzer)
    (birthYear birthMonth birthDay : Z) (birth_time : option (Z * Z))
    : option BaziChart :=
  let birthHour := match birth_time with Some (h, _) => h | None => 12 end in
  let birthMinute := match birth_time with Some (_, m) => m | None => 0 end in
  let yearPillar :=
    calculateYearPillar this birthYear birthMonth birthDay birthHour birthMinute in
  match calculateMonthPillar this birthYear birthMonth birthDay
          (stemIndex yearPillar) birthHour birthMinute with
  | None => None
  | Some monthPillar =>
      let dayPillar := calculateDayPillar this birthYear birthMonth birthDay in
      match calculateHourPillar this birthHour birthMinute (stemIndex dayPillar)
              birthYear birthMonth birthDay with
      | None => None
      | Some hourPillar =>
          let hiddenOf := getBranchHiddenStems (baseData this) in
          let hourP := pillar hourPillar in
          Some (mkBaziChart
            (ChartPillar.mk (stem yearPillar) (branch yearPillar)
               (getElementFromStem (stem yearPillar))
               (hiddenOf (branch yearPillar))
               (calculateTenGod (stem dayPillar) (stem yearPillar))
               NoExtra)
            (ChartPillar.mk (stem monthPillar) (branch monthPillar)
               (getElementFromStem (stem monthPillar))
               (hiddenOf (branch monthPillar))
               (calculateTenGod (stem dayPillar) (stem monthPillar))
               (MonthOrder true))
            (ChartPillar.mk (stem dayPillar) (branch dayPillar)
               (getElementFromStem (stem dayPillar))
               (hiddenOf (branch dayPillar))
               "日主"
               (DayMaster true))
            (ChartPillar.mk (stem hourP) (branch hourP)
               (getElementFromStem (stem hourP))
               (hiddenOf (branch hourP))
               (calculateTenGod (stem dayPillar) (stem hourP))
               (ZiShi (zishi_type hourPillar) (is_late_zishi hourPillar)
                  (is_early_zishi hourPillar)))
            (stem dayPillar)
            (getElementFromStem (stem dayPillar))
            (mkNayinInfo
               (calculateNayin (stem yearPillar) (branch yearPillar))
               (calculateNayin (stem monthPillar) (branch monthPillar))
               (calculateNayin (stem dayPillar) (branch dayPillar))
               (calculateNayin (stem hourP) (branch hourP)))
            (branch monthPillar)
            (stem yearPillar ++ branch yearPillar ++ " "
             ++ stem monthPillar ++ branch monthPillar ++ " "
             ++ stem dayPillar ++ branch dayPillar ++ " "
             ++ stem hourP ++ branch hourP)
            (analyzeElementStrength (baseData this) (stem dayPillar)
               (branch monthPillar)
               (mkPillars yearPillar monthPillar dayPillar hourP)))
      end
  end.

(** ** Pattern determination *)

(** [countSameElementSupport] and [countRestrainElements]: the loop over
    the year, month and hour pillars, counting the visible stem's element and
    then each hidden stem's element. *)
Definition countSameElementSupport (baziChart : BaziChart) : Z :=
  let dayElement := day_master_element baziChart in
  fold_left
    (fun count p =>
       let count :=
         if String.eqb (ChartPillar.element p) dayElement then count + 1
         else count in
       fold_left
         (fun count hiddenStem =>
            if String.eqb (getElementFromStem hiddenStem) dayElement
            then count + 1 else count)
         (ChartPillar.hidden_stems p) count)
    [year_pillar baziChart; month_pillar baziChart; hour_pillar baziChart] 0.

Definition countRestrainElements (baziChart : BaziChart) : Z :=
  let dayElement := day_master_element baziChart in
  let restrainElements := getRestrainElements dayElement in
  fold_left
    (fun count p =>
       let count :=
         if includes restrainElements (ChartPillar.element p) then count + 1
         else count in
       fold_left
         (fun count hiddenStem =>
            if includes restrainElements (getElementFromStem hiddenStem)
            then count + 1 else count)
         (ChartPillar.hidden_stems p) count)
    [year_pillar baziChart; month_pillar baziChart; hour_pillar baziChart] 0.

(** The object [{ name, type }] of a special pattern; [None] is [null]. *)
Definition analyzeSpecialPattern (baziChart : BaziChart)
    : option (string * string) :=
  let strengthLevel := es_strength_level (element_strength baziChart) in
  if String.eqb strengthLevel "太旺"
     && (3 <=? countSameElementSupport baziChart)
  then Some ("从强格", "特殊格局")
  else if String.eqb strengthLevel "太弱"
          && (3 <=? countRestrainElements baziChart)
  then Some ("从弱格", "特殊格局")
  else None.

Definition evaluatePatternStrength (baziChart : BaziChart)
    (patternName : string) (strengthAnalysis : ElementStrength) : string :=
  let strengthLevel := es_strength_level strengthAnalysis in
  let monthStrength := month_strength strengthAnalysis in
  if contains "从" patternName then
    (if String.eqb strengthLevel "太旺" || String.eqb strengthLevel "太弱"
     then "上等" else "中等")
  else if String.eqb monthStrength "旺"
          && (String.eqb strengthLevel "中和" || String.eqb strengthLevel "偏旺")
  then "上等"
  else if String.eqb monthStrength "相" || String.eqb monthStrength "生"
  then "中上"
  else if String.eqb monthStrength "休" || String.eqb monthStrength "余气"
  then "中等"
  else "偏弱".

(** The classification fields of the object [determineAccuratePattern]
    returns.  Its remaining fields ([detailed_traits], [suitable_careers],
    [philosophical_meaning], [action_plan], [pattern_analysis]) are prose
    built afterwards from these and are not embedded. *)
Record PatternAnalysis := mkPatternAnalysis {
  pattern_name : string;
  pattern_type : string;
  strength : string;
  month_ten_god : string
}.

(** [None] where the month pillar has no hidden stem, so that the source
    would hand [undefined] to [calculateTenGod]. *)
Definition determineAccuratePattern (baziChart : BaziChart)
    : option PatternAnalysis :=
  let dayMaster := day_master baziChart in
  let strengthAnalysis := element_strength baziChart in
  let monthHiddenStems := ChartPillar.hidden_stems (month_pillar baziChart) in
  match monthHiddenStems with
  | [] => None
  | mainStem :: _ =>
      let monthMainGod := calculateTenGod dayMaster mainStem in
      let '(patternName, patternType) :=
        if includes ["正官"; "正财"; "正印"; "食神"] monthMainGod
        then (monthMainGod ++ "格", "正格")
        else if includes ["七杀"; "偏财"; "偏印"; "伤官"] monthMainGod
        then (monthMainGod ++ "格", "正格")
        else if includes ["比肩"; "劫财"] monthMainGod
        then ("建禄格", "正格")
        else
          match analyzeSpecialPattern baziChart with
          | Some (name, type) => (name, type)
          | None => ("杂气格", "正格")
          end in
      let patternStrength :=
        evaluatePatternStrength baziChart patternName strengthAnalysis in
      Some (mkPatternAnalysis patternName patternType patternStrength
              monthMainGod)
  end.

(** ** Start of luck and the luck periods *)

Definition termDays : list (Z * Z) :=
  [(1, 4); (2, 19); (3, 6); (4, 21); (5, 5); (6, 21);
   (7, 6); (8, 21); (9, 6); (10, 22); (11, 7); (12, 23)].

(** [new Date(2024, month, 0).getDate()] is the number of days of month
    [month] of 2024, for [month] in 1..12. *)
Definition calculateDaysToNextTerm (month day : Z) : Z :=
  let nextTermDay := js_or (js_get_num termDays month) 15 in
  if day <? nextTermDay then nextTermDay - day
  else
    let nextMonth := if month =? 12 then 1 else month + 1 in
    let nextMonthTermDay := js_or (js_get_num termDays nextMonth) 15 in
    let daysInMonth := daysInMonth 2024 month in
    (daysInMonth - day) + nextMonthTermDay.

Definition calculateDaysToPrevTerm (month day : Z) : Z :=
  let currentTermDay := js_or (js_get_num termDays month) 15 in
  if currentTermDay <? day then day - currentTermDay
  else
    let prevMonth := if month =? 1 then 12 else month - 1 in
    let prevTermDay := js_or (js_get_num termDays prevMonth) 15 in
    day + (30 - prevTermDay).

(** The two index methods of [BaseData] that the luck functions call. *)
Record BaseDataIndex := mkBaseDataIndex {
  getStemIndex : string -> Z;
  getBranchIndex : string -> Z
}.

Definition isMaleGender (gender : string) : bool :=
  String.eqb gender "male" || String.eqb gender "男".

(** [(isMale && isYangYear) || (!isMale && !isYangYear)] *)
Definition isForwardLuck (index : BaseDataIndex) (baziChart : BaziChart)
    (gender : string) : bool :=
  let yearStemIndex :=
    getStemIndex index (ChartPillar.stem (year_pillar baziChart)) in
  let isYangYear := Z.rem yearStemIndex 2 =? 0 in
  let isMale := isMaleGender gender in
  (isMale && isYangYear) || (negb isMale && negb isYangYear).

(** [birthMonth] and [birthDay] are [getMonth() + 1] and [getDate()] of the
    birth date. *)
Definition calculateStartLuckAge (index : BaseDataIndex) (baziChart : BaziChart)
    (birthMonth birthDay : Z) (gender : string) : Z :=
  let daysToNextTerm :=
    if isForwardLuck index baziChart gender
    then calculateDaysToNextTerm birthMonth birthDay
    else calculateDaysToPrevTerm birthMonth birthDay in
  let startAge := daysToNextTerm / 3 in
  Z.max 1 startAge.

Definition tenGodAnalysis : list (string * string) :=
  [("比肩", "此运期适合合作发展，朋友助力较多，但要注意财务管理");
   ("劫财", "此运期竞争激烈，需要谨慎理财，避免因朋友破财");
   ("食神", "此运期创意丰富，适合艺术创作，身体健康，子女运佳");
   ("伤官", "此运期才华横溢，适合创新突破，但要注意言行谨慎");
   ("正财", "此运期财运稳定，适合投资理财，感情婚姻顺利");
   ("偏财", "此运期财运机会多，适合投机投资，但要控制风险");
   ("正官", "此运期事业发展，适合求职升迁，社会地位提升");
   ("七杀", "此运期挑战较多，需要勇敢面对，适合开拓新领域");
   ("正印", "此运期学习运佳，适合进修深造，贵人相助较多");
   ("偏印", "此运期思维敏锐，适合技术研发，但要注意健康")].

Definition analyzeDayunPeriod (baziChart : BaziChart)
    (dayunStem dayunBranch dayunTenGod : string) : string :=
  let strengthAnalysis := element_strength baziChart in
  let analysis :=
    js_or (js_get tenGodAnalysis dayunTenGod) "此运期需要根据具体情况灵活应对" in
  let strengthLevel := es_strength_level strengthAnalysis in
  if String.eqb strengthLevel "偏弱" || String.eqb strengthLevel "太弱" then
    (if includes ["比肩"; "劫财"; "正印"; "偏印"] dayunTenGod
     then analysis ++ "，此运对您特别有利，能够增强个人实力"
     else if includes ["正官"; "七杀"; "食神"; "伤官"] dayunTenGod
     then analysis ++ "，此运压力较大，需要谨慎应对，多寻求帮助"
     else analysis)
  else if String.eqb strengthLevel "偏旺" || String.eqb strengthLevel "太旺" then
    (if includes ["正官"; "七杀"; "食神"; "伤官"; "正财"; "偏财"] dayunTenGod
     then analysis ++ "，此运能够很好地发挥您的才能，适合积极进取"
     else if includes ["比肩"; "劫财"; "正印"; "偏印"] dayunTenGod
     then analysis ++ "，此运可能过于强势，需要学会收敛和包容"
     else analysis)
  else analysis.

Record Dayun := mkDayun {
  period : Z;
  start_age : Z;
  end_age : Z;
  dayun_stem : string;
  dayun_branch : string;
  dayun_element : string;
  dayun_ten_god : string;
  ganzhi : string;
  dayun_analysis : string
}.

(** The body of the loop of [calculateDayunSequence] at step [i]. *)
Definition dayunAt (this : BaziAnalyzer) (baziChart : BaziChart)
    (isForward : bool) (monthStemIndex monthBranchIndex startAge i : Z) : Dayun :=
  let stemIndex :=
    if isForward then Z.rem (monthStemIndex + i + 1) 10
    else Z.rem (monthStemIndex - i - 1 + 10) 10 in
  let branchIndex :=
    if isForward then Z.rem (monthBranchIndex + i + 1) 12
    else Z.rem (monthBranchIndex - i - 1 + 12) 12 in
  let startAgeForThisDayun := startAge + i * 10 in
  let endAgeForThisDayun := startAgeForThisDayun + 9 in
  let dayunStem := getStemByIndex (baseData this) stemIndex in
  let dayunBranch := getBranchByIndex (baseData this) branchIndex in
  let dayunElement := getElementFromStem dayunStem in
  let dayunTenGod := calculateTenGod (day_master baziChart) dayunStem in
  mkDayun (i + 1) startAgeForThisDayun endAgeForThisDayun
    dayunStem dayunBranch dayunElement dayunTenGod
    (dayunStem ++ dayunBranch)
    (analyzeDayunPeriod baziChart dayunStem dayunBranch dayunTenGod).

Definition calculateDayunSequence (this : BaziAnalyzer) (index : BaseDataIndex)
    (baziChart : BaziChart) (gender : string) (startAge : Z) : list Dayun :=
  let monthStemIndex :=
    getStemIndex index (ChartPillar.stem (month_pillar baziChart)) in
  let monthBranchIndex :=
    getBranchIndex index (ChartPillar.branch (month_pillar baziChart)) in
  let isForward := isForwardLuck index baziChart gender in
  map (fun i => dayunAt this baziChart isForward monthStemIndex monthBranchIndex
                  startAge (Z.of_nat i))
      (seq 0 8).

(** [dayunSequence.find(...) || null] *)
Definition getCurrentDayun (dayunSequence : list Dayun) (currentAge : Z)
    : option Dayun :=
  find (fun dayun =>
          (start_age dayun <=? currentAge) && (currentAge <=? end_age dayun))
       dayunSequence.

(** A number in a template string prints in decimal. *)
Definition Z_to_string (n : Z) : string :=
  NilZero.string_of_int (Z.to_int n).

(** The template of [current_period] in [calculatePreciseFortune]. *)
Definition currentPeriodText (currentDayun : option Dayun) : string :=
  match currentDayun with
  | Some d =>
      Z_to_string (start_age d) ++ "-" ++ Z_to_string (end_age d) ++ "岁 "
      ++ dayun_stem d ++ dayun_branch d ++ "大运"
  | None => "未起运"
  end.

(** The fields of [calculatePreciseFortune] that do not depend on the prose
    analyses ([current_year_analysis], [next_decade_forecast],
    [dayun_analysis] and [detailed_yearly_analysis] are not embedded).
    [birthYear], [birthMonth] and [birthDay] are the getters of
    [new Date(birth_date)] and [currentYear] is [new Date().getFullYear()]. *)
Record Fortune := mkFortune {
  current_age : Z;
  start_luck_age : Z;
  current_period : string;
  current_dayun : option Dayun;
  life_periods : list Dayun
}.

Definition calculatePreciseFortune (this : BaziAnalyzer) (index : BaseDataIndex)
    (baziChart : BaziChart) (birthYear birthMonth birthDay : Z)
    (gender : string) (currentYear : Z) : Fortune :=
  let currentAge := currentYear - birthYear in
  let startLuckAge :=
    calculateStartLuckAge index baziChart birthMonth birthDay gender in
  let dayunSequence :=
    calculateDayunSequence this index baziChart gender startLuckAge in
  let currentDayun := getCurrentDayun dayunSequence currentAge in
  mkFortune currentAge startLuckAge (currentPeriodText currentDayun)
    currentDayun dayunSequence.

(** ** The current year *)

Definition yearAdvice : list (string * string) :=
  [("比肩", "适合合作发展，朋友运佳，但要注意理财");
   ("劫财", "竞争激烈，需要谨慎投资，避免借贷");
   ("食神", "创意丰富，身体健康，适合艺术创作");
   ("伤官", "才华横溢，但要注意言行，避免口舌是非");
   ("正财", "财运稳定，适合投资，感情顺利");
   ("偏财", "财运机会多，但要控制风险，避免投机");
   ("正官", "事业运佳，适合求职升迁，社会地位提升");
   ("七杀", "挑战较多，需要勇敢面对，适合开拓");
   ("正印", "学习运佳，贵人相助，适合进修");
   ("偏印", "思维敏锐，适合研发，但要注意健康")].

(** The sentence on the year against the current luck period; the chain
    has no final [else]. *)
Definition dayunYearSentence (dayunYearRelation : string) : string :=
  if String.eqb dayunYearRelation "same" then "流年与大运同气，运势较为稳定。"
  else if String.eqb dayunYearRelation "generate"
  then "流年生大运，有贵人相助，运势向好。"
  else if String.eqb dayunYearRelation "overcome"
  then "流年克大运，需要谨慎应对，避免冲动。"
  else if String.eqb dayunYearRelation "beGenerated"
  then "大运生流年，付出较多，但有收获。"
  else if String.eqb dayunYearRelation "beOvercome"
  then "大运克流年，压力较大，需要坚持。"
  else "".

Definition analyzeCurrentYear (this : BaziAnalyzer) (baziChart : BaziChart)
    (currentYear : Z) (currentDayun : option Dayun) : string :=
  let yearStemIndex := Z.rem (currentYear - 4) 10 in
  let yearBranchIndex := Z.rem (currentYear - 4) 12 in
  let yearStem := getStemByIndex (baseData this) yearStemIndex in
  let yearBranch := getBranchByIndex (baseData this) yearBranchIndex in
  let yearTenGod := calculateTenGod (day_master baziChart) yearStem in
  let analysis :=
    Z_to_string currentYear ++ "年" ++ yearStem ++ yearBranch
    ++ "，流年十神为" ++ yearTenGod ++ "。" in
  let analysis :=
    match currentDayun with
    | Some dayun =>
        let dayunYearRelation :=
          getElementRelation (getElementFromStem yearStem)
                             (getElementFromStem (dayun_stem dayun)) in
        analysis ++ dayunYearSentence dayunYearRelation
    | None => analysis
    end in
  analysis
  ++ js_or (js_get yearAdvice yearTenGod) "需要根据具体情况灵活应对".

(** ** Solar terms by calendar day *)

(** The table of [calculateSolarTerm]: each month an object keyed by the
    day of a term.  [Object.entries] lists the keys of such an object in
    ascending order, which is the order of each row. *)
Definition solarTermsByDay : list (Z * list (Z * string)) :=
  [(2, [(3, "立春"); (18, "雨水")]);
   (3, [(5, "惊蛰"); (20, "春分")]);
   (4, [(4, "清明"); (20, "谷雨")]);
   (5, [(5, "立夏"); (21, "小满")]);
   (6, [(5, "芒种"); (21, "夏至")]);
   (7, [(7, "小暑"); (22, "大暑")]);
   (8, [(7, "立秋"); (23, "处暑")]);
   (9, [(7, "白露"); (23, "秋分")]);
   (10, [(8, "寒露"); (23, "霜降")]);
   (11, [(7, "立冬"); (22, "小雪")]);
   (12, [(7, "大雪"); (22, "冬至")]);
   (1, [(5, "小寒"); (20, "大寒")])].

Definition calculateSolarTerm (month day : Z) : string :=
  match js_get_num solarTermsByDay month with
  | Some monthTerms =>
      match find (fun entry : Z * string =>
                    (fst entry - 2 <=? day) && (day <=? fst entry + 2))
                 monthTerms with
      | Some (_, termName) => termName
      | None => "节气间"
      end
  | None => "节气间"
  end.

(** The table of [calculateDetailedSolarTerm]: each month an array of two
    terms [{ day, name }]. *)
Definition solarTermsDetailed : list (Z * list (Z * string)) :=
  [(1, [(5, "小寒"); (20, "大寒")]);
   (2, [(3, "立春"); (18, "雨水")]);
   (3, [(5, "惊蛰"); (20, "春分")]);
   (4, [(4, "清明"); (20, "谷雨")]);
   (5, [(5, "立夏"); (21, "小满")]);
   (6, [(5, "芒种"); (21, "夏至")]);
   (7, [(7, "小暑"); (22, "大暑")]);
   (8, [(7, "立秋"); (23, "处暑")]);
   (9, [(7, "白露"); (23, "秋分")]);
   (10, [(8, "寒露"); (23, "霜降")]);
   (11, [(7, "立冬"); (22, "小雪")]);
   (12, [(7, "大雪"); (22, "冬至")])].

(** The destructuring [[firstTerm, secondTerm]] of a month's array. *)
Definition twoTerms (monthTerms : list (Z * string))
    : option ((Z * string) * (Z * string)) :=
  match monthTerms with
  | firstTerm :: secondTerm :: _ => Some (firstTerm, secondTerm)
  | _ => None
  end.

Definition calculateDetailedSolarTerm (month day : Z) : string :=
  match js_get_num solarTermsDetailed month with
  | None => "节气间"
  | Some monthTerms =>
      match twoTerms monthTerms with
      | None => "节气间"
      | Some (firstTerm, secondTerm) =>
          if day <? fst firstTerm - 2 then
            let prevMonth := if month =? 1 then 12 else month - 1 in
            match js_get_num solarTermsDetailed prevMonth with
            | Some (_ :: prevSecond :: _) =>
                snd prevSecond ++ "后至" ++ snd firstTerm ++ "前"
            | _ => snd firstTerm ++ "前"
            end
          else if (fst firstTerm - 2 <=? day) && (day <=? fst firstTerm + 2)
          then snd firstTerm ++ "期间"
          else if (fst firstTerm + 2 <? day) && (day <? fst secondTerm - 2)
          then snd firstTerm ++ "后至" ++ snd secondTerm ++ "前"
          else if (fst secondTerm - 2 <=? day) && (day <=? fst secondTerm + 2)
          then snd secondTerm ++ "期间"
          else
            let nextMonth := if month =? 12 then 1 else month + 1 in
            match js_get_num solarTermsDetailed nextMonth with
            | Some (nextFirst :: _) =>
                snd secondTerm ++ "后至" ++ snd nextFirst ++ "前"
            | _ => snd secondTerm ++ "后"
            end
      end
  end.

(** * YijingAnalyzer: hexagrams

    The hexagram table and the pure functions of class [YijingAnalyzer] in
    the same file.  A hexagram object is embedded with the fields the
    functions below read ([number], [name], [symbol], [binary], the two
    trigrams, [judgment] and the six [lines]); its other fields ([meaning],
    [image], [guidance], [career], [relationship], [keyMessage],
    [actionAdvice], [philosophy]) are prose read only by the text
    generators, which are not embedded. *)

Module Line.
Record t := mk {
  type : string;
  text : string;
  image : string
}.
End Line.

Module Hexagram.
Record t := mk {
  number : Z;
  name : string;
  symbol : string;
  binary : string;
  upperTrigram : string;
  lowerTrigram : string;
  judgment : string;
  lines : list Line.t
}.
End Hexagram.

Definition hexagram_1 : Hexagram.t :=
  Hexagram.mk 1 "乾" "䷀" "111111" "乾" "乾"
    "元亨，利贞。"
    [Line.mk "yang" "潜龙勿用。" "阳在下也。";
     Line.mk "yang" "见龙在田，利见大人。" "德施普也。";
     Line.mk "yang" "君子终日乾乾，夕惕若厉，无咎。" "反复道也。";
     Line.mk "yang" "或跃在渊，无咎。" "进无咎也。";
     Line.mk "yang" "飞龙在天，利见大人。" "大人造也。";
     Line.mk "yang" "亢龙有悔。" "盈不可久也。"].

Definition hexagram_2 : Hexagram.t :=
  Hexagram.mk 2 "坤" "䷁" "000000" "坤" "坤"
    "元亨，利牝马之贞。"
    [Line.mk "yin" "履霜，坚冰至。" "履霜坚冰，阴始凝也。";
     Line.mk "yin" "直，方，大，不习无不利。" "六二之动，直以方也。";
     Line.mk "yin" "含章可贞。或从王事，无成有终。" "含章可贞，以时发也。";
     Line.mk "yin" "括囊；无咎，无誉。" "括囊无咎，慎不害也。";
     Line.mk "yin" "黄裳，元吉。" "黄裳元吉，文在中也。";
     Line.mk "yin" "龙战于野，其血玄黄。" "龙战于野，其道穷也。"].

Definition hexagram_3 : Hexagram.t :=
  Hexagram.mk 3 "屯" "䷂" "010001" "坎" "震"
    "元亨，利贞。勿用有攸往，利建侯。"
    [Line.mk "yang" "磐桓，利居贞，利建侯。" "以贵下贱，大得民也。";
     Line.mk "yin" "屯如邅如，乘马班如。匪寇婚媾，女子贞不字，十年乃字。" "六二之难，乘刚也。";
     Line.mk "yin" "即鹿无虞，惟入于林中。君子几，不如舍，往吝。" "即鹿无虞，以从禽也。";
     Line.mk "yin" "乘马班如，求婚媾，往吉，无不利。" "求而往，明也。";
     Line.mk "yang" "屯其膏，小贞吉，大贞凶。" "屯其膏，施未光也。";
     Line.mk "yin" "乘马班如，泣血涟如。" "何可长也。"].

Definition hexagram_4 : Hexagram.t :=
  Hexagram.mk 4 "蒙" "䷃" "100010" "艮" "坎"
    "亨。匪我求童蒙，童蒙求我。初筮告，再三渎，渎则不告。利贞。"
    [Line.mk "yin" "发蒙，利用刑人，用说桎梏，以往吝。" "利用刑人，以正法也。";
     Line.mk "yang" "包蒙，吉。纳妇，吉。子克家。" "子克家，刚柔接也。";
     Line.mk "yin" "勿用取女，见金夫，不有躬，无攸利。" "勿用取女，行不顺也。";
     Line.mk "yin" "困蒙，吝。" "困蒙之吝，独远实也。";
     Line.mk "yin" "童蒙，吉。" "童蒙之吉，顺以巽也。";
     Line.mk "yang" "击蒙，不利为寇，利御寇。" "利御寇，上下顺也。"].

Definition hexagram_5 : Hexagram.t :=
  Hexagram.mk 5 "需" "䷄" "111010" "坎" "乾"
    "有孚，光亨，贞吉。利涉大川。"
    [Line.mk "yang" "需于郊，利用恒，无咎。" "需于郊，不犯难行也。";
     Line.mk "yang" "需于沙，小有言，终吉。" "需于沙，衍在中也。";
     Line.mk "yang" "需于泥，致寇至。" "需于泥，灾在外也。";
     Line.mk "yin" "需于血，出自穴。" "需于血，顺以听也。";
     Line.mk "yang" "需于酒食，贞吉。" "酒食贞吉，以中正也。";
     Line.mk "yin" "入于穴，有不速之客三人来，敬之终吉。" "不速之客来，敬之终吉。虽不当位，未大失也。"].

Definition hexagram_6 : Hexagram.t :=
  Hexagram.mk 6 "讼" "䷅" "010111" "乾" "坎"
    "有孚，窒惕，中吉。终凶。利见大人，不利涉大川。"
    [Line.mk "yin" "不永所事，小有言，终吉。" "不永所事，讼不可长也。";
     Line.mk "yang" "不克讼，归而逋，其邑人三百户，无眚。" "不克讼，归逋窜也。";
     Line.mk "yin" "食旧德，贞厉，终吉。或从王事，无成。" "食旧德，从上吉也。";
     Line.mk "yang" "不克讼，复即命，渝安贞，吉。" "复即命，渝安贞，不失也。";
     Line.mk "yang" "讼，元吉。" "讼元吉，以中正也。";
     Line.mk "yang" "或锡之鞶带，终朝三褫之。" "以讼受服，亦不足敬也。"].

Definition hexagram_7 : Hexagram.t :=
  Hexagram.mk 7 "师" "䷆" "000010" "坤" "坎"
    "贞，丈人吉，无咎。"
    [Line.mk "yin" "师出以律，否臧凶。" "师出以律，失次凶也。";
     Line.mk "yang" "在师中，吉，无咎，王三锡命。" "在师中吉，承天宠也。";
     Line.mk "yin" "师或舆尸，凶。" "师或舆尸，大无功也。";
     Line.mk "yin" "师左次，无咎。" "左次无咎，未失常也。";
     Line.mk "yin" "田有禽，利执言，无咎。长子帅师，弟子舆尸，贞凶。" "长子帅师，以中行也。";
     Line.mk "yin" "大君有命，开国承家，小人勿用。" "大君有命，以正功也。"].

Definition hexagram_8 : Hexagram.t :=
  Hexagram.mk 8 "比" "䷇" "010000" "坎" "坤"
    "吉。原筮，元永贞，无咎。不宁方来，后夫凶。"
    [Line.mk "yin" "有孚比之，无咎。有孚盈缶，终来有他吉。" "比之初六，有他吉也。";
     Line.mk "yin" "比之自内，贞吉。" "比之自内，不自失也。";
     Line.mk "yin" "比之匪人。" "比之匪人，不亦伤乎！";
     Line.mk "yin" "外比之，贞吉。" "外比于贤，以从上也。";
     Line.mk "yang" "显比，王用三驱，失前禽。邑人不诫，吉。" "显比之吉，位正中也。";
     Line.mk "yin" "比之无首，凶。" "比之无首，无所终也。"].

Definition hexagram_9 : Hexagram.t :=
  Hexagram.mk 9 "小畜" "䷈" "110111" "巽" "乾"
    "亨。密云不雨，自我西郊。"
    [Line.mk "yang" "复自道，何其咎？吉。" "复自道，其义吉也。";
     Line.mk "yang" "牵复，吉。" "牵复在中，亦不自失也。";
     Line.mk "yang" "舆说辐，夫妻反目。" "夫妻反目，不能正室也。";
     Line.mk "yin" "有孚，血去惕出，无咎。" "有孚惕出，上合志也。";
     Line.mk "yang" "有孚挛如，富以其邻。" "有孚挛如，不独富也。";
     Line.mk "yang" "既雨既处，尚德载，妇贞厉。月几望，君子征凶。" "既雨既处，德积载也。君子征凶，有所疑也。"].

Definition hexagram_10 : Hexagram.t :=
  Hexagram.mk 10 "履" "䷉" "111011" "乾" "兑"
    "履虎尾，不咥人，亨。"
    [Line.mk "yang" "素履，往无咎。" "素履之往，独行愿也。";
     Line.mk "yang" "履道坦坦，幽人贞吉。" "幽人贞吉，中不自乱也。";
     Line.mk "yin" "眇能视，跛能履，履虎尾咥人，凶。武人为于大君。" "眇能视，不足以有明也。跛能履，不足以与行也。咥人之凶，位不当也。武人为于大君，志刚也。";
     Line.mk "yang" "履虎尾，愬愬终吉。" "愬愬终吉，志行也。";
     Line.mk "yang" "夬履，贞厉。" "夬履贞厉，位正当也。";
     Line.mk "yang" "视履考祥，其旋元吉。" "元吉在上，大有庆也。"].

Definition hexagram_11 : Hexagram.t :=
  Hexagram.mk 11 "泰" "䷊" "000111" "坤" "乾"
    "小往大来，吉，亨。"
    [Line.mk "yang" "拔茅茹，以其汇，征吉。" "拔茅征吉，志在外也。";
     Line.mk "yang" "包荒，用冯河，不遐遗，朋亡，得尚于中行。" "包荒，得尚于中行，以光大也。";
     Line.mk "yang" "无平不陂，无往不复，艰贞无咎。勿恤其孚，于食有福。" "无往不复，天地际也。";
     Line.mk "yin" "翩翩不富以其邻，不戒以孚。" "翩翩不富，皆失实也。不戒以孚，中心愿也。";
     Line.mk "yin" "帝乙归妹，以祉元吉。" "以祉元吉，中以行愿也。";
     Line.mk "yin" "城复于隍，勿用师。自邑告命，贞吝。" "城复于隍，其命乱也。"].

Definition hexagram_12 : Hexagram.t :=
  Hexagram.mk 12 "否" "䷋" "111000" "乾" "坤"
    "否之匪人，不利君子贞，大往小来。"
    [Line.mk "yin" "拔茅茹，以其汇，贞吉，亨。" "拔茅贞吉，志在君也。";
     Line.mk "yin" "包承，小人吉，大人否，亨。" "大人否亨，不乱群也。";
     Line.mk "yin" "包羞。" "包羞，位不当也。";
     Line.mk "yang" "有命无咎，畴离祉。" "有命无咎，志行也。";
     Line.mk "yang" "休否，大人吉。其亡其亡，系于苞桑。" "大人之吉，位正当也。";
     Line.mk "yang" "倾否，先否后喜。" "否终则倾，何可长也。"].

Definition hexagram_13 : Hexagram.t :=
  Hexagram.mk 13 "同人" "䷌" "101111" "乾" "离"
    "同人于野，亨。利涉大川，利君子贞。"
    [Line.mk "yang" "同人于门，无咎。" "出门同人，又谁咎也。";
     Line.mk "yin" "同人于宗，吝。" "同人于宗，吝道也。";
     Line.mk "yang" "伏戎于莽，升其高陵，三岁不兴。" "伏戎于莽，敌刚也。三岁不兴，安行也。";
     Line.mk "yang" "乘其墉，弗克攻，吉。" "乘其墉，义弗克也。其吉，则困而反则也。";
     Line.mk "yang" "同人，先号咷而后笑，大师克相遇。" "同人之先，以中直也。大师相遇，言相克也。";
     Line.mk "yang" "同人于郊，无悔。" "同人于郊，志未得也。"].

Definition hexagram_14 : Hexagram.t :=
  Hexagram.mk 14 "大有" "䷍" "111101" "离" "乾"
    "元亨。"
    [Line.mk "yang" "无交害，匪咎，艰则无咎。" "大有初九，无交害也。";
     Line.mk "yang" "大车以载，有攸往，无咎。" "大车以载，积中不败也。";
     Line.mk "yang" "公用亨于天子，小人弗克。" "公用亨于天子，小人害也。";
     Line.mk "yang" "匪其彭，无咎。" "匪其彭，无咎，明辨皙也。";
     Line.mk "yin" "厥孚交如，威如，吉。" "厥孚交如，信以发志也。威如之吉，易而无备也。";
     Line.mk "yang" "自天佑之，吉无不利。" "大有上吉，自天佑也。"].

Definition hexagram_15 : Hexagram.t :=
  Hexagram.mk 15 "谦" "䷎" "001000" "坤" "艮"
    "亨，君子有终。"
    [Line.mk "yin" "谦谦君子，用涉大川，吉。" "谦谦君子，卑以自牧也。";
     Line.mk "yin" "鸣谦，贞吉。" "鸣谦贞吉，中心得也。";
     Line.mk "yang" "劳谦，君子有终，吉。" "劳谦君子，万民服也。";
     Line.mk "yin" "无不利，撝谦。" "无不利撝谦，不违则也。";
     Line.mk "yin" "不富以其邻，利用侵伐，无不利。" "利用侵伐，征不服也。";
     Line.mk "yin" "鸣谦，利用行师，征邑国。" "鸣谦，志未得也。可用行师，征邑国也。"].

Definition hexagram_16 : Hexagram.t :=
  Hexagram.mk 16 "豫" "䷏" "000100" "震" "坤"
    "利建侯行师。"
    [Line.mk "yin" "鸣豫，凶。" "初六鸣豫，志穷凶也。";
     Line.mk "yin" "介于石，不终日，贞吉。" "不终日贞吉，以中正也。";
     Line.mk "yin" "盱豫悔，迟有悔。" "盱豫有悔，位不当也。";
     Line.mk "yang" "由豫，大有得，勿疑朋盍簪。" "由豫大有得，志大行也。";
     Line.mk "yin" "贞疾，恒不死。" "六五贞疾，乘刚也。恒不死，中未亡也。";
     Line.mk "yin" "冥豫，成有渝，无咎。" "冥豫在上，何可长也。"].

Definition hexagram_17 : Hexagram.t :=
  Hexagram.mk 17 "随" "䷐" "100110" "兑" "震"
    "元亨，利贞，无咎。"
    [Line.mk "yang" "官有渝，贞吉。出门交有功。" "官有渝，从正吉也。出门交有功，不失也。";
     Line.mk "yin" "系小子，失丈夫。" "系小子，弗兼与也。";
     Line.mk "yin" "系丈夫，失小子。随有求得，利居贞。" "系丈夫，志舍下也。";
     Line.mk "yang" "随有获，贞凶。有孚在道，以明，何咎。" "随有获，其义凶也。有孚在道，明功也。";
     Line.mk "yang" "孚于嘉，吉。" "孚于嘉吉，位正中也。";
     Line.mk "yin" "拘系之，乃从维之。王用亨于西山。" "拘系之，上穷也。"].

Definition hexagram_18 : Hexagram.t :=
  Hexagram.mk 18 "蛊" "䷑" "011001" "艮" "巽"
    "元亨，利涉大川。先甲三日，后甲三日。"
    [Line.mk "yin" "干父之蛊，有子，考无咎，厉终吉。" "干父之蛊，意承考也。";
     Line.mk "yang" "干母之蛊，不可贞。" "干母之蛊，得中道也。";
     Line.mk "yin" "干父之蛊，小有悔，无大咎。" "干父之蛊，终无咎也。";
     Line.mk "yin" "裕父之蛊，往见吝。" "裕父之蛊，往未得也。";
     Line.mk "yin" "干父之蛊，用誉。" "干父用誉，承以德也。";
     Line.mk "yang" "不事王侯，高尚其事。" "不事王侯，志可则也。"].

Definition hexagram_19 : Hexagram.t :=
  Hexagram.mk 19 "临" "䷒" "110000" "坤" "兑"
    "元亨，利贞。至于八月有凶。"
    [Line.mk "yin" "咸临，贞吉。" "咸临贞吉，志行正也。";
     Line.mk "yin" "咸临，吉无不利。" "咸临吉无不利，未顺命也。";
     Line.mk "yin" "甘临，无攸利。既忧之，无咎。" "甘临，位不当也。既忧之，咎不长也。";
     Line.mk "yin" "至临，无咎。" "至临无咎，位当也。";
     Line.mk "yang" "知临，大君之宜，吉。" "大君之宜，行中之谓也。";
     Line.mk "yin" "敦临，吉无咎。" "敦临之吉，志在内也。"].

Definition hexagram_20 : Hexagram.t :=
  Hexagram.mk 20 "观" "䷓" "000011" "巽" "坤"
    "盥而不荐，有孚颙若。"
    [Line.mk "yin" "童观，小人无咎，君子吝。" "初六童观，小人道也。";
     Line.mk "yin" "窥观，利女贞。" "窥观女贞，亦可丑也。";
     Line.mk "yin" "观我生，进退。" "观我生，进退未失道也。";
     Line.mk "yin" "观国之光，利用宾于王。" "观国之光，尚宾也。";
     Line.mk "yang" "观我生，君子无咎。" "观我生，观民也。";
     Line.mk "yang" "观其生，君子无咎。" "观其生，志未平也。"].

Definition hexagram_21 : Hexagram.t :=
  Hexagram.mk 21 "噬嗑" "䷔" "100101" "离" "震"
    "亨。利用狱。"
    [Line.mk "yin" "屦校灭趾，无咎。" "屦校灭趾，不行也。";
     Line.mk "yin" "噬肤灭鼻，无咎。" "噬肤灭鼻，乘刚也。";
     Line.mk "yin" "噬腊肉，遇毒，小吝，无咎。" "遇毒，位不当也。";
     Line.mk "yang" "噬干胏，得金矢，利艰贞，吉。" "利艰贞吉，未光也。";
     Line.mk "yin" "噬干肉，得黄金，贞厉，无咎。" "贞厉无咎，得当也。";
     Line.mk "yang" "何校灭耳，凶。" "何校灭耳，聪不明也。"].

Definition hexagram_22 : Hexagram.t :=
  Hexagram.mk 22 "贲" "䷕" "101001" "艮" "离"
    "亨。小利有攸往。"
    [Line.mk "yang" "贲其趾，舍车而徒。" "舍车而徒，义弗乘也。";
     Line.mk "yin" "贲其须。" "贲其须，与上兴也。";
     Line.mk "yang" "贲如濡如，永贞吉。" "永贞之吉，终莫之陵也。";
     Line.mk "yin" "贲如皤如，白马翰如，匪寇婚媾。" "六四当位疑也。匪寇婚媾，终无尤也。";
     Line.mk "yin" "贲于丘园，束帛戋戋，吝，终吉。" "六五之吉，有喜也。";
     Line.mk "yang" "白贲，无咎。" "白贲无咎，上得志也。"].

Definition hexagram_23 : Hexagram.t :=
  Hexagram.mk 23 "剥" "䷖" "000001" "艮" "坤"
    "不利有攸往。"
    [Line.mk "yin" "剥床以足，蔑贞凶。" "剥床以足，以灭下也。";
     Line.mk "yin" "剥床以辨，蔑贞凶。" "剥床以辨，未有与也。";
     Line.mk "yin" "剥之，无咎。" "剥之无咎，失上下也。";
     Line.mk "yin" "剥床以肤，凶。" "剥床以肤，切近灾也。";
     Line.mk "yin" "贯鱼，以宫人宠，无不利。" "以宫人宠，终无尤也。";
     Line.mk "yang" "硕果不食，君子得舆，小人剥庐。" "君子得舆，民所载也。小人剥庐，终不可用也。"].

Definition hexagram_24 : Hexagram.t :=
  Hexagram.mk 24 "复" "䷗" "100000" "坤" "震"
    "亨。出入无疾，朋来无咎。反复其道，七日来复，利有攸往。"
    [Line.mk "yin" "不远复，无祗悔，元吉。" "不远之复，以修身也。";
     Line.mk "yin" "休复，吉。" "休复之吉，以下仁也。";
     Line.mk "yin" "频复，厉无咎。" "频复之厉，义无咎也。";
     Line.mk "yin" "中行独复。" "中行独复，以从道也。";
     Line.mk "yin" "敦复，无悔。" "敦复无悔，中以自考也。";
     Line.mk "yin" "迷复，凶，有灾眚。用行师，终有大败，以其国君，凶，至于十年不克征。" "迷复之凶，反君道也。"].

Definition hexagram_25 : Hexagram.t :=
  Hexagram.mk 25 "无妄" "䷘" "100111" "乾" "震"
    "元亨，利贞。其匪正有眚，不利有攸往。"
    [Line.mk "yang" "无妄，往吉。" "无妄之往，得志也。";
     Line.mk "yin" "不耕获，不菑畲，则利有攸往。" "不耕获，未富也。";
     Line.mk "yin" "无妄之灾，或系之牛，行人之得，邑人之灾。" "行人得牛，邑人灾也。";
     Line.mk "yang" "可贞，无咎。" "可贞无咎，固有之也。";
     Line.mk "yang" "无妄之疾，勿药有喜。" "无妄之药，不可试也。";
     Line.mk "yin" "无妄，行有眚，无攸利。" "无妄之行，穷之灾也。"].

Definition hexagram_26 : Hexagram.t :=
  Hexagram.mk 26 "大畜" "䷙" "111001" "艮" "乾"
    "利贞。不家食吉。利涉大川。"
    [Line.mk "yang" "有厉，利已。" "有厉利已，不犯灾也。";
     Line.mk "yang" "舆说輹。" "舆说輹，中无尤也。";
     Line.mk "yang" "良马逐，利艰贞。曰闲舆卫，利有攸往。" "利有攸往，上合志也。";
     Line.mk "yin" "童牛之牿，元吉。" "六四元吉，有喜也。";
     Line.mk "yin" "豮豕之牙，吉。" "六五之吉，有庆也。";
     Line.mk "yang" "何天之衢，亨。" "何天之衢，道大行也。"].

Definition hexagram_27 : Hexagram.t :=
  Hexagram.mk 27 "颐" "䷚" "100001" "艮" "震"
    "贞吉。观颐，自求口实。"
    [Line.mk "yang" "舍尔灵龟，观我朵颐，凶。" "观我朵颐，亦不足贵也。";
     Line.mk "yin" "颠颐，拂经，于丘颐，征凶。" "六二征凶，行失类也。";
     Line.mk "yin" "拂颐，贞凶，十年勿用，无攸利。" "十年勿用，道大悖也。";
     Line.mk "yin" "颠颐，吉。虎视眈眈，其欲逐逐，无咎。" "颠颐之吉，上施光也。";
     Line.mk "yin" "拂经，居贞吉，不可涉大川。" "居贞之吉，顺以从上也。";
     Line.mk "yang" "由颐，厉吉，利涉大川。" "由颐厉吉，大有庆也。"].

Definition hexagram_28 : Hexagram.t :=
  Hexagram.mk 28 "大过" "䷛" "011110" "兑" "巽"
    "栋桡，利有攸往，亨。"
    [Line.mk "yin" "藉用白茅，无咎。" "藉用白茅，柔在下也。";
     Line.mk "yang" "枯杨生稊，老夫得其女妻，无不利。" "老夫女妻，过以相与也。";
     Line.mk "yang" "栋桡，凶。" "栋桡之凶，不可以有辅也。";
     Line.mk "yang" "栋隆，吉。有它吝。" "栋隆之吉，不桡乎下也。";
     Line.mk "yin" "枯杨生华，老妇得其士夫，无咎无誉。" "枯杨生华，何可久也。老妇士夫，亦可丑也。";
     Line.mk "yin" "过涉灭顶，凶，无咎。" "过涉之凶，不可咎也。"].

Definition hexagram_29 : Hexagram.t :=
  Hexagram.mk 29 "坎" "䷜" "010010" "坎" "坎"
    "习坎，有孚，维心亨，行有尚。"
    [Line.mk "yin" "习坎，入于坎窞，凶。" "习坎入坎，失道凶也。";
     Line.mk "yang" "坎有险，求小得。" "求小得，未出中也。";
     Line.mk "yin" "来之坎坎，险且枕，入于坎窞，勿用。" "来之坎坎，终无功也。";
     Line.mk "yin" "樽酒簋贰，用缶，纳约自牖，终无咎。" "樽酒簋贰，刚柔际也。";
     Line.mk "yang" "坎不盈，祇既平，无咎。" "坎不盈，中未大也。";
     Line.mk "yin" "系用徽纆，置于丛棘，三岁不得，凶。" "上六失道，凶三岁也。"].

Definition hexagram_30 : Hexagram.t :=
  Hexagram.mk 30 "离" "䷝" "101101" "离" "离"
    "利贞，亨。畜牝牛，吉。"
    [Line.mk "yang" "履错然，敬之，无咎。" "履错之敬，以辟咎也。";
     Line.mk "yin" "黄离，元吉。" "黄离元吉，得中道也。";
     Line.mk "yang" "日昃之离，不鼓缶而歌，则大耋之嗟，凶。" "日昃之离，何可久也。";
     Line.mk "yang" "突如其来如，焚如，死如，弃如。" "突如其来如，无所容也。";
     Line.mk "yin" "出涕沱若，戚嗟若，吉。" "六五之吉，离王公也。";
     Line.mk "yang" "王用出征，有嘉折首，获匪其丑，无咎。" "王用出征，以正邦也。"].

Definition hexagram_31 : Hexagram.t :=
  Hexagram.mk 31 "咸" "䷞" "110100" "兑" "艮"
    "亨，利贞。取女吉。"
    [Line.mk "yin" "咸其拇。" "咸其拇，志在外也。";
     Line.mk "yin" "咸其腓，凶，居吉。" "虽凶居吉，顺不害也。";
     Line.mk "yang" "咸其股，执其随，往吝。" "咸其股，亦不处也。志在随人，所执下也。";
     Line.mk "yang" "贞吉，悔亡。憧憧往来，朋从尔思。" "贞吉悔亡，未感害也。憧憧往来，未光大也。";
     Line.mk "yin" "咸其脢，无悔。" "咸其脢，志末也。";
     Line.mk "yin" "咸其辅颊舌。" "咸其辅颊舌，滕口说也。"].

Definition hexagram_32 : Hexagram.t :=
  Hexagram.mk 32 "恒" "䷟" "001110" "震" "巽"
    "亨，无咎，利贞。利有攸往。"
    [Line.mk "yin" "浚恒，贞凶，无攸利。" "浚恒之凶，始求深也。";
     Line.mk "yang" "悔亡。" "九二悔亡，能久中也。";
     Line.mk "yang" "不恒其德，或承之羞，贞吝。" "不恒其德，无所容也。";
     Line.mk "yin" "田无禽。" "久非其位，安得禽也。";
     Line.mk "yin" "恒其德，贞，妇人吉，夫子凶。" "妇人贞吉，从一而终也。夫子制义，从妇凶也。";
     Line.mk "yin" "振恒，凶。" "振恒在上，大无功也。"].

Definition hexagram_33 : Hexagram.t :=
  Hexagram.mk 33 "遁" "䷠" "111100" "乾" "艮"
    "亨，小利贞。"
    [Line.mk "yin" "遁尾，厉，勿用有攸往。" "遁尾之厉，不往何灾也。";
     Line.mk "yin" "执之用黄牛之革，莫之胜说。" "执用黄牛，固志也。";
     Line.mk "yang" "系遁，有疾厉，畜臣妾吉。" "系遁之厉，有疾惫也。畜臣妾吉，不可大事也。";
     Line.mk "yang" "好遁，君子吉，小人否。" "君子好遁，小人否也。";
     Line.mk "yang" "嘉遁，贞吉。" "嘉遁贞吉，以正志也。";
     Line.mk "yang" "肥遁，无不利。" "肥遁无不利，无所疑也。"].

Definition hexagram_34 : Hexagram.t :=
  Hexagram.mk 34 "大壮" "䷡" "111000" "震" "乾"
    "利贞。"
    [Line.mk "yang" "壮于趾，征凶，有孚。" "壮于趾，其孚穷也。";
     Line.mk "yang" "贞吉。" "九二贞吉，以中也。";
     Line.mk "yang" "小人用壮，君子用罔，贞厉。羝羊触藩，羸其角。" "小人用壮，君子罔也。";
     Line.mk "yang" "贞吉，悔亡。藩决不羸，壮于大舆之輹。" "藩决不羸，尚往也。";
     Line.mk "yin" "丧羊于易，无悔。" "丧羊于易，位不当也。";
     Line.mk "yin" "羝羊触藩，不能退，不能遂，无攸利，艰则吉。" "不能退，不能遂，不祥也。艰则吉，咎不长也。"].

Definition hexagram_35 : Hexagram.t :=
  Hexagram.mk 35 "晋" "䷢" "101000" "离" "坤"
    "康侯用锡马蕃庶，昼日三接。"
    [Line.mk "yin" "晋如摧如，贞吉。罔孚，裕无咎。" "晋如摧如，独行正也。裕无咎，未受命也。";
     Line.mk "yin" "晋如愁如，贞吉。受兹介福，于其王母。" "受兹介福，以中正也。";
     Line.mk "yang" "众允，悔亡。" "众允之志，上行也。";
     Line.mk "yang" "晋如鼫鼠，贞厉。" "鼫鼠贞厉，位不当也。";
     Line.mk "yin" "悔亡，失得勿恤，往吉，无不利。" "失得勿恤，往有庆也。";
     Line.mk "yang" "晋其角，维用伐邑，厉吉，无咎，贞吝。" "维用伐邑，道未光也。"].

Definition hexagram_36 : Hexagram.t :=
  Hexagram.mk 36 "明夷" "䷣" "010001" "坤" "离"
    "利艰贞。"
    [Line.mk "yin" "明夷于飞，垂其翼。君子于行，三日不食。有攸往，主人有言。" "君子于行，义不食也。";
     Line.mk "yin" "明夷，夷于左股，用拯马壮，吉。" "六二之吉，顺以则也。";
     Line.mk "yang" "明夷于南狩，得其大首，不可疾贞。" "南狩之志，乃大得也。";
     Line.mk "yin" "入于左腹，获明夷之心，于出门庭。" "入于左腹，获心意也。";
     Line.mk "yin" "箕子之明夷，利贞。" "箕子之贞，明不可息也。";
     Line.mk "yin" "不明晦，初登于天，后入于地。" "初登于天，照四国也。后入于地，失则也。"].

Definition hexagram_37 : Hexagram.t :=
  Hexagram.mk 37 "家人" "䷤" "110101" "巽" "离"
    "利女贞。"
    [Line.mk "yang" "闲有家，悔亡。" "闲有家，志未变也。";
     Line.mk "yin" "无攸遂，在中馈，贞吉。" "六二之吉，顺以巽也。";
     Line.mk "yang" "家人嗃嗃，悔厉吉。妇子嘻嘻，终吝。" "家人嗃嗃，未失也。妇子嘻嘻，失家节也。";
     Line.mk "yin" "富家，大吉。" "富家大吉，顺在位也。";
     Line.mk "yang" "王假有家，勿恤，吉。" "王假有家，交相爱也。";
     Line.mk "yang" "有孚威如，终吉。" "威如之吉，反身之谓也。"].

Definition hexagram_38 : Hexagram.t :=
  Hexagram.mk 38 "睽" "䷥" "010110" "离" "兑"
    "小事吉。"
    [Line.mk "yang" "悔亡。丧马勿逐，自复。见恶人无咎。" "见恶人，以辟咎也。";
     Line.mk "yin" "遇主于巷，无咎。" "遇主于巷，未失道也。";
     Line.mk "yin" "见舆曳，其牛掣，其人天且劓，无初有终。" "见舆曳，位不当也。无初有终，遇刚也。";
     Line.mk "yang" "睽孤，遇元夫，交孚，厉无咎。" "交孚无咎，志行也。";
     Line.mk "yin" "悔亡。厥宗噬肤，往何咎。" "厥宗噬肤，往有庆也。";
     Line.mk "yang" "睽孤，见豕负涂，载鬼一车，先张之弧，后说之弧，匪寇婚媾，往遇雨则吉。" "遇雨之吉，群疑亡也。"].

Definition hexagram_39 : Hexagram.t :=
  Hexagram.mk 39 "蹇" "䷦" "001010" "坎" "艮"
    "利西南，不利东北。利见大人，贞吉。"
    [Line.mk "yin" "往蹇，来誉。" "往蹇来誉，宜待也。";
     Line.mk "yang" "王臣蹇蹇，匪躬之故。" "王臣蹇蹇，终无尤也。";
     Line.mk "yin" "往蹇，来反。" "往蹇来反，内喜之也。";
     Line.mk "yin" "往蹇，来连。" "往蹇来连，当位实也。";
     Line.mk "yang" "大蹇，朋来。" "大蹇朋来，以中节也。";
     Line.mk "yin" "往蹇，来硕，吉。利见大人。" "往蹇来硕，志在内也。利见大人，以从贵也。"].

Definition hexagram_40 : Hexagram.t :=
  Hexagram.mk 40 "解" "䷧" "010100" "震" "坎"
    "利西南。无所往，其来复吉。有攸往，夙吉。"
    [Line.mk "yin" "无咎。" "刚柔之际，义无咎也。";
     Line.mk "yang" "田获三狐，得黄矢，贞吉。" "九二贞吉，得中道也。";
     Line.mk "yin" "负且乘，致寇至，贞吝。" "负且乘，亦可丑也。自我致戎，又谁咎也。";
     Line.mk "yang" "解而拇，朋至斯孚。" "解而拇，未当位也。";
     Line.mk "yin" "君子维有解，吉，有孚于小人。" "君子有解，小人退也。";
     Line.mk "yang" "公用射隼于高墉之上，获之，无不利。" "公用射隼，以解悖也。"].

Definition hexagram_41 : Hexagram.t :=
  Hexagram.mk 41 "损" "䷨" "110001" "艮" "兑"
    "有孚，元吉，无咎，可贞。利有攸往。曷之用？二簋可用享。"
    [Line.mk "yang" "已事遄往，无咎，酌损之。" "已事遄往，尚合志也。";
     Line.mk "yang" "利贞，征凶，弗损益之。" "九二利贞，中以为志也。";
     Line.mk "yin" "三人行，则损一人；一人行，则得其友。" "一人行，三则疑也。";
     Line.mk "yin" "损其疾，使遄有喜，无咎。" "损其疾，亦可喜也。";
     Line.mk "yin" "或益之，十朋之龟弗克违，元吉。" "六五元吉，自上佑也。";
     Line.mk "yang" "弗损益之，无咎，贞吉。利有攸往，得臣无家。" "弗损益之，大得志也。"].

Definition hexagram_42 : Hexagram.t :=
  Hexagram.mk 42 "益" "䷩" "100011" "巽" "震"
    "利有攸往，利涉大川。"
    [Line.mk "yang" "利用为大作，元吉，无咎。" "元吉无咎，下不厚事也。";
     Line.mk "yin" "或益之，十朋之龟弗克违，永贞吉。王用享于帝，吉。" "或益之，自外来也。";
     Line.mk "yin" "益之用凶事，无咎。有孚中行，告公用圭。" "益用凶事，固有之也。";
     Line.mk "yang" "中行，告公从。利用为依迁国。" "告公从，以益志也。";
     Line.mk "yang" "有孚惠心，勿问元吉。有孚惠我德。" "有孚惠心，勿问之矣。惠我德，大得志也。";
     Line.mk "yin" "莫益之，或击之，立心勿恒，凶。" "莫益之，偏辞也。或击之，自外来也。"].

Definition hexagram_43 : Hexagram.t :=
  Hexagram.mk 43 "夬" "䷪" "111110" "兑" "乾"
    "扬于王庭，孚号有厉。告自邑，不利即戎，利有攸往。"
    [Line.mk "yang" "壮于前趾，往不胜为咎。" "不胜而往，咎也。";
     Line.mk "yang" "惕号，莫夜有戎，勿恤。" "有戎勿恤，得中道也。";
     Line.mk "yang" "壮于頄，有凶。君子夬夬，独行遇雨，若濡有愠，无咎。" "君子夬夬，终无咎也。";
     Line.mk "yang" "臀无肤，其行次且。牵羊悔亡，闻言不信。" "其行次且，位不当也。闻言不信，聪不明也。";
     Line.mk "yang" "苋陆夬夬，中行无咎。" "中行无咎，中未光也。";
     Line.mk "yin" "无号，终有凶。" "无号之凶，终不可长也。"].

Definition hexagram_44 : Hexagram.t :=
  Hexagram.mk 44 "姤" "䷫" "011111" "乾" "巽"
    "女壮，勿用取女。"
    [Line.mk "yin" "系于金柅，贞吉。有攸往，见凶，羸豕孚蹢躅。" "系于金柅，柔道牵也。";
     Line.mk "yang" "包有鱼，无咎，不利宾。" "包有鱼，义不及宾也。";
     Line.mk "yang" "臀无肤，其行次且，厉，无大咎。" "其行次且，行未牵也。";
     Line.mk "yang" "包无鱼，起凶。" "无鱼之凶，远民也。";
     Line.mk "yang" "以杞包瓜，含章，有陨自天。" "九五含章，中正也。有陨自天，志不舍命也。";
     Line.mk "yang" "姤其角，吝，无咎。" "姤其角，上穷吝也。"].

Definition hexagram_45 : Hexagram.t :=
  Hexagram.mk 45 "萃" "䷬" "000110" "兑" "坤"
    "亨。王假有庙，利见大人，亨，利贞。用大牲吉，利有攸往。"
    [Line.mk "yin" "有孚不终，乃乱乃萃，若号，一握为笑，勿恤，往无咎。" "乃乱乃萃，其志乱也。";
     Line.mk "yin" "引吉，无咎，孚乃利用禴。" "引吉无咎，中未变也。";
     Line.mk "yin" "萃如，嗟如，无攸利，往无咎，小吝。" "往无咎，上巽也。";
     Line.mk "yang" "大吉，无咎。" "大吉无咎，位不当也。";
     Line.mk "yang" "萃有位，无咎。匪孚，元永贞，悔亡。" "萃有位，志未光也。";
     Line.mk "yin" "赍咨涕洟，无咎。" "赍咨涕洟，未安上也。"].

Definition hexagram_46 : Hexagram.t :=
  Hexagram.mk 46 "升" "䷭" "011000" "坤" "巽"
    "元亨，用见大人，勿恤，南征吉。"
    [Line.mk "yin" "允升，大吉。" "允升大吉，上合志也。";
     Line.mk "yang" "孚乃利用禴，无咎。" "九二之孚，有喜也。";
     Line.mk "yang" "升虚邑。" "升虚邑，无所疑也。";
     Line.mk "yin" "王用亨于岐山，吉，无咎。" "王用亨于岐山，顺事也。";
     Line.mk "yang" "贞吉，升阶。" "贞吉升阶，大得志也。";
     Line.mk "yin" "冥升，利于不息之贞。" "冥升在上，消不富也。"].

Definition hexagram_47 : Hexagram.t :=
  Hexagram.mk 47 "困" "䷮" "110010" "兑" "坎"
    "亨，贞，大人吉，无咎。有言不信。"
    [Line.mk "yin" "臀困于株木，入于幽谷，三岁不觌。" "入于幽谷，幽不明也。";
     Line.mk "yang" "困于酒食，朱绂方来，利用享祀，征凶，无咎。" "困于酒食，中有庆也。";
     Line.mk "yin" "困于石，据于蒺藜，入于其宫，不见其妻，凶。" "据于蒺藜，乘刚也。入于其宫，不见其妻，不祥也。";
     Line.mk "yang" "来徐徐，困于金车，吝，有终。" "来徐徐，志在下也。虽不当位，有与也。";
     Line.mk "yang" "劓刖，困于赤绂，乃徐有说，利用祭祀。" "劓刖志未得也。乃徐有说，以中直也。利用祭祀，受福也。";
     Line.mk "yin" "困于葛藟，于臲卼，曰动悔。有悔，征吉。" "困于葛藟，未当也。动悔有悔，吉行也。"].

Definition hexagram_48 : Hexagram.t :=
  Hexagram.mk 48 "井" "䷯" "001011" "坎" "巽"
    "改邑不改井，无丧无得，往来井井。汔至，亦未繘井，羸其瓶，凶。"
    [Line.mk "yin" "井泥不食，旧井无禽。" "井泥不食，下也。旧井无禽，时舍也。";
     Line.mk "yang" "井谷射鲋，瓮敝漏。" "井谷射鲋，无与也。";
     Line.mk "yang" "井渫不食，为我心恻。可用汲，王明，并受其福。" "井渫不食，行恻也。求王明，受福也。";
     Line.mk "yin" "井甃，无咎。" "井甃无咎，修井也。";
     Line.mk "yang" "井冽，寒泉食。" "寒泉之食，中正也。";
     Line.mk "yin" "井收勿幕，有孚元吉。" "元吉在上，大成也。"].

Definition hexagram_49 : Hexagram.t :=
  Hexagram.mk 49 "革" "䷰" "101110" "兑" "离"
    "己日乃孚，元亨利贞，悔亡。"
    [Line.mk "yang" "巩用黄牛之革。" "巩用黄牛，不可以有为也。";
     Line.mk "yin" "己日乃革之，征吉，无咎。" "己日革之，行有嘉也。";
     Line.mk "yang" "征凶，贞厉。革言三就，有孚。" "革言三就，又何之矣。";
     Line.mk "yang" "悔亡，有孚改命，吉。" "改命之吉，信志也。";
     Line.mk "yang" "大人虎变，未占有孚。" "大人虎变，其文炳也。";
     Line.mk "yin" "君子豹变，小人革面，征凶，居贞吉。" "君子豹变，其文蔚也。小人革面，顺以从君也。"].

Definition hexagram_50 : Hexagram.t :=
  Hexagram.mk 50 "鼎" "䷱" "011101" "离" "巽"
    "元吉，亨。"
    [Line.mk "yin" "鼎颠趾，利出否，得妾以其子，无咎。" "鼎颠趾，未悖也。利出否，以从贵也。";
     Line.mk "yin" "鼎有实，我仇有疾，不我能即，吉。" "鼎有实，慎所之也。我仇有疾，终无尤也。";
     Line.mk "yang" "鼎耳革，其行塞，雉膏不食，方雨亏悔，终吉。" "鼎耳革，失其义也。";
     Line.mk "yang" "鼎折足，覆公餗，其形渥，凶。" "覆公餗，信如何也。";
     Line.mk "yin" "鼎黄耳金铉，利贞。" "鼎黄耳，中以为实也。";
     Line.mk "yang" "鼎玉铉，大吉，无不利。" "玉铉在上，刚柔节也。"].

Definition hexagram_51 : Hexagram.t :=
  Hexagram.mk 51 "震" "䷲" "100100" "震" "震"
    "亨。震来虩虩，笑言哑哑。震惊百里，不丧匕鬯。"
    [Line.mk "yang" "震来虩虩，后笑言哑哑，吉。" "震来虩虩，恐致福也。笑言哑哑，后有则也。";
     Line.mk "yin" "震来厉，亿丧贝，跻于九陵，勿逐，七日得。" "震来厉，乘刚也。";
     Line.mk "yin" "震苏苏，震行无眚。" "震苏苏，位不当也。";
     Line.mk "yin" "震遂泥。" "震遂泥，未光也。";
     Line.mk "yin" "震往来厉，亿无丧，有事。" "震往来厉，危行也。其事在中，大无丧也。";
     Line.mk "yin" "震索索，视矍矍，征凶。震不于其躬，于其邻，无咎。婚媾有言。" "震索索，中未得也。虽凶无咎，畏邻戒也。"].

Definition hexagram_52 : Hexagram.t :=
  Hexagram.mk 52 "艮" "䷳" "001001" "艮" "艮"
    "艮其背，不获其身，行其庭，不见其人，无咎。"
    [Line.mk "yin" "艮其趾，无咎，利永贞。" "艮其趾，未失正也。";
     Line.mk "yin" "艮其腓，不拯其随，其心不快。" "不拯其随，未退听也。";
     Line.mk "yang" "艮其限，列其夤，厉薰心。" "艮其限，危薰心也。";
     Line.mk "yin" "艮其身，无咎。" "艮其身，止诸躬也。";
     Line.mk "yin" "艮其辅，言有序，悔亡。" "艮其辅，以中正也。";
     Line.mk "yang" "敦艮，吉。" "敦艮之吉，以厚终也。"].

Definition hexagram_53 : Hexagram.t :=
  Hexagram.mk 53 "渐" "䷴" "001011" "巽" "艮"
    "女归吉，利贞。"
    [Line.mk "yin" "鸿渐于干，小子厉，有言，无咎。" "小子之厉，义无咎也。";
     Line.mk "yin" "鸿渐于磐，饮食衎衎，吉。" "饮食衎衎，不素饱也。";
     Line.mk "yang" "鸿渐于陆，夫征不复，妇孕不育，凶。利御寇。" "夫征不复，离群丑也。妇孕不育，失其道也。利用御寇，顺相保也。";
     Line.mk "yin" "鸿渐于木，或得其桷，无咎。" "或得其桷，顺以巽也。";
     Line.mk "yang" "鸿渐于陵，妇三岁不孕，终莫之胜，吉。" "终莫之胜，吉，得所愿也。";
     Line.mk "yang" "鸿渐于逵，其羽可用为仪，吉。" "其羽可用为仪，吉，不可乱也。"].

Definition hexagram_54 : Hexagram.t :=
  Hexagram.mk 54 "归妹" "䷵" "110100" "震" "兑"
    "征凶，无攸利。"
    [Line.mk "yang" "归妹以娣，跛能履，征吉。" "归妹以娣，以恒也。跛能履，吉相承也。";
     Line.mk "yang" "眇能视，利幽人之贞。" "利幽人之贞，未变常也。";
     Line.mk "yin" "归妹以须，反归以娣。" "归妹以须，未当也。";
     Line.mk "yang" "归妹愆期，迟归有时。" "愆期之志，有待而行也。";
     Line.mk "yin" "帝乙归妹，其君之袂，不如其娣之袂良，月几望，吉。" "帝乙归妹，不如其娣之袂良也。其位在中，以贵行也。";
     Line.mk "yin" "女承筐无实，士刲羊无血，无攸利。" "上六无实，承虚筐也。"].

Definition hexagram_55 : Hexagram.t :=
  Hexagram.mk 55 "丰" "䷶" "101100" "震" "离"
    "亨，王假之，勿忧，宜日中。"
    [Line.mk "yang" "遇其配主，虽旬无咎，往有尚。" "虽旬无咎，过旬灾也。";
     Line.mk "yin" "丰其蔀，日中见斗，往得疑疾，有孚发若，吉。" "有孚发若，信以发志也。";
     Line.mk "yang" "丰其沛，日中见沫，折其右肱，无咎。" "丰其沛，不可大事也。折其右肱，终不可用也。";
     Line.mk "yang" "丰其蔀，日中见斗，遇其夷主，吉。" "丰其蔀，位不当也。日中见斗，幽不明也。遇其夷主，吉，行也。";
     Line.mk "yin" "来章，有庆誉，吉。" "六五之吉，有庆也。";
     Line.mk "yin" "丰其屋，蔀其家，窥其户，阒其无人，三岁不觌，凶。" "丰其屋，天际翔也。窥其户，阒其无人，自藏也。"].

Definition hexagram_56 : Hexagram.t :=
  Hexagram.mk 56 "旅" "䷷" "101001" "离" "艮"
    "小亨，旅贞吉。"
    [Line.mk "yin" "旅琐琐，斯其所取灾。" "旅琐琐，志穷灾也。";
     Line.mk "yin" "旅即次，怀其资，得童仆贞。" "得童仆贞，终无尤也。";
     Line.mk "yang" "旅焚其次，丧其童仆，贞厉。" "旅焚其次，亦以伤矣。以旅与下，其义丧也。";
     Line.mk "yang" "旅于处，得其资斧，我心不快。" "旅于处，未得位也。得其资斧，心未快也。";
     Line.mk "yin" "射雉一矢亡，终以誉命。" "终以誉命，上逮也。";
     Line.mk "yang" "鸟焚其巢，旅人先笑后号咷。丧牛于易，凶。" "以旅在上，其义焚也。丧牛于易，终莫之闻也。"].

Definition hexagram_57 : Hexagram.t :=
  Hexagram.mk 57 "巽" "䷸" "110110" "巽" "巽"
    "小亨，利攸往，利见大人。"
    [Line.mk "yin" "进退，利武人之贞。" "进退，志疑也。利武人之贞，志治也。";
     Line.mk "yang" "巽在床下，用史巫纷若，吉，无咎。" "纷若之吉，得中也。";
     Line.mk "yang" "频巽，吝。" "频巽之吝，志穷也。";
     Line.mk "yin" "悔亡，田获三品。" "田获三品，有功也。";
     Line.mk "yang" "贞吉悔亡，无不利。无初有终，先庚三日，后庚三日，吉。" "九五之吉，位正中也。";
     Line.mk "yin" "巽在床下，丧其资斧，贞凶。" "巽在床下，上穷也。丧其资斧，正乎凶也。"].

Definition hexagram_58 : Hexagram.t :=
  Hexagram.mk 58 "兑" "䷹" "110011" "兑" "兑"
    "亨，利贞。"
    [Line.mk "yang" "和兑，吉。" "和兑之吉，行未疑也。";
     Line.mk "yang" "孚兑，吉，悔亡。" "孚兑之吉，信志也。";
     Line.mk "yin" "来兑，凶。" "来兑之凶，位不当也。";
     Line.mk "yang" "商兑，未宁，介疾有喜。" "九四之喜，有庆也。";
     Line.mk "yin" "孚于剥，有厉。" "孚于剥，位正当也。";
     Line.mk "yang" "引兑。" "上六引兑，未光也。"].

Definition hexagram_59 : Hexagram.t :=
  Hexagram.mk 59 "涣" "䷺" "010011" "巽" "坎"
    "亨。王假有庙，利涉大川，利贞。"
    [Line.mk "yin" "用拯马壮，吉。" "初六之吉，顺也。";
     Line.mk "yang" "涣奔其机，悔亡。" "涣奔其机，得愿也。";
     Line.mk "yin" "涣其躬，无悔。" "涣其躬，志在外也。";
     Line.mk "yin" "涣其群，元吉。涣有丘，匪夷所思。" "涣其群，元吉，光大也。";
     Line.mk "yang" "涣汗其大号，涣王居，无咎。" "王居无咎，正位也。";
     Line.mk "yang" "涣其血，去逖出，无咎。" "涣其血，远害也。"].

Definition hexagram_60 : Hexagram.t :=
  Hexagram.mk 60 "节" "䷻" "110010" "坎" "兑"
    "亨。苦节，不可贞。"
    [Line.mk "yin" "不出户庭，无咎。" "不出户庭，知通塞也。";
     Line.mk "yang" "不出门庭，凶。" "不出门庭，失时极也。";
     Line.mk "yin" "不节若，则嗟若，无咎。" "不节之嗟，又谁咎也。";
     Line.mk "yang" "安节，亨。" "安节之亨，承上道也。";
     Line.mk "yang" "甘节，吉，往有尚。" "甘节之吉，居位中也。";
     Line.mk "yin" "苦节，贞凶，悔亡。" "苦节贞凶，其道穷也。"].

Definition hexagram_61 : Hexagram.t :=
  Hexagram.mk 61 "中孚" "䷼" "110011" "巽" "兑"
    "豚鱼吉，利涉大川，利贞。"
    [Line.mk "yang" "虞吉，有它不燕。" "初九虞吉，志未变也。";
     Line.mk "yang" "鸣鹤在阴，其子和之。我有好爵，吾与尔靡之。" "其子和之，中心愿也。";
     Line.mk "yin" "得敌，或鼓或罢，或泣或歌。" "或鼓或罢，位不当也。";
     Line.mk "yang" "月几望，马匹亡，无咎。" "马匹亡，绝类上也。";
     Line.mk "yang" "有孚挛如，无咎。" "有孚挛如，位正当也。";
     Line.mk "yin" "翰音登于天，贞凶。" "翰音登于天，何可长也。"].

Definition hexagram_62 : Hexagram.t :=
  Hexagram.mk 62 "小过" "䷽" "001100" "震" "艮"
    "亨，利贞。可小事，不可大事。飞鸟遗之音，不宜上宜下，大吉。"
    [Line.mk "yin" "飞鸟以凶。" "飞鸟以凶，不可如何也。";
     Line.mk "yin" "过其祖，遇其妣，不及其君，遇其臣，无咎。" "不及其君，臣不可过也。";
     Line.mk "yang" "弗过防之，从或戕之，凶。" "从或戕之，凶如何也。";
     Line.mk "yang" "无咎，弗过遇之。往厉必戒，勿用永贞。" "弗过遇之，位不当也。往厉必戒，终不可长也。";
     Line.mk "yin" "密云不雨，自我西郊，公弋取彼在穴。" "密云不雨，已上也。";
     Line.mk "yin" "弗遇过之，飞鸟离之，凶，是谓灾眚。" "弗遇过之，已亢也。"].

Definition hexagram_63 : Hexagram.t :=
  Hexagram.mk 63 "既济" "䷾" "101010" "坎" "离"
    "亨，小利贞，初吉终乱。"
    [Line.mk "yang" "曳其轮，濡其尾，无咎。" "曳其轮，义无咎也。";
     Line.mk "yin" "妇丧其茀，勿逐，七日得。" "七日得，以中道也。";
     Line.mk "yang" "高宗伐鬼方，三年克之，小人勿用。" "三年克之，惫也。";
     Line.mk "yin" "繻有衣袽，终日戒。" "终日戒，有所疑也。";
     Line.mk "yang" "东邻杀牛，不如西邻之禴祭，实受其福。" "东邻杀牛，不如西邻之时也。实受其福，吉大来也。";
     Line.mk "yin" "濡其首，厉。" "濡其首厉，何可久也。"].

Definition hexagram_64 : Hexagram.t :=
  Hexagram.mk 64 "未济" "䷿" "101010" "离" "坎"
    "亨。小狐汔济，濡其尾，无攸利。"
    [Line.mk "yin" "濡其尾，吝。" "亦不知极也。";
     Line.mk "yang" "曳其轮，贞吉。" "中以行正也。";
     Line.mk "yin" "未济，征凶，利涉大川。" "未济征凶，位不当也。";
     Line.mk "yang" "贞吉，悔亡。震用伐鬼方，三年有赏于大国。" "贞吉悔亡，志行也。";
     Line.mk "yin" "贞吉，无悔。君子之光，有孚，吉。" "君子之光，其晖吉也。";
     Line.mk "yang" "有孚于饮酒，无咎。濡其首，有孚失是。" "饮酒濡首，亦不知节也。"].

(** [this.ALL_HEXAGRAMS], an object keyed by the hexagram number; a
    [for ... in] loop visits its keys in ascending order. *)
Definition ALL_HEXAGRAMS : list (Z * Hexagram.t) :=
  [(1, hexagram_1); (2, hexagram_2); (3, hexagram_3); (4, hexagram_4);
   (5, hexagram_5); (6, hexagram_6); (7, hexagram_7); (8, hexagram_8);
   (9, hexagram_9); (10, hexagram_10); (11, hexagram_11); (12, hexagram_12);
   (13, hexagram_13); (14, hexagram_14); (15, hexagram_15); (16, hexagram_16);
   (17, hexagram_17); (18, hexagram_18); (19, hexagram_19); (20, hexagram_20);
   (21, hexagram_21); (22, hexagram_22); (23, hexagram_23); (24, hexagram_24);
   (25, hexagram_25); (26, hexagram_26); (27, hexagram_27); (28, hexagram_28);
   (29, hexagram_29); (30, hexagram_30); (31, hexagram_31); (32, hexagram_32);
   (33, hexagram_33); (34, hexagram_34); (35, hexagram_35); (36, hexagram_36);
   (37, hexagram_37); (38, hexagram_38); (39, hexagram_39); (40, hexagram_40);
   (41, hexagram_41); (42, hexagram_42); (43, hexagram_43); (44, hexagram_44);
   (45, hexagram_45); (46, hexagram_46); (47, hexagram_47); (48, hexagram_48);
   (49, hexagram_49); (50, hexagram_50); (51, hexagram_51); (52, hexagram_52);
   (53, hexagram_53); (54, hexagram_54); (55, hexagram_55); (56, hexagram_56);
   (57, hexagram_57); (58, hexagram_58); (59, hexagram_59); (60, hexagram_60);
   (61, hexagram_61); (62, hexagram_62); (63, hexagram_63); (64, hexagram_64)].

Definition trigramMap : list (Z * string) :=
  [(1, "乾"); (2, "兑"); (3, "离"); (4, "震");
   (5, "巽"); (6, "坎"); (7, "艮"); (8, "坤")].

(** [hex.upperTrigram === upperName], where [upperName] may be
    [undefined]. *)
Definition is_trigram (trigram : string) (name : option string) : bool :=
  match name with
  | Some n => String.eqb trigram n
  | None => false
  end.

Definition getHexagramNumber (upper lower : Z) : Z :=
  let upperName := js_get_num trigramMap upper in
  let lowerName := js_get_num trigramMap lower in
  match find (fun entry : Z * Hexagram.t =>
                is_trigram (Hexagram.upperTrigram (snd entry)) upperName
                && is_trigram (Hexagram.lowerTrigram (snd entry)) lowerName)
             ALL_HEXAGRAMS with
  | Some (hexNum, _) => hexNum
  | None => 1
  end.

(** [this.ALL_HEXAGRAMS[hexNumber] || this.ALL_HEXAGRAMS[1]]; [None] is
    [undefined]. *)
Definition getHexagramInfo (hexNumber : Z) : option Hexagram.t :=
  match js_get_num ALL_HEXAGRAMS hexNumber with
  | Some h => Some h
  | None => js_get_num ALL_HEXAGRAMS 1
  end.

(** *** Casting a hexagram from the time *)

Definition is_digit (c : ascii) : bool :=
  (48 <=? Z.of_nat (nat_of_ascii c)) && (Z.of_nat (nat_of_ascii c) <=? 57).

(** [s.slice(-5)]: the last five characters. *)
Definition slice_last5 (s : string) : string :=
  substring (String.length s - 5)%nat 5 s.

(** [s.replace(/[^0-9]/g, '')]: the digits of [s]. *)
Fixpoint digits_only (s : string) : string :=
  match s with
  | EmptyString => EmptyString
  | String c rest =>
      if is_digit c then String c (digits_only rest) else digits_only rest
  end.

(** [parseInt(s, 10)] on a string of digits. *)
Definition parse_digits (s : string) : Z :=
  fold_left (fun acc c => 10 * acc + (Z.of_nat (nat_of_ascii c) - 48))
            (list_ascii_of_string s) 0.

(** [userId ? parseInt(String(userId).slice(-5).replace(/[^0-9]/g, '') ||
    '12', 10) : 12].  [userId] is [None] for a falsy id and otherwise holds
    [String(userId)], taken to be ASCII text so that characters are
    bytes. *)
Definition userFactorOf (userId : option string) : Z :=
  match userId with
  | Some text =>
      let digits := digits_only (slice_last5 text) in
      parse_digits (if String.eqb digits "" then "12" else digits)
  | None => 12
  end.

(** [n % 8 || 8] *)
Definition trigramNumber (n : Z) : Z :=
  if Z.rem n 8 =? 0 then 8 else Z.rem n 8.

Record HexagramData := mkHexagramData {
  mainHex : Z;
  changingLines : list Z
}.

(** [year], [month], [day], [hour] and [minute] are [getFullYear()],
    [getMonth() + 1], [getDate()], [getHours()] and [getMinutes()] of
    [currentTime]. *)
Definition generateHexagram (year month day hour minute : Z)
    (userId : option string) : HexagramData :=
  let userFactor := userFactorOf userId in
  let upperTrigramNum := trigramNumber (year + month + day + userFactor) in
  let lowerTrigramNum :=
    trigramNumber (year + month + day + hour + minute + userFactor) in
  let changingLinePos :=
    Z.rem (year + month + day + hour + minute + userFactor) 6 + 1 in
  let mainHexNumber := getHexagramNumber upperTrigramNum lowerTrigramNum in
  mkHexagramData mainHexNumber [changingLinePos].

(** *** The changing hexagram *)

(** [charArray[index] = charArray[index] === '1' ? '0' : '1'] followed by
    [join('')], for [0 <= index]: a character inside the string is
    flipped; past its end the array grows by holes, which [join] prints as
    nothing, and a final "1". *)
Fixpoint flipAt (index : nat) (s : string) : string :=
  match s, index with
  | EmptyString, _ => "1"
  | String c rest, O =>
      String (if Ascii.eqb c "1"%char then "0"%char else "1"%char) rest
  | String c rest, S i => String c (flipAt i rest)
  end.

Definition flipLine (originalBinary : string) (linePos : Z) : string :=
  let index := 6 - linePos in
  if (0 <=? index) && (index <? 6)
  then flipAt (Z.to_nat index) originalBinary
  else originalBinary.

Definition getChangingHexagram (originalHexInfo : Hexagram.t)
    (changingLines : list Z) : option Hexagram.t :=
  match changingLines with
  | [] => None
  | _ =>
      let originalBinary :=
        fold_left flipLine changingLines (Hexagram.binary originalHexInfo) in
      option_map snd
        (find (fun entry : Z * Hexagram.t =>
                 String.eqb (Hexagram.binary (snd entry)) originalBinary)
              ALL_HEXAGRAMS)
  end.

(** *** Reading the changing line *)

(** The one-character string of a double quote. *)
Definition dquote : string := String (ascii_of_nat 34) EmptyString.

(** [xs[i]] for a whole number [i]; [None] is [undefined]. *)
Definition js_index {A : Type} (xs : list A) (i : Z) : option A :=
  if i <? 0 then None else nth_error xs (Z.to_nat i).

Definition lineNames : list string := ["初"; "二"; "三"; "四"; "五"; "上"].

(** The object [analyzeChangingLines] returns; a field that a branch does
    not set is [None]. *)
Record ChangingLineAnalysis := mkChangingLineAnalysis {
  method : string;
  cl_analysis : option string;
  changing_line_position : option string;
  line_meaning : option string;
  line_image_meaning : option string;
  cl_guidance : string
}.

Definition analyzeChangingLines (hexagramInfo : Hexagram.t)
    (changingLines : list Z) : ChangingLineAnalysis :=
  match changingLines with
  | [] =>
      mkChangingLineAnalysis "以本卦卦辞为断"
        (Some ("无动爻，应以【" ++ Hexagram.name hexagramInfo
               ++ "】的整体卦辞为主要判断依据。"))
        None None None
        (Hexagram.judgment hexagramInfo)
  | linePos :: _ =>
      let lineIndex := linePos - 1 in
      match js_index (Hexagram.lines hexagramInfo) lineIndex with
      | None =>
          mkChangingLineAnalysis "动爻分析异常"
            (Some "无法找到对应的爻辞信息。") None None None ""
      | Some lineData =>
          let lineName :=
            js_or (js_index lineNames lineIndex) "undefined"
            ++ (if String.eqb (Line.type lineData) "yang" then "九" else "六") in
          mkChangingLineAnalysis "以动爻爻辞为断"
            None
            (Some (lineName ++ "（第" ++ Z_to_string linePos ++ "爻）"))
            (Some ("【爻辞】曰：" ++ Line.text lineData))
            (Some ("【象传】对该爻的解释：" ++ Line.image lineData))
            ("当前阶段的关键点在于理解和应对" ++ dquote ++ Line.text lineData
             ++ dquote ++ "所揭示的情况。")
      end
  end.

(** *** The analysis

    The fields of [performYijingAnalysis] that describe the cast:
    [basic_info.hexagram_info] without its prose and
    [detailed_analysis.changing_lines_analysis].  The time is an argument
    ([currentTime] is [new Date()] in the source); [None] where the main
    hexagram would be [undefined]. *)
Record YijingAnalysis := mkYijingAnalysis {
  main_hexagram : string;
  main_hexagram_symbol : string;
  changing_hexagram : string;
  changing_hexagram_symbol : string;
  changing_lines : list Z;
  changing_lines_analysis : ChangingLineAnalysis
}.

Definition performYijingAnalysis (year month day hour minute : Z)
    (user_id : option string) : option YijingAnalysis :=
  let hexagramData := generateHexagram year month day hour minute user_id in
  match getHexagramInfo (mainHex hexagramData) with
  | None => None
  | Some mainHexagramInfo =>
      let changingHexagramInfo :=
        getChangingHexagram mainHexagramInfo (changingLines hexagramData) in
      let changingLineAnalysis :=
        analyzeChangingLines mainHexagramInfo (changingLines hexagramData) in
      Some (mkYijingAnalysis
              (Hexagram.name mainHexagramInfo)
              (Hexagram.symbol mainHexagramInfo)
              (match changingHexagramInfo with
               | Some h => Hexagram.name h
               | None => "无"
               end)
              (match changingHexagramInfo with
               | Some h => Hexagram.symbol h
               | None => "无"
               end)
              (changingLines hexagramData)
              changingLineAnalysis)
  end.

(** ** The distribution of the five elements

    The counting part of [performDetailedWuxingAnalysis]: the fields
    [distribution] and [element_details] of its answer; the other fields
    are prose.  The weights are multiples of 0.5, so that the sums of the
    source carry no rounding. *)

Record WuxingAnalysis := mkWuxingAnalysis {
  distribution : list (string * Q);
  element_details : list (string * list string)
}.

(** [tbl[key] = f(tbl[key])] for a key of the table. *)
Definition js_update {A : Type} (tbl : list (string * A)) (key : string)
    (f : A -> A) : list (string * A) :=
  map (fun entry =>
         if String.eqb (fst entry) key then (fst entry, f (snd entry))
         else entry)
      tbl.

Definition has_key {A : Type} (tbl : list (string * A)) (key : string) : bool :=
  existsb (fun entry => String.eqb (fst entry) key) tbl.

(** [elements[key] += amount; elementDetails[key].push(text)].  For a key
    that [elementDetails] does not have, [push] is called on [undefined]
    and throws: [None]. *)
Definition tally (state : option WuxingAnalysis) (key : string) (amount : Q)
    (text : string) : option WuxingAnalysis :=
  match state with
  | None => None
  | Some counted =>
      if has_key (element_details counted) key
      then Some (mkWuxingAnalysis
                   (js_update (distribution counted) key
                      (fun count => (count + amount)%Q))
                   (js_update (element_details counted) key
                      (fun texts => (texts ++ [text])%list)))
      else None
  end.

(** The four pillars in the order of the two loops, each with
    [pillar.replace('_pillar', '')]. *)
Definition chartPillars (baziChart : BaziChart)
    : list (string * ChartPillar.t) :=
  [("year", year_pillar baziChart); ("month", month_pillar baziChart);
   ("day", day_pillar baziChart); ("hour", hour_pillar baziChart)].

(** [index === 0 ? 1.5 : index === 1 ? 1.0 : 0.5] *)
Definition hiddenWeight (index : nat) : Q :=
  match index with
  | O => 1.5%Q
  | S O => 1%Q
  | _ => 0.5%Q
  end.

Definition performDetailedWuxingAnalysis (baziChart : BaziChart)
    : option WuxingAnalysis :=
  let start :=
    Some (mkWuxingAnalysis
            [("木", 0%Q); ("火", 0%Q); ("土", 0%Q); ("金", 0%Q); ("水", 0%Q)]
            [("木", []); ("火", []); ("土", []); ("金", []); ("水", [])]) in
  let afterStems :=
    fold_left
      (fun state pillar =>
         tally state (ChartPillar.element (snd pillar)) 2%Q
               (fst pillar ++ "干" ++ ChartPillar.stem (snd pillar)))
      (chartPillars baziChart) start in
  fold_left
    (fun state pillar =>
       fold_left
         (fun state' hidden =>
            tally state' (getElementFromStem (snd hidden))
                  (hiddenWeight (fst hidden))
                  (fst pillar ++ "支藏" ++ snd hidden))
         (indexed (ChartPillar.hidden_stems (snd pillar))) state)
    (chartPillars baziChart) afterStems.

(** ** Validation of the birth time and of the gender

    [InputValidator] ([server/utils/inputValidator.cjs]) and the checks at
    the head of [performFullBaziAnalysis].  A value is [None] when it is
    falsy ([undefined], [null] or the empty string) and otherwise holds
    its text; values that are no strings are left out.  A validation
    answers [None] when it returns, and the message of the error it
    throws otherwise. *)

(** [/^\d{2}:\d{2}$/.test(s)] *)
Definition timeRegex_test (s : string) : bool :=
  match s with
  | String a (String b (String c (String d (String e EmptyString)))) =>
      is_digit a && is_digit b && Ascii.eqb c ":"%char
      && is_digit d && is_digit e
  | _ => false
  end.

(** [s.split(sep)] for a separator of one character. *)
Fixpoint split_on (sep : ascii) (s : string) : list string :=
  match s with
  | EmptyString => [""]
  | String c rest =>
      if Ascii.eqb c sep then "" :: split_on sep rest
      else match split_on sep rest with
           | first :: others => String c first :: others
           | [] => [String c ""]
           end
  end.

(** [Number(s)] and [parseInt(s)] where [s] is one or more digits, the
    only texts they meet behind [timeRegex_test]; [None] for any other
    text or for [undefined]. *)
Definition digits_value (s : option string) : option Z :=
  match s with
  | Some text =>
      if negb (String.eqb text "") && String.eqb (digits_only text) text
      then Some (parse_digits text)
      else None
  | None => None
  end.

Definition truthy (value : option string) : option string :=
  match value with
  | Some "" => None
  | other => other
  end.

(** [validateBirthTime(birthTime)] of [InputValidator]; the first message
    is [formatErrorMessage('invalid_format', { field: '出生时间' })].
    [None] inside [Some]: the comparisons of the source are all false on
    [NaN]. *)
Definition validateBirthTime (birthTime : option string) : option string :=
  match truthy birthTime with
  | None => None
  | Some text =>
      if negb (timeRegex_test text) then Some "出生时间格式不正确"
      else
        let parts := split_on ":"%char text in
        let hour := digits_value (nth_error parts 0) in
        let minute := digits_value (nth_error parts 1) in
        if match hour with
           | Some h => (h <? 0) || (23 <? h)
           | None => false
           end
        then Some "小时应在0-23之间"
        else if match minute with
                | Some m => (m <? 0) || (59 <? m)
                | None => false
                end
        then Some "分钟应在0-59之间"
        else None
  end.

(** The check of [birth_time] in [performFullBaziAnalysis]. *)
Definition checkBirthTime (birth_time : option string) : option string :=
  match truthy birth_time with
  | None => None
  | Some text =>
      if negb (timeRegex_test text)
      then Some "输入数据无效：出生时间格式必须为 HH:MM"
      else
        let parts := split_on ":"%char text in
        let hours := digits_value (nth_error parts 0) in
        let minutes := digits_value (nth_error parts 1) in
        if match hours, minutes with
           | Some h, Some m => (h <? 0) || (23 <? h) || (m <? 0) || (59 <? m)
           | Some h, None => (h <? 0) || (23 <? h)
           | None, Some m => (m <? 0) || (59 <? m)
           | None, None => false
           end
        then Some "输入数据无效：出生时间无效"
        else None
  end.

(** [birthHour] and [birthMinute] of [calculatePreciseBazi]:
    [birth_time ? parseInt(birth_time.split(':')[0]) : 12] and
    [birth_time ? parseInt(birth_time.split(':')[1]) : 0]; [None] where a
    part is not made of digits. *)
Definition birthHourMinute (birth_time : option string) : option (Z * Z) :=
  match truthy birth_time with
  | None => Some (12, 0)
  | Some text =>
      let parts := split_on ":"%char text in
      match digits_value (nth_error parts 0), digits_value (nth_error parts 1) with
      | Some birthHour, Some birthMinute => Some (birthHour, birthMinute)
      | _, _ => None
      end
  end.

(** [validateGender(gender)] of [InputValidator]; the message is
    [formatErrorMessage('invalid_gender')]. *)
Definition validateGender (gender : option string) : option string :=
  match truthy gender with
  | None => None
  | Some text =>
      if includes ["male"; "female"; "男"; "女"] text then None
      else Some "性别只能是male或female"
  end.

(** The check of [gender] in [performFullBaziAnalysis]. *)
Definition checkGender (gender : option string) : option string :=
  match truthy gender with
  | None => Some "输入数据无效：性别不能为空"
  | Some text =>
      if includes ["male"; "female"; "男"; "女"; "男性"; "女性"] text then None
      else Some "输入数据无效：性别必须是 male/female 或 男/女"
  end.

(** [gender === 'male' || gender === '男' ? '男性' : '女性'], the gender
    that [performFullBaziAnalysis] puts into [personal_data]. *)
Definition personalDataGender (gender : string) : string :=
  if String.eqb gender "male" || String.eqb gender "男" then "男性" else "女性".

(** ** The daily limit on AI requests

    [aiRateLimit] and [getAiUsageStats] over the table [ai_api_usage],
    whose rows are read and written by three SQL statements.  The table
    is a list of rows in the order of their insertion; the columns [id],
    [created_at] and [updated_at] are left out.  [AI_DAILY_LIMIT] is a
    number and [AI_RATE_LIMIT_ENABLED] a boolean, both settled when the
    module is loaded; the database is taken not to fail, so that the
    [catch] branches are not entered. *)

Record UsageRow := mkUsageRow {
  user_id : option Z;
  ip_address : string;
  endpoint : string;
  request_date : string;
  request_count : Z
}.

Definition usageOf (ip date : string) (row : UsageRow) : bool :=
  String.eqb (ip_address row) ip && String.eqb (request_date row) date.

(** [SELECT request_count FROM ai_api_usage WHERE ip_address = ? AND
    request_date = ?] with [.get(ip, date)]: the first such row, or
    [undefined]. *)
Definition selectUsage (db : list UsageRow) (ip date : string) : option Z :=
  option_map request_count (find (usageOf ip date) db).

(** [UPDATE ai_api_usage SET request_count = request_count + 1, user_id =
    COALESCE(?, user_id), endpoint = ?, ... WHERE ip_address = ? AND
    request_date = ?] *)
Definition updateUsage (db : list UsageRow) (userId : option Z)
    (path ip date : string) : list UsageRow :=
  map (fun row =>
         if usageOf ip date row
         then mkUsageRow (match userId with
                          | Some id => Some id
                          | None => user_id row
                          end)
                         (ip_address row) path (request_date row)
                         (request_count row + 1)
         else row)
      db.

(** [INSERT INTO ai_api_usage (user_id, ip_address, endpoint, request_date,
    request_count) VALUES (?, ?, ?, ?, 1)] *)
Definition insertUsage (db : list UsageRow) (userId : option Z)
    (ip path date : string) : list UsageRow :=
  (db ++ [mkUsageRow userId ip path date 1])%list.

(** What the middleware reads of a request: [getClientIp(req)],
    [req.user?.id || null], the date [today] of the request and
    [req.path]. *)
Record Request := mkRequest {
  clientIp : string;
  userId : option Z;
  today : string;
  path : string
}.

(** [req.aiUsage], also the three headers and the fields of
    [getAiUsageStats]. *)
Record AiUsage := mkAiUsage {
  limit : Z;
  used : Z;
  remaining : Z
}.

(** The answer of the middleware: status 429 with [limit] and [used], or
    [next()], with [req.aiUsage] unless the limit is switched off. *)
Inductive Outcome :=
| Rejected (limit used : Z)
| Passed (aiUsage : option AiUsage).

Definition aiRateLimit (AI_RATE_LIMIT_ENABLED : bool) (AI_DAILY_LIMIT : Z)
    (db : list UsageRow) (req : Request) : list UsageRow * Outcome :=
  if negb AI_RATE_LIMIT_ENABLED then (db, Passed None)
  else
    let usage := selectUsage db (clientIp req) (today req) in
    match usage with
    | Some count =>
        if AI_DAILY_LIMIT <=? count
        then (db, Rejected AI_DAILY_LIMIT count)
        else
          let currentCount := count + 1 in
          (updateUsage db (userId req) (path req) (clientIp req) (today req),
           Passed (Some (mkAiUsage AI_DAILY_LIMIT currentCount
                           (Z.max 0 (AI_DAILY_LIMIT - currentCount)))))
    | None =>
        let currentCount := 0 + 1 in
        (insertUsage db (userId req) (clientIp req) (path req) (today req),
         Passed (Some (mkAiUsage AI_DAILY_LIMIT currentCount
                         (Z.max 0 (AI_DAILY_LIMIT - currentCount)))))
    end.

(** [getAiUsageStats(ipAddress, date)] for a given [date]: the fields
    [limit], [used] and [remaining]. *)
Definition getAiUsageStats (AI_DAILY_LIMIT : Z) (db : list UsageRow)
    (ipAddress targetDate : string) : AiUsage :=
  let count :=
    match selectUsage db ipAddress targetDate with
    | Some count => count
    | None => 0
    end in
  mkAiUsage AI_DAILY_LIMIT count (Z.max 0 (AI_DAILY_LIMIT - count)).

(** ** The lunar date

    [calculateLunarInfo] with [calculateAccurateLunarDate] and the three
    functions that print a year, a month and a day in Chinese.
    [localMidnight year month day] is
    [new Date(year, month - 1, day).getTime()], the milliseconds of the
    local midnight of a date in the time zone of the host. *)

Module LunarDate.
Record t := mk {
  year : Z;
  month : Z;
  day : Z
}.
End LunarDate.















(** ** The outlook on the coming years *)

Definition generateDecadeForecast (baziChart : BaziChart)
    (dayunSequence : list Dayun) (currentAge : Z) : string :=
  let nextDecade :=
    filter (fun dayun =>
              (currentAge <? start_age dayun)
              && (start_age dayun <=? currentAge + 10))
           dayunSequence in
  match nextDecade with
  | [] => "未来十年继续当前大运的影响，建议保持稳定发展。"
  | _ =>
      fold_left
        (fun forecast dayun =>
           forecast ++ Z_to_string (start_age dayun) ++ "-"
           ++ Z_to_string (end_age dayun) ++ "岁" ++ ganzhi dayun ++ "运，"
           ++ dayun_analysis dayun ++ "。")
        nextDecade "未来十年运势展望："
  end.

(** Both branches of [getDayunForAge] return [currentDayun]. *)
Definition getDayunForAge (baziChart : BaziChart) (age : Z)
    (currentDayun : option Dayun) : option Dayun :=
  match currentDayun with
  | Some dayun =>
      if (start_age dayun <=? age) && (age <=? end_age dayun)
      then currentDayun
      else currentDayun
  | None => currentDayun
  end.

(** The fields of a yearly analysis that are computed; its other fields
    are prose chosen by the ten god of the year. *)
Record YearAnalysis := mkYearAnalysis {
  analysis_year : Z;
  analysis_age : Z;
  year_ganzhi : string;
  year_stem : string;
  year_branch : string;
  year_ten_god : string;
  dayun_period : string
}.

Definition generateDetailedYearlyAnalysis (this : BaziAnalyzer)
    (baziChart : BaziChart) (currentDayun : option Dayun)
    (currentYear currentAge : Z) : list YearAnalysis :=
  map (fun i =>
         let analysisYear := currentYear + Z.of_nat i in
         let analysisAge := currentAge + Z.of_nat i in
         let yearStemIndex := Z.rem (analysisYear - 4) 10 in
         let yearBranchIndex := Z.rem (analysisYear - 4) 12 in
         let yearStem := getStemByIndex (baseData this) yearStemIndex in
         let yearBranch := getBranchByIndex (baseData this) yearBranchIndex in
         let yearTenGod := calculateTenGod (day_master baziChart) yearStem in
         let yearDayun := getDayunForAge baziChart analysisAge currentDayun in
         mkYearAnalysis analysisYear analysisAge (yearStem ++ yearBranch)
           yearStem yearBranch yearTenGod
           (match yearDayun with
            | Some dayun => ganzhi dayun ++ "大运"
            | None => "未起运"
            end))
      (seq 0 6).

(** ** The note on the Zi hour *)

Record ZishiNote := mkZishiNote {
  is_zishi : bool;
  note_zishi_type : string;
  calculation_method : string;
  explanation : string;
  expert_opinion : string
}.

(** [None] is [null].  The hour is [parseInt(birth_time.split(':')[0])],
    read as in [birthHourMinute]; a part that is not made of digits is
    taken to give [NaN], which is neither 23 nor 0. *)
Definition generateZishiCalculationNote (baziChart : BaziChart)
    (birth_time : option string) : option ZishiNote :=
  match truthy birth_time with
  | None => None
  | Some text =>
      match digits_value (nth_error (split_on ":"%char text) 0) with
      | Some hour =>
          if (hour =? 23) || (hour =? 0) then
            let isLateZishi := hour =? 23 in
            let dayPillar :=
              ChartPillar.stem (day_pillar baziChart)
              ++ ChartPillar.branch (day_pillar baziChart) in
            let hourPillar :=
              ChartPillar.stem (hour_pillar baziChart)
              ++ ChartPillar.branch (hour_pillar baziChart) in
            Some (mkZishiNote true
                    (if isLateZishi then "晚子时" else "早子时")
                    (if isLateZishi
                     then "晚子时计算法：日柱用当天干支，时柱用第二天日干推算"
                     else "早子时计算法：日柱和时柱都用当天干支推算")
                    (if isLateZishi
                     then "您出生在晚子时（" ++ text
                          ++ "），采用专家推荐的计算方法："
                          ++ "日柱保持当天的" ++ dayPillar ++ "，"
                          ++ "时柱" ++ hourPillar
                          ++ "是用第二天的日干推算得出。"
                          ++ "这种方法能更准确地反映晚子时出生者的命理特征。"
                     else "您出生在早子时（" ++ text
                          ++ "），采用传统计算方法："
                          ++ "日柱和时柱都使用当天的干支进行推算，"
                          ++ "日柱为" ++ dayPillar ++ "，"
                          ++ "时柱为" ++ hourPillar ++ "。")
                    "根据命理学专家主流观点，子时分为早子时和晚子时，计算方法有所不同。")
          else None
      | None => None
      end
  end.

(** * Vocabulary of the statements

    Decision procedures over the finite vocabularies, the calendar count
    behind [nextDay], and concrete inputs. *)

(** How many of the four cycle tests hold between two elements. *)
Definition cycleRelationCount (a b : string) : nat :=
  List.length (filter (fun t : bool => t)
    [js_get_is generateCycle a b; js_get_is overcomeCycle a b;
     js_get_is generateCycle b a; js_get_is overcomeCycle b a]).

(** [getElementRelation] is not "neutral", and the number of cycle relations
    is 0 between equal elements and 1 between different ones. *)
Definition relation_total_check (a b : string) : bool :=
  negb (String.eqb (getElementRelation a b) "neutral")
  && (if String.eqb a b then Nat.eqb (cycleRelationCount a b) 0
      else Nat.eqb (cycleRelationCount a b) 1).

(** [calculateTenGod] does not fall through to its default. *)
Definition tenGod_known_check (x y : string) : bool :=
  negb (String.eqb (calculateTenGod x y) "未知").









(** The labels that occur in [seasonStrength]. *)
Definition monthStrengthLabels : list string :=
  ["旺"; "相"; "休"; "死"; "绝"; "墓"; "生"; "余气"].

(** [getMonthStrength e b] is one of [monthStrengthLabels]; each of them is
    produced at some element and branch; the row of [e] has an entry at [b]. *)
Definition monthStrength_label_check (e b : string) : bool :=
  includes monthStrengthLabels (getMonthStrength e b).

Definition monthStrength_produced_check (l : string) : bool :=
  existsb (fun e => existsb (fun b => String.eqb (getMonthStrength e b) l) branches)
          elements.

Definition seasonStrength_row_check (e b : string) : bool :=
  match js_get seasonStrength e with
  | Some row => match js_get row b with Some _ => true | None => false end
  | None => false
  end.

(** A calendar date the [Date] constructor takes as it is: a month 1..12, a
    day of that month, and a year past the two-digit range. *)
Definition validDate (y m d : Z) : Prop :=
  99 < y /\ 1 <= m <= 12 /\ 1 <= d <= daysInMonth y m.

(** The count of days of the proleptic Gregorian calendar up to a date. *)
Definition daysBeforeYear (y : Z) : Z :=
  365 * (y - 1) + (y - 1) / 4 - (y - 1) / 100 + (y - 1) / 400.

(** The days of year [y] before its month [m]. *)
Definition daysBeforeMonth (y m : Z) : Z :=
  fold_left Z.add
    (map (fun k => daysInMonth y (Z.of_nat k)) (seq 1 (Z.to_nat (m - 1)))) 0.

(** The day count of the date [y]-[m]-[d]. *)
Definition dayNumber (y m d : Z) : Z :=
  daysBeforeYear y + daysBeforeMonth y m + d.

(** [xs[i]], or the empty string where JavaScript has [undefined]. *)
Definition at_index (xs : list string) (i : Z) : string :=
  if i <? 0 then "" else nth (Z.to_nat i) xs "".

(** Example inputs.  The collaborators' own tables are not among the
    sources, and every theorem below holds for any analyzer; the instance
    that follows serves to run the embedding on concrete dates.

    A hidden-stem table for [BaseData.getBranchHiddenStems]: one to three
    stems per branch, main stem first, then middle, then residual. *)
Definition exampleHiddenStems : list (string * list string) :=
  [("子", ["癸"]); ("丑", ["己"; "癸"; "辛"]); ("寅", ["甲"; "丙"; "戊"]);
   ("卯", ["乙"]); ("辰", ["戊"; "乙"; "癸"]); ("巳", ["丙"; "庚"; "戊"]);
   ("午", ["丁"; "己"]); ("未", ["己"; "丁"; "乙"]); ("申", ["庚"; "壬"; "戊"]);
   ("酉", ["辛"]); ("戌", ["戊"; "辛"; "丁"]); ("亥", ["壬"; "甲"])].

(** An instance of [BaseData]: the ten stems and twelve branches by index,
    and the hidden stems above. *)
Definition exampleBaseData : BaseData :=
  mkBaseData (at_index stems) (at_index branches)
             (fun b => js_or (js_get exampleHiddenStems b) []).

(** An instance of [WanNianLi.getAccurateDayPillar]: a continuous count in
    the 60-cycle anchored at 2000-01-01 as the day 戊午. *)
Definition exampleDayPillar (y m d : Z) : Pillar :=
  let offset := dayNumber y m d - dayNumber 2000 1 1 in
  let si := (4 + offset) mod 10 in
  let bi := (6 + offset) mod 12 in
  mkPillar (at_index stems si) (at_index branches bi) si bi.

(** An instance of [SolarTermsCalculator]: a fixed per-month approximation
    of the solar terms, with Start of Spring on 4 February and a solar month
    from the 6th of each calendar month. *)
Definition exampleSolarTerms : SolarTermsCalculator :=
  mkSolarTermsCalculator
    (fun date =>
       (1 <? date_monthIndex date)
       || ((date_monthIndex date =? 1) && (4 <=? date_day date)))
    (fun date =>
       let shift := if 6 <=? date_day date then 1 else 0 in
       mkSolarTermMonth
         (at_index branches ((date_monthIndex date + shift) mod 12))).

(** The analyzer over these three instances. *)
Definition exampleAnalyzer : BaziAnalyzer :=
  mkBaziAnalyzer exampleBaseData exampleSolarTerms (mkWanNianLi exampleDayPillar).

Local Open Scope Q_scope.

(** A score record of each level, and some pillars, to run the analysis on. *)
Definition levelSample (level : string) : OverallStrength :=
  mkOverallStrength 0 0 0
    (if String.eqb level "太旺" then 6
     else if String.eqb level "偏旺" then 3
     else if String.eqb level "中和" then 0
     else if String.eqb level "偏弱" then -2
     else -5).

Definition pillarsSample : Pillars :=
  let p := mkPillar "甲" "子" 0 0 in mkPillars p p p p.

Local Close Scope Q_scope.

(** The elements that restrain, drain or consume [E], and those that are
    [E] or generate it, as tests on the two cycle tables. *)
Definition controls (E x : string) : bool :=
  js_get_is overcomeCycle x E || js_get_is generateCycle E x
  || js_get_is overcomeCycle E x.

Definition supports (E x : string) : bool :=
  String.eqb x E || js_get_is generateCycle x E.

(** The elements [text] names are those that pass [test]. *)
Definition names_exactly (text : string) (test : string -> bool) : bool :=
  forallb (fun x => Bool.eqb (contains x text) (test x)) elements.

(** At a strong level the favourable text names the controlling elements
    and the unfavourable text the supporting ones; at a weak level the
    reverse. *)
Definition useGod_strong_check (level E : string) : bool :=
  let r := analyzeUseGod E (levelSample level) pillarsSample in
  names_exactly (use_god r) (controls E)
  && names_exactly (avoid_god r) (supports E).

Definition useGod_weak_check (level E : string) : bool :=
  let r := analyzeUseGod E (levelSample level) pillarsSample in
  names_exactly (use_god r) (supports E)
  && names_exactly (avoid_god r) (controls E).

Local Open Scope Q_scope.

(** The scores of [hiddenStemScore] and [stemScore] by the cycle relation
    between the scored element and the Day-Master element. *)
Definition hiddenStemScore_check (h d : string) : bool :=
  let s := hiddenStemScore (getElementRelation h d) in
  implb (String.eqb h d) (Qeq_bool s 3)
  && implb (js_get_is generateCycle h d) (Qeq_bool s (-1))
  && implb (js_get_is generateCycle d h) (Qeq_bool s 2)
  && implb (js_get_is overcomeCycle h d) (Qeq_bool s (-2))
  && implb (js_get_is overcomeCycle d h) (Qeq_bool s (-3)).

Definition stemScore_check (s d : string) : bool :=
  let v := stemScore (getElementRelation s d) in
  implb (String.eqb s d) (Qeq_bool v 2)
  && implb (js_get_is generateCycle s d) (Qeq_bool v (-0.5))
  && implb (js_get_is generateCycle d s) (Qeq_bool v 1.5)
  && implb (js_get_is overcomeCycle s d) (Qeq_bool v (-1))
  && implb (js_get_is overcomeCycle d s) (Qeq_bool v (-1.5)).

(** A score [s] as the hidden-stem scorer would give it to an element [e]
    under the Day-Master element [d], and as the visible-stem scorer would,
    by what the two cycle tables say of [e] and [d]. *)
Definition hiddenStemScored (e d : string) (s : Q) : Prop :=
  (e = d -> s == 3)
  /\ (produces e d -> s == -1)
  /\ (produces d e -> s == 2)
  /\ (destroys e d -> s == -2)
  /\ (destroys d e -> s == -3).

Definition stemScored (e d : string) (s : Q) : Prop :=
  (e = d -> s == 2)
  /\ (produces e d -> s == -0.5)
  /\ (produces d e -> s == 1.5)
  /\ (destroys e d -> s == -1)
  /\ (destroys d e -> s == -1.5).

(** The chart 甲子 丙子 甲子 甲子: Day Master 甲 (木), and 子 in all four
    branches. *)
Definition chartAllZi : Pillars :=
  mkPillars (mkPillar "甲" "子" 0 0) (mkPillar "丙" "子" 2 0)
            (mkPillar "甲" "子" 0 0) (mkPillar "甲" "子" 0 0).

(** The chart 壬申 壬寅 甲子 壬申: Day Master 甲 (木) with 壬 (水) as the
    three other visible stems. *)
Definition chartWaterStems : Pillars :=
  mkPillars (mkPillar "壬" "申" 8 8) (mkPillar "壬" "寅" 8 2)
            (mkPillar "甲" "子" 0 0) (mkPillar "壬" "申" 8 8).

Local Close Scope Q_scope.

(** The ten labels of [calculateTenGod] and the five of
    [getElementRelation]. *)
Definition tenGodLabels : list string :=
  ["比肩"; "劫财"; "食神"; "伤官"; "偏财"; "正财"; "七杀"; "正官"; "偏印"; "正印"].

Definition relationLabels : list string :=
  ["same"; "generate"; "overcome"; "beGenerated"; "beOvercome"].

Definition relation_label_check (a b : string) : bool :=
  includes relationLabels (getElementRelation a b).

(** Under the Day Master [x], the ten stems get the ten labels, each label
    once: every label is one of the ten, no two stems share a label, and
    every label is the label of some stem. *)
Definition tenGod_once_check (x : string) : bool :=
  forallb (fun y => includes tenGodLabels (calculateTenGod x y)) stems
  && forallb (fun y =>
                forallb (fun y' =>
                           implb (String.eqb (calculateTenGod x y)
                                             (calculateTenGod x y'))
                                 (String.eqb y y'))
                        stems)
             stems
  && forallb (fun label =>
                existsb (fun y => String.eqb (calculateTenGod x y) label) stems)
             tenGodLabels.

(** The names [determineAccuratePattern] gives a regular pattern, and its
    grades. *)
Definition regularPatternNames : list string :=
  ["正官格"; "正财格"; "正印格"; "食神格"; "七杀格"; "偏财格"; "偏印格";
   "伤官格"; "建禄格"].

Definition patternGrades : list string := ["上等"; "中上"; "中等"; "偏弱"].

(** The chart of the example analyzer for noon of 2000-01-01. *)
Definition exampleChartNoon : option BaziChart :=
  calculatePreciseBazi exampleAnalyzer 2000 1 1 (Some (12, 0)).

(** The stem-branch pair at positions [i] and [j] has an entry in
    [nayinTable] exactly when [i] and [j] have the same parity. *)
Definition nayin_parity_check (i j : nat) : bool :=
  let key := at_index stems (Z.of_nat i) ++ at_index branches (Z.of_nat j) in
  Bool.eqb (match js_get nayinTable key with Some _ => true | None => false end)
           (Nat.eqb (i mod 2) (j mod 2)).

(** The year the year pillar counts from: the calendar year, or the one
    before when the instant is not after Start of Spring. *)
Definition solarYear (this : BaziAnalyzer) (year month day hour minute : Z) : Z :=
  if isAfterSpringBeginning (solarTermsCalculator this)
       (mkJsDate year (month - 1) day hour minute)
  then year else year - 1.

(** An instance of the index methods of [BaseData], inverse to
    [exampleBaseData] on the ten stems and twelve branches. *)
Definition exampleIndex : BaseDataIndex :=
  mkBaseDataIndex (indexOf stems) (indexOf branches).

(** The five sentences of [analyzeCurrentYear] on the year against the
    current luck period. *)
Definition dayunYearSentences : list string :=
  map dayunYearSentence relationLabels.

(** [Zrange lo n] lists the [n] whole numbers from [lo] on. *)
Definition Zrange (lo n : nat) : list Z := map Z.of_nat (seq lo n).

(** The hexagram objects of the table. *)
Definition hexagrams : list Hexagram.t := map snd ALL_HEXAGRAMS.

(** The number of a trigram name in [trigramMap], 0 for no trigram. *)
Definition trigramIndex (name : string) : Z :=
  match find (fun entry : Z * string => String.eqb (snd entry) name) trigramMap with
  | Some (k, _) => k
  | None => 0
  end.

(** [getHexagramNumber u l] is a key 1..64 whose hexagram carries that key
    as its number and the two trigrams of [u] and [l]. *)
Definition hexagramNumber_check (u l : Z) : bool :=
  let n := getHexagramNumber u l in
  (1 <=? n) && (n <=? 64)
  && match getHexagramInfo n with
     | Some h =>
         (Hexagram.number h =? n)
         && is_trigram (Hexagram.upperTrigram h) (js_get_num trigramMap u)
         && is_trigram (Hexagram.lowerTrigram h) (js_get_num trigramMap l)
     | None => false
     end.

(** Every key is reached from the trigram numbers of its own hexagram. *)
Definition hexagramKey_check (n : Z) : bool :=
  match js_get_num ALL_HEXAGRAMS n with
  | Some h =>
      let u := trigramIndex (Hexagram.upperTrigram h) in
      let l := trigramIndex (Hexagram.lowerTrigram h) in
      (1 <=? u) && (u <=? 8) && (1 <=? l) && (l <=? 8)
      && (getHexagramNumber u l =? n)
  | None => false
  end.

(** What [getChangingHexagram] answers for one changing line [pos] of
    [h], against the [binary] of [h] with the character at index [6 - pos]
    flipped: a hexagram with another number than [h], the lowest-numbered
    of those with that [binary]; or nothing, when no hexagram of the table
    has that [binary]. *)
Definition changingHexagram_check (h : Hexagram.t) (pos : Z) : bool :=
  let flipped := flipAt (Z.to_nat (6 - pos)) (Hexagram.binary h) in
  match getChangingHexagram h [pos] with
  | Some h' =>
      String.eqb (Hexagram.binary h') flipped
      && negb (Hexagram.number h' =? Hexagram.number h)
      && forallb (fun other =>
                    negb (String.eqb (Hexagram.binary other) flipped)
                    || (Hexagram.number h' <=? Hexagram.number other))
                 hexagrams
  | None =>
      forallb (fun other => negb (String.eqb (Hexagram.binary other) flipped))
              hexagrams
  end.

(** The casts (hexagram, line) for which no changing hexagram is found. *)
Definition castsWithoutChange : list (Hexagram.t * Z) :=
  filter (fun cast =>
            match getChangingHexagram (fst cast) [snd cast] with
            | Some _ => false
            | None => true
            end)
         (list_prod hexagrams (Zrange 1 6)).

(** Every hexagram has a line at each position 1..6, read by its type. *)
Definition changingLine_check (h : Hexagram.t) (pos : Z) : bool :=
  match js_index (Hexagram.lines h) (pos - 1), js_index lineNames (pos - 1) with
  | Some lineData, Some lineName =>
      let r := analyzeChangingLines h [pos] in
      String.eqb (method r) "以动爻爻辞为断"
      && match changing_line_position r with
         | Some text =>
             String.eqb text
               (lineName
                ++ (if String.eqb (Line.type lineData) "yang" then "九" else "六")
                ++ "（第" ++ Z_to_string pos ++ "爻）")
         | None => false
         end
      && (String.eqb (Line.type lineData) "yang"
          || String.eqb (Line.type lineData) "yin")
  | _, _ => false
  end.

(** The different [binary] strings of the table. *)
Definition distinctBinaries : list string :=
  nodup string_dec (map Hexagram.binary hexagrams).

(** Every hexagram of the table has six lines and a six-character
    [binary]. *)
Definition sixLines_check (h : Hexagram.t) : bool :=
  Nat.eqb (List.length (Hexagram.lines h)) 6
  && Nat.eqb (String.length (Hexagram.binary h)) 6.

(** ** Counting the five elements *)

(** What one step of the count adds: [amount] to the element [tally_key],
    and [tally_text] to that element's details. *)
Record Tally := mkTally {
  tally_key : string;
  tally_amount : Q;
  tally_text : string
}.

(** The steps of the count in the order of the two loops: the stem of each
    pillar with the weight 2, then each pillar's hidden stems with the
    weight of their position. *)
Definition tallies (chart : BaziChart) : list Tally :=
  (map (fun pillar =>
          mkTally (ChartPillar.element (snd pillar)) 2%Q
                  (fst pillar ++ "干" ++ ChartPillar.stem (snd pillar)))
       (chartPillars chart)
   ++ flat_map
        (fun pillar =>
           map (fun hidden =>
                  mkTally (getElementFromStem (snd hidden))
                          (hiddenWeight (fst hidden))
                          (fst pillar ++ "支藏" ++ snd hidden))
               (indexed (ChartPillar.hidden_stems (snd pillar))))
        (chartPillars chart))%list.

(** One step of the count. *)
Definition tallyStep (state : option WuxingAnalysis) (t : Tally)
    : option WuxingAnalysis :=
  tally state (tally_key t) (tally_amount t) (tally_text t).

Definition Qsum (xs : list Q) : Q := fold_right Qplus 0%Q xs.

Definition talliesOf (ts : list Tally) (element : string) : list Tally :=
  filter (fun t => String.eqb (tally_key t) element) ts.

(** The weight that the steps [ts] give to [element]. *)
Definition share (ts : list Tally) (element : string) : Q :=
  Qsum (map tally_amount (talliesOf ts element)).

(** The weights of all hidden stems of the chart: 1.5 for the first of a
    branch, 1 for the second, 0.5 for each further one. *)
Definition hiddenTotal (chart : BaziChart) : Q :=
  Qsum (map (fun pillar =>
               Qsum (map hiddenWeight
                         (seq 0 (List.length
                                   (ChartPillar.hidden_stems (snd pillar))))))
            (chartPillars chart)).

(** ** Birth times *)

Definition digitChar (d : Z) : ascii := ascii_of_nat (48 + Z.to_nat d).

Definition digitValue (c : ascii) : Z := Z.of_nat (nat_of_ascii c) - 48.

Definition digitChars : list ascii := map digitChar (Zrange 0 10).

(** ** The user factor of a cast *)

(** Text of ASCII characters only: its bytes are its characters, and its
    UTF-16 units. *)
Definition asciiText (s : string) : bool :=
  forallb (fun c => Z.of_nat (nat_of_ascii c) <? 128) (list_ascii_of_string s).

(** The last five characters of a text, or all of a shorter one. *)
Definition lastFive (text : string) : list ascii :=
  skipn (String.length text - 5) (list_ascii_of_string text).

(** The digits among the last five characters of a user id; none for an
    absent id. *)
Definition idDigits (userId : option string) : list ascii :=
  match userId with
  | Some text => filter is_digit (lastFive text)
  | None => []
  end.

(** The number that a row of digits writes in decimal: each digit counts
    by the power of ten of its place. *)
Fixpoint decimalValue (ds : list ascii) : Z :=
  match ds with
  | [] => 0
  | c :: rest => digitValue c * 10 ^ Z.of_nat (List.length rest) + decimalValue rest
  end.

(** A number 0..99 in two digits, and a time of day as HH:MM. *)
Definition two_digits (n : Z) : string :=
  String (digitChar (n / 10)) (String (digitChar (n mod 10)) "").

Definition timeText (h m : Z) : string := two_digits h ++ ":" ++ two_digits m.

Definition is_none {A : Type} (o : option A) : bool :=
  match o with
  | Some _ => false
  | None => true
  end.

Definition readsAs (birth_time : option string) (h m : Z) : bool :=
  match birthHourMinute birth_time with
  | Some (birthHour, birthMinute) => (birthHour =? h) && (birthMinute =? m)
  | None => false
  end.

(** For the text of two digits, a colon and two digits: the validator
    accepts it exactly when the hour is at most 23 and the minute at most
    59, the check of the analysis agrees with the validator, the text is
    the HH:MM of its hour and minute, and the chart reads it as these. *)
Definition time_check (a b d e : ascii) : bool :=
  let text := String a (String b (String ":"%char (String d (String e "")))) in
  let h := 10 * digitValue a + digitValue b in
  let m := 10 * digitValue d + digitValue e in
  Bool.eqb (is_none (validateBirthTime (Some text))) ((h <=? 23) && (m <=? 59))
  && Bool.eqb (is_none (checkBirthTime (Some text)))
              (is_none (validateBirthTime (Some text)))
  && String.eqb text (timeText h m)
  && (0 <=? h) && (0 <=? m)
  && readsAs (Some text) h m.

Definition timeText_check (h m : Z) : bool :=
  is_none (validateBirthTime (Some (timeText h m)))
  && readsAs (Some (timeText h m)) h m.

(** ** Genders *)

Definition acceptedGenders : list string :=
  ["male"; "female"; "男"; "女"; "男性"; "女性"].

(** The gender that stands for the way the luck functions read [gender]. *)
Definition genderClass (gender : string) : string :=
  if isMaleGender gender then "male" else "female".

(** ** Requests under the daily limit *)

(** The requests [reqs] served one after the other: the table afterwards,
    and each request with its answer. *)
Fixpoint serve (enabled : bool) (dailyLimit : Z) (db : list UsageRow)
    (reqs : list Request) : list UsageRow * list (Request * Outcome) :=
  match reqs with
  | [] => (db, [])
  | req :: rest =>
      let '(db1, outcome) := aiRateLimit enabled dailyLimit db req in
      let '(db2, log) := serve enabled dailyLimit db1 rest in
      (db2, (req, outcome) :: log)
  end.

Definition fromClient (ip date : string) (req : Request) : bool :=
  String.eqb (clientIp req) ip && String.eqb (today req) date.

Definition is_passed (outcome : Outcome) : bool :=
  match outcome with
  | Passed _ => true
  | Rejected _ _ => false
  end.

(** The number of requests of the client [ip] on [date], and the number of
    them that were let through. *)
Definition requestsFrom (ip date : string) (reqs : list Request) : Z :=
  Z.of_nat (List.length (filter (fromClient ip date) reqs)).

Definition passedFrom (ip date : string) (log : list (Request * Outcome)) : Z :=
  Z.of_nat (List.length
              (filter (fun entry =>
                         fromClient ip date (fst entry) && is_passed (snd entry))
                      log)).

(** ** Lunar dates *)







(** * Properties *)

(** ** Finite enumeration *)

(** A boolean check run over a finite vocabulary decides a universally
    quantified statement about its members. *)
Lemma forallb_In {A : Type} (P : A -> bool) (xs : list A) :
  forallb P xs = true -> forall x, In x xs -> P x = true.
Proof.
  intros H x Hx. rewrite forallb_forall in H. exact (H x Hx).
Qed.

Lemma forallb2_In {A B : Type} (P : A -> B -> bool) (xs : list A) (ys : list B) :
  forallb (fun x => forallb (P x) ys) xs = true ->
  forall x y, In x xs -> In y ys -> P x y = true.
Proof.
  intros H x y Hx Hy.
  apply (forallb_In (P x) ys); [ | exact Hy ].
  exact (forallb_In (fun x => forallb (P x) ys) xs H x Hx).
Qed.

Lemma js_get_In {A : Type} (tbl : list (string * A)) (k : string) (v : A) :
  js_get tbl k = Some v -> In (k, v) tbl.
Proof.
  induction tbl as [ | [k' v'] rest IH ]; simpl; [ discriminate | ].
  destruct (String.eqb k' k) eqn:E.
  - intros [= ->]. apply String.eqb_eq in E. subst. now left.
  - intros H. right. now apply IH.
Qed.

Lemma js_get_is_true (tbl : list (string * string)) (k v : string) :
  js_get_is tbl k v = true <-> js_get tbl k = Some v.
Proof.
  unfold js_get_is. destruct (js_get tbl k) as [w | ].
  - rewrite String.eqb_eq. split; [ now intros -> | now intros [= ->] ].
  - split; discriminate.
Qed.

(** Splits a membership in a literal list into its cases. *)
Ltac in_cases H :=
  repeat (destruct H as [H | H]; [ | ]); try contradiction.

Lemma produces_elements (a b : string) :
  produces a b -> In a elements /\ In b elements.
Proof.
  intros H. apply js_get_In in H. unfold generateCycle in H.
  in_cases H; injection H as <- <-; split; vm_compute; tauto.
Qed.

Lemma destroys_elements (a b : string) :
  destroys a b -> In a elements /\ In b elements.
Proof.
  intros H. apply js_get_In in H. unfold overcomeCycle in H.
  in_cases H; injection H as <- <-; split; vm_compute; tauto.
Qed.

(** ** The five-element relation *)

Lemma relation_total_checked :
  forallb (fun a => forallb (relation_total_check a) elements) elements = true.
Proof. vm_compute. reflexivity. Qed.

Lemma tenGod_known_checked :
  forallb (fun x => forallb (tenGod_known_check x) stems) stems = true.
Proof. vm_compute. reflexivity. Qed.

(** C9: on the five elements [getElementRelation] never answers "neutral":
    two equal elements stand in none of the four cycle relations, two
    different ones in exactly one of them; and for every pair of the ten
    stems [calculateTenGod] never returns the fallback label "未知". *)
Theorem calculateTenGod_never_unknown :
  (forall a b, In a elements -> In b elements ->
     getElementRelation a b <> "neutral"
     /\ (a = b -> cycleRelationCount a b = 0%nat)
     /\ (a <> b -> cycleRelationCount a b = 1%nat))
  /\ (forall x y, In x stems -> In y stems -> calculateTenGod x y <> "未知").
Proof.
  split.
  - intros a b Ha Hb.
    pose proof (forallb2_In relation_total_check elements elements
                  relation_total_checked a b Ha Hb) as H.
    unfold relation_total_check in H.
    apply andb_true_iff in H. destruct H as [Hn Hc].
    apply negb_true_iff, String.eqb_neq in Hn.
    split; [ exact Hn | ].
    destruct (String.eqb a b) eqn:E.
    + apply String.eqb_eq in E. apply Nat.eqb_eq in Hc.
      split; [ intros _; exact Hc | intros Hne; contradiction ].
    + apply String.eqb_neq in E. apply Nat.eqb_eq in Hc.
      split; [ intros Heq; contradiction | intros _; exact Hc ].
  - intros x y Hx Hy.
    pose proof (forallb2_In tenGod_known_check stems stems
                  tenGod_known_checked x y Hx Hy) as H.
    unfold tenGod_known_check in H.
    now apply negb_true_iff, String.eqb_neq in H.
Qed.

Lemma calculateTenGod_never_unknown_witness :
  getElementRelation "木" "金" <> "neutral"
  /\ calculateTenGod "甲" "庚" <> "未知".
Proof.
  split.
  - apply (proj1 calculateTenGod_never_unknown "木" "金");
      vm_compute; tauto.
  - apply (proj2 calculateTenGod_never_unknown "甲" "庚");
      vm_compute; tauto.
Defined.




Lemma getElementFromStem_element (x : string) :
  In x stems -> In (getElementFromStem x) elements.
Proof.
  intros H. unfold stems, stemElements in H. cbn [map fst] in H.
  in_cases H; rewrite <- H; vm_compute; tauto.
Qed.

(** ** Ten gods *)











(** ** Month strength *)

Lemma monthStrength_label_checked :
  forallb (fun e => forallb (monthStrength_label_check e) branches) elements = true.
Proof. vm_compute. reflexivity. Qed.

Lemma monthStrength_produced_checked :
  forallb monthStrength_produced_check monthStrengthLabels = true.
Proof. vm_compute. reflexivity. Qed.

Lemma seasonStrength_row_checked :
  forallb (fun e => forallb (seasonStrength_row_check e) branches) elements = true.
Proof. vm_compute. reflexivity. Qed.

Lemma includes_In (xs : list string) (x : string) :
  includes xs x = true -> In x xs.
Proof.
  unfold includes. intros H. apply existsb_exists in H.
  destruct H as (y & Hy & E). apply String.eqb_eq in E. now subst.
Qed.

(** C10: for every element of the five and every branch of the twelve,
    [getMonthStrength] returns one of the eight labels 旺, 相, 休, 死, 绝, 墓,
    生, 余气, each of which some input produces; it never returns 囚, to which
    the month-score table gives the weight -2, nor the fallback 平, which
    the month score reads as 0 by default, because every row of the season
    table has an entry for each of the twelve branches. *)
Theorem getMonthStrength_eight_labels :
  (forall e b, In e elements -> In b branches ->
     In (getMonthStrength e b) monthStrengthLabels
     /\ getMonthStrength e b <> "囚"
     /\ getMonthStrength e b <> "平")
  /\ (NoDup monthStrengthLabels /\ List.length monthStrengthLabels = 8%nat)
  /\ (forall l, In l monthStrengthLabels ->
        exists e b, In e elements /\ In b branches /\ getMonthStrength e b = l)
  /\ (forall e b, In e elements -> In b branches ->
        exists row label,
          js_get seasonStrength e = Some row /\ js_get row b = Some label)
  /\ (forall hiddenSupport stemSupport,
        month_score (calculateOverallStrength "囚" hiddenSupport stemSupport)
        = (-2)%Q
        /\ month_score (calculateOverallStrength "平" hiddenSupport stemSupport)
           = 0%Q).
Proof.
  repeat apply conj.
  - intros e b He Hb.
    pose proof (forallb2_In monthStrength_label_check elements branches
                  monthStrength_label_checked e b He Hb) as H.
    apply includes_In in H.
    split; [ exact H | ].
    split; intros E; rewrite E in H; unfold monthStrengthLabels in H;
      in_cases H; discriminate H.
  - unfold monthStrengthLabels.
    repeat (constructor; [ simpl; intros H; in_cases H; discriminate H | ]).
    constructor.
  - reflexivity.
  - intros l Hl.
    pose proof (forallb_In monthStrength_produced_check monthStrengthLabels
                  monthStrength_produced_checked l Hl) as H.
    unfold monthStrength_produced_check in H.
    apply existsb_exists in H. destruct H as (e & He & H).
    apply existsb_exists in H. destruct H as (b & Hb & H).
    apply String.eqb_eq in H. now exists e, b.
  - intros e b He Hb.
    pose proof (forallb2_In seasonStrength_row_check elements branches
                  seasonStrength_row_checked e b He Hb) as H.
    unfold seasonStrength_row_check in H.
    destruct (js_get seasonStrength e) as [row | ]; [ | discriminate ].
    destruct (js_get row b) as [label | ] eqn:Hrow; [ | discriminate ].
    exists row, label. split; [ reflexivity | exact Hrow ].
  - intros hiddenSupport stemSupport. split; reflexivity.
Qed.

Lemma getMonthStrength_eight_labels_witness :
  In (getMonthStrength "木" "寅") monthStrengthLabels
  /\ getMonthStrength "木" "寅" <> "囚"
  /\ getMonthStrength "木" "寅" <> "平".
Proof.
  apply (proj1 getMonthStrength_eight_labels "木" "寅"); vm_compute; tauto.
Defined.

(** ** Strength level *)

Local Open Scope Q_scope.

Lemma Qgeb_true (a b : Q) : Qgeb a b = true <-> b <= a.
Proof. unfold Qgeb. apply Qle_bool_iff. Qed.

Lemma Qgeb_false (a b : Q) : Qgeb a b = false <-> a < b.
Proof.
  unfold Qgeb. split.
  - intros H. apply Qnot_le_lt. intros Hle.
    apply Qle_bool_iff in Hle. congruence.
  - intros H. destruct (Qle_bool b a) eqn:E; [ | reflexivity ].
    apply Qle_bool_iff in E. exfalso. exact (Qlt_not_le _ _ H E).
Qed.

(** C3: the strength level is read off the total score by bands that
    include their lower bound: at least 6 is 太旺, from 3 up to 6 is 偏旺,
    from -1 up to 3 is 中和, from -4 up to -1 is 偏弱 and below -4 is 太弱;
    a total of exactly 3 is 偏旺 and a total of 2.999 is 中和. *)
Theorem getStrengthLevel_bands :
  (forall o, 6 <= total_score o -> getStrengthLevel o = "太旺")
  /\ (forall o, 3 <= total_score o -> total_score o < 6 ->
        getStrengthLevel o = "偏旺")
  /\ (forall o, -1 <= total_score o -> total_score o < 3 ->
        getStrengthLevel o = "中和")
  /\ (forall o, -4 <= total_score o -> total_score o < -1 ->
        getStrengthLevel o = "偏弱")
  /\ (forall o, total_score o < -4 -> getStrengthLevel o = "太弱")
  /\ (forall o, total_score o == 3 -> getStrengthLevel o = "偏旺")
  /\ (forall o, total_score o == 2.999 -> getStrengthLevel o = "中和").
Proof.
  assert (Hband : forall o lo hi,
            lo <= total_score o -> total_score o < hi ->
            Qgeb (total_score o) lo = true /\ Qgeb (total_score o) hi = false).
  { intros o lo hi Hlo Hhi. split; [ now apply Qgeb_true | now apply Qgeb_false ]. }
  assert (Hbelow : forall o lo hi,
            total_score o < lo -> lo <= hi -> Qgeb (total_score o) hi = false).
  { intros o lo hi H Hle. apply Qgeb_false. eapply Qlt_le_trans; eassumption. }
  assert (H2 : forall o, 3 <= total_score o -> total_score o < 6 ->
                 getStrengthLevel o = "偏旺").
  { intros o Hlo Hhi. unfold getStrengthLevel. cbv zeta.
    destruct (Hband o 3 6 Hlo Hhi) as [-> ->]. reflexivity. }
  assert (H3 : forall o, -1 <= total_score o -> total_score o < 3 ->
                 getStrengthLevel o = "中和").
  { intros o Hlo Hhi. unfold getStrengthLevel. cbv zeta.
    destruct (Hband o (-1) 3 Hlo Hhi) as [-> ->].
    rewrite (Hbelow o 3 6 Hhi) by discriminate. reflexivity. }
  repeat apply conj.
  - intros o H. unfold getStrengthLevel. cbv zeta.
    apply Qgeb_true in H. now rewrite H.
  - exact H2.
  - exact H3.
  - intros o Hlo Hhi. unfold getStrengthLevel. cbv zeta.
    destruct (Hband o (-4) (-1) Hlo Hhi) as [-> ->].
    rewrite (Hbelow o (-1) 6 Hhi) by discriminate.
    rewrite (Hbelow o (-1) 3 Hhi) by discriminate. reflexivity.
  - intros o H. unfold getStrengthLevel. cbv zeta.
    rewrite (Hbelow o (-4) 6 H) by discriminate.
    rewrite (Hbelow o (-4) 3 H) by discriminate.
    rewrite (Hbelow o (-4) (-1) H) by discriminate.
    rewrite (Hbelow o (-4) (-4) H) by discriminate. reflexivity.
  - intros o H. apply H2; rewrite H; [ discriminate | reflexivity ].
  - intros o H. apply H3; rewrite H; [ discriminate | reflexivity ].
Qed.

Lemma getStrengthLevel_bands_witness :
  getStrengthLevel (mkOverallStrength 4 (-1) 0 3) = "偏旺"
  /\ getStrengthLevel (mkOverallStrength 4 (-1.001) 0 2.999) = "中和"
  /\ getStrengthLevel (mkOverallStrength 0 (-1) 0 (-1)) = "中和"
  /\ getStrengthLevel (mkOverallStrength (-3) (-1) 0 (-4)) = "偏弱".
Proof.
  destruct getStrengthLevel_bands as (_ & H2 & H3 & H4 & _ & _ & _).
  repeat apply conj.
  - apply H2; simpl; [ discriminate | reflexivity ].
  - apply H3; simpl; [ discriminate | reflexivity ].
  - apply H3; simpl; [ discriminate | reflexivity ].
  - apply H4; simpl; [ discriminate | reflexivity ].
Defined.

Local Close Scope Q_scope.

(** ** Year pillar *)

(** The two-step normalisation [((a % n) % n + n) % n] of the source is the
    floored modulus, for the two cycle lengths. *)
Lemma rem_normalised_10 (a : Z) :
  Z.rem (Z.rem (Z.rem a 10) 10 + 10) 10 = a mod 10.
Proof. Z.to_euclidean_division_equations. lia. Qed.

Lemma rem_normalised_12 (a : Z) :
  Z.rem (Z.rem (Z.rem a 12) 12 + 12) 12 = a mod 12.
Proof. Z.to_euclidean_division_equations. lia. Qed.

(** C7: the year pillar counts from the calendar year, or from the year
    before when the boundary resolver answers that the birth instant is not
    after Start of Spring; its stem index is that year minus 1984 modulo 10
    and its branch index the same modulo 12, both non-negative also for years
    before 1984, and the stem and branch are the ones [BaseData] has at these
    indices. *)
Theorem calculateYearPillar_indices (this : BaziAnalyzer)
    (year month day hour minute : Z) :
  let birthInstant := mkJsDate year (month - 1) day hour minute in
  let actualYear :=
    if isAfterSpringBeginning (solarTermsCalculator this) birthInstant
    then year else year - 1 in
  let p := calculateYearPillar this year month day hour minute in
  stemIndex p = (actualYear - 1984) mod 10
  /\ branchIndex p = (actualYear - 1984) mod 12
  /\ 0 <= stemIndex p < 10
  /\ 0 <= branchIndex p < 12
  /\ stem p = getStemByIndex (baseData this) (stemIndex p)
  /\ branch p = getBranchByIndex (baseData this) (branchIndex p).
Proof.
  intros birthInstant actualYear p.
  assert (Hs : stemIndex p = (actualYear - 1984) mod 10).
  { subst p actualYear birthInstant. unfold calculateYearPillar. cbv zeta. simpl.
    rewrite rem_normalised_10.
    now destruct (isAfterSpringBeginning _ _). }
  assert (Hb : branchIndex p = (actualYear - 1984) mod 12).
  { subst p actualYear birthInstant. unfold calculateYearPillar. cbv zeta. simpl.
    rewrite rem_normalised_12.
    now destruct (isAfterSpringBeginning _ _). }
  repeat apply conj; try reflexivity.
  - exact Hs.
  - exact Hb.
  - rewrite Hs. apply Z.mod_pos_bound. lia.
  - rewrite Hs. apply Z.mod_pos_bound. lia.
  - rewrite Hb. apply Z.mod_pos_bound. lia.
  - rewrite Hb. apply Z.mod_pos_bound. lia.
Qed.

Example calculateYearPillar_before_1984 :
  forall this,
    isAfterSpringBeginning (solarTermsCalculator this)
      (mkJsDate 1950 0 15 12 0) = false ->
    stemIndex (calculateYearPillar this 1950 1 15 12 0) = 5
    /\ branchIndex (calculateYearPillar this 1950 1 15 12 0) = 1.
Proof.
  intros this H. unfold calculateYearPillar. simpl. rewrite H. simpl. split; reflexivity.
Qed.

(** ** The day after a calendar date *)

Lemma isLeapYear_true (y : Z) :
  isLeapYear y = true <-> y mod 4 = 0 /\ (y mod 100 <> 0 \/ y mod 400 = 0).
Proof.
  unfold isLeapYear.
  rewrite andb_true_iff, orb_true_iff, negb_true_iff, Z.eqb_neq, !Z.eqb_eq.
  reflexivity.
Qed.

Lemma isLeapYear_false (y : Z) :
  isLeapYear y = false <-> y mod 4 <> 0 \/ (y mod 100 = 0 /\ y mod 400 <> 0).
Proof.
  unfold isLeapYear.
  rewrite andb_false_iff, orb_false_iff, negb_false_iff, !Z.eqb_neq, Z.eqb_eq.
  reflexivity.
Qed.

Lemma daysBeforeYear_succ (y : Z) :
  daysBeforeYear (y + 1)
  = daysBeforeYear y + (if isLeapYear y then 366 else 365).
Proof.
  unfold daysBeforeYear. replace (y + 1 - 1) with y by lia.
  destruct (isLeapYear y) eqn:L.
  - apply isLeapYear_true in L. Z.div_mod_to_equations. lia.
  - apply isLeapYear_false in L. Z.div_mod_to_equations. lia.
Qed.

Lemma month_cases (m : Z) :
  1 <= m <= 12 ->
  m = 1 \/ m = 2 \/ m = 3 \/ m = 4 \/ m = 5 \/ m = 6 \/ m = 7 \/ m = 8
  \/ m = 9 \/ m = 10 \/ m = 11 \/ m = 12.
Proof. lia. Qed.

(** On a valid date [nextDay] is the calendar's successor: a valid date whose
    day count is one more. *)
Lemma nextDay_successor (y m d : Z) :
  validDate y m d ->
  exists y' m' d',
    nextDay y m d = (y', m', d')
    /\ validDate y' m' d'
    /\ dayNumber y' m' d' = dayNumber y m d + 1.
Proof.
  intros (Hy & Hm & Hd).
  assert (Hfy : Date_fullYear y = y).
  { unfold Date_fullYear.
    destruct (Z.leb_spec 0 y); destruct (Z.leb_spec y 99); simpl; lia. }
  unfold nextDay. rewrite Hfy.
  destruct (Z.leb_spec (d + 1) (daysInMonth y m)) as [Hle | Hgt].
  - exists y, m, (d + 1). split; [ reflexivity | ].
    split; [ unfold validDate; lia | unfold dayNumber; lia ].
  - assert (Hlast : d = daysInMonth y m) by lia.
    destruct (Z.eqb_spec m 12) as [-> | Hne].
    + exists (y + 1), 1, 1. split; [ reflexivity | ].
      split.
      * unfold validDate.
        split; [ lia | split; [ lia | vm_compute; split; discriminate ] ].
      * unfold dayNumber. rewrite daysBeforeYear_succ. subst d.
        unfold daysBeforeMonth, daysInMonth. simpl.
        destruct (isLeapYear y); lia.
    + exists y, (m + 1), 1. split; [ reflexivity | ].
      split.
      * unfold validDate. split; [ exact Hy | split; [ lia | ] ].
        unfold daysInMonth.
        destruct (m + 1 =? 2); [ destruct (isLeapYear y); lia | ].
        destruct ((m + 1 =? 4) || (m + 1 =? 6) || (m + 1 =? 9) || (m + 1 =? 11));
          lia.
      * unfold dayNumber. subst d.
        destruct (month_cases m Hm) as
          [-> | [-> | [-> | [-> | [-> | [-> | [-> | [-> | [-> | [-> | [-> | ->]]]]]]]]]]];
          try lia;
          unfold daysBeforeMonth, daysInMonth; simpl;
          destruct (isLeapYear y); lia.
Qed.

Example nextDay_end_of_february_2023 : nextDay 2023 2 28 = (2023, 3, 1).
Proof. reflexivity. Qed.

Example nextDay_leap_day_2024 : nextDay 2024 2 28 = (2024, 2, 29).
Proof. reflexivity. Qed.

Example nextDay_end_of_year : nextDay 1999 12 31 = (2000, 1, 1).
Proof. reflexivity. Qed.

Example nextDay_two_digit_year : nextDay 50 1 1 = (1950, 1, 2).
Proof. reflexivity. Qed.

(** ** The embedding on concrete dates *)

Example exampleDayPillar_2000_01_01 :
  stem (exampleDayPillar 2000 1 1) = "戊" /\ branch (exampleDayPillar 2000 1 1) = "午".
Proof. vm_compute. split; reflexivity. Qed.

Example example_chart_noon :
  option_map complete_chart
    (calculatePreciseBazi exampleAnalyzer 2000 1 1 (Some (12, 0)))
  = Some "己卯 丙子 戊午 戊午".
Proof. vm_compute. reflexivity. Qed.

Example example_chart_late_zi :
  option_map complete_chart
    (calculatePreciseBazi exampleAnalyzer 2000 1 1 (Some (23, 30)))
  = Some "己卯 丙子 戊午 甲子".
Proof. vm_compute. reflexivity. Qed.

Example example_chart_early_zi :
  option_map complete_chart
    (calculatePreciseBazi exampleAnalyzer 2000 1 1 (Some (0, 30)))
  = Some "己卯 丙子 戊午 壬子".
Proof. vm_compute. reflexivity. Qed.

(** ** Zi hour *)

Lemma stemBase_defined (i : Z) :
  0 <= i < 10 ->
  (exists start, js_get_num monthStemBase i = Some start)
  /\ (exists start, js_get_num hourStemBase i = Some start /\ 0 <= start < 10).
Proof.
  intros Hi.
  assert (H : i = 0 \/ i = 1 \/ i = 2 \/ i = 3 \/ i = 4 \/ i = 5 \/ i = 6
              \/ i = 7 \/ i = 8 \/ i = 9) by lia.
  repeat (destruct H as [-> | H]; [ split; eexists; simpl; [ | split ];
                                     first [ reflexivity | lia ] | ]).
  subst i. split; eexists; simpl; [ | split ]; first [ reflexivity | lia ].
Qed.

Lemma calculateMonthPillar_defined (this : BaziAnalyzer)
    (year month day hour minute : Z) :
  exists monthPillar,
    calculateMonthPillar this year month day
      (stemIndex (calculateYearPillar this year month day hour minute))
      hour minute = Some monthPillar.
Proof.
  assert (Hs : 0 <= stemIndex (calculateYearPillar this year month day hour minute)
               < 10).
  { unfold calculateYearPillar. cbv zeta. simpl stemIndex.
    rewrite rem_normalised_10. apply Z.mod_pos_bound. lia. }
  destruct (stemBase_defined _ Hs) as [[start Hstart] _].
  unfold calculateMonthPillar. cbv zeta. rewrite Hstart. eexists. reflexivity.
Qed.

(** The hour pillar of a late Zi hour is derived from the day after, whatever
    day stem it is handed; that of an early Zi hour from the stem it is
    handed. *)
Lemma calculateHourPillar_late_zi (this : BaziAnalyzer)
    (minute dayStemIndex year month day y' m' d' start : Z) :
  nextDay year month day = (y', m', d') ->
  js_get_num hourStemBase
    (stemIndex (getAccurateDayPillar (wanNianLi this) y' m' d')) = Some start ->
  calculateHourPillar this 23 minute dayStemIndex year month day
  = Some (mkHourPillar
            (mkPillar (getStemByIndex (baseData this) (Z.rem (start + 0) 10))
                      (getBranchByIndex (baseData this) 0)
                      (Z.rem (start + 0) 10) 0)
            (Some "晚子时") true false).
Proof.
  intros Hnext Hstart. unfold calculateHourPillar, calculateDayPillar.
  change (23 =? 23) with true. cbv beta iota.
  rewrite Hnext. cbv beta iota. rewrite Hstart. reflexivity.
Qed.

Lemma calculateHourPillar_early_zi (this : BaziAnalyzer)
    (minute dayStemIndex year month day start : Z) :
  js_get_num hourStemBase dayStemIndex = Some start ->
  calculateHourPillar this 0 minute dayStemIndex year month day
  = Some (mkHourPillar
            (mkPillar (getStemByIndex (baseData this) (Z.rem (start + 0) 10))
                      (getBranchByIndex (baseData this) 0)
                      (Z.rem (start + 0) 10) 0)
            (Some "早子时") false true).
Proof.
  intros Hstart. unfold calculateHourPillar.
  change (0 =? 23) with false. change (0 =? 0) with true. cbv beta iota.
  rewrite Hstart. reflexivity.
Qed.

(** C2: for a birth date D and a birth time of hour 23, the chart's Day
    pillar (and day master) is the day-pillar lookup for D, while the stem of
    its Hour pillar is the rat-start entry of the day stem looked up for the
    calendar day after D, plus the hour-branch index 0, modulo 10; for hour 0
    the Day pillar and the day stem behind the Hour pillar's stem are both
    those of D.  The lookup is taken to answer a stem index 0..9 on calendar
    dates. *)
Theorem calculatePreciseBazi_zi_hour (this : BaziAnalyzer) (y m d minute : Z) :
  validDate y m d ->
  (forall y' m' d', validDate y' m' d' ->
     0 <= stemIndex (getAccurateDayPillar (wanNianLi this) y' m' d') < 10) ->
  (exists chart y' m' d' start,
      calculatePreciseBazi this y m d (Some (23, minute)) = Some chart
      /\ nextDay y m d = (y', m', d')
      /\ dayNumber y' m' d' = dayNumber y m d + 1
      /\ ChartPillar.stem (day_pillar chart)
         = stem (getAccurateDayPillar (wanNianLi this) y m d)
      /\ ChartPillar.branch (day_pillar chart)
         = branch (getAccurateDayPillar (wanNianLi this) y m d)
      /\ day_master chart = stem (getAccurateDayPillar (wanNianLi this) y m d)
      /\ js_get_num hourStemBase
           (stemIndex (getAccurateDayPillar (wanNianLi this) y' m' d'))
         = Some start
      /\ ChartPillar.stem (hour_pillar chart)
         = getStemByIndex (baseData this) ((start + 0) mod 10)
      /\ ChartPillar.branch (hour_pillar chart)
         = getBranchByIndex (baseData this) 0
      /\ ChartPillar.extra (hour_pillar chart) = ZiShi (Some "晚子时") true false)
  /\ (exists chart start,
      calculatePreciseBazi this y m d (Some (0, minute)) = Some chart
      /\ ChartPillar.stem (day_pillar chart)
         = stem (getAccurateDayPillar (wanNianLi this) y m d)
      /\ ChartPillar.branch (day_pillar chart)
         = branch (getAccurateDayPillar (wanNianLi this) y m d)
      /\ day_master chart = stem (getAccurateDayPillar (wanNianLi this) y m d)
      /\ js_get_num hourStemBase
           (stemIndex (getAccurateDayPillar (wanNianLi this) y m d))
         = Some start
      /\ ChartPillar.stem (hour_pillar chart)
         = getStemByIndex (baseData this) ((start + 0) mod 10)
      /\ ChartPillar.branch (hour_pillar chart)
         = getBranchByIndex (baseData this) 0
      /\ ChartPillar.extra (hour_pillar chart) = ZiShi (Some "早子时") false true).
Proof.
  intros Hvalid Hlookup. split.
  - destruct (nextDay_successor y m d Hvalid) as (y' & m' & d' & Hnext & Hv' & Hnum).
    destruct (stemBase_defined _ (Hlookup y' m' d' Hv')) as [_ (start & Hstart & Hrange)].
    destruct (calculateMonthPillar_defined this y m d 23 minute) as [monthPillar Hmonth].
    eexists. exists y', m', d', start.
    split.
    { unfold calculatePreciseBazi. cbv zeta. rewrite Hmonth.
      rewrite (calculateHourPillar_late_zi this minute _ y m d y' m' d' start Hnext Hstart).
      reflexivity. }
    rewrite Z.rem_mod_nonneg by lia.
    repeat split; try assumption; reflexivity.
  - destruct Hvalid as (Hy & Hm & Hd).
    assert (Hv : validDate y m d) by (unfold validDate; tauto).
    destruct (stemBase_defined _ (Hlookup y m d Hv)) as [_ (start & Hstart & Hrange)].
    destruct (calculateMonthPillar_defined this y m d 0 minute) as [monthPillar Hmonth].
    eexists. exists start.
    split.
    { unfold calculatePreciseBazi. cbv zeta. rewrite Hmonth.
      unfold calculateDayPillar.
      rewrite (calculateHourPillar_early_zi this minute _ y m d start Hstart).
      reflexivity. }
    rewrite Z.rem_mod_nonneg by lia.
    repeat split; try assumption; reflexivity.
Qed.

Lemma calculatePreciseBazi_zi_hour_witness :
  validDate 2000 1 1
  /\ exists chart,
       calculatePreciseBazi exampleAnalyzer 2000 1 1 (Some (23, 30)) = Some chart
       /\ ChartPillar.stem (day_pillar chart) = "戊"
       /\ ChartPillar.stem (hour_pillar chart) = "甲".
Proof.
  assert (Hvalid : validDate 2000 1 1).
  { unfold validDate. vm_compute. intuition discriminate. }
  assert (Hlookup : forall y' m' d', validDate y' m' d' ->
            0 <= stemIndex
                   (getAccurateDayPillar (wanNianLi exampleAnalyzer) y' m' d') < 10).
  { intros y' m' d' _. simpl. apply Z.mod_pos_bound. lia. }
  split; [ exact Hvalid | ].
  destruct (calculatePreciseBazi_zi_hour exampleAnalyzer 2000 1 1 30 Hvalid Hlookup)
    as [(chart & y' & m' & d' & start & Hchart & Hnext & _ & Hs & _ & _ & Hstart & Hh & _) _].
  exists chart. split; [ exact Hchart | ].
  split; [ rewrite Hs; reflexivity | ].
  injection Hnext as <- <- <-.
  vm_compute in Hstart. injection Hstart as <-.
  rewrite Hh. reflexivity.
Defined.

(** ** Use-god inference *)

Local Open Scope Q_scope.

Lemma getStrengthLevel_cases (o : OverallStrength) :
  In (getStrengthLevel o) ["太旺"; "偏旺"; "中和"; "偏弱"; "太弱"].
Proof.
  unfold getStrengthLevel. cbv zeta.
  destruct (Qgeb (total_score o) 6); [ simpl; tauto | ].
  destruct (Qgeb (total_score o) 3); [ simpl; tauto | ].
  destruct (Qgeb (total_score o) (-1)); [ simpl; tauto | ].
  destruct (Qgeb (total_score o) (-4)); simpl; tauto.
Qed.

(** The use-god analysis reads its score record only through the level, and
    never reads the pillars. *)
Lemma analyzeUseGod_by_level (E : string) (o o' : OverallStrength) (p p' : Pillars) :
  getStrengthLevel o = getStrengthLevel o' ->
  analyzeUseGod E o p = analyzeUseGod E o' p'.
Proof.
  intros H. unfold analyzeUseGod. cbv zeta. rewrite H. reflexivity.
Qed.

Lemma levelSample_level (o : OverallStrength) :
  getStrengthLevel (levelSample (getStrengthLevel o)) = getStrengthLevel o.
Proof.
  pose proof (getStrengthLevel_cases o) as H.
  in_cases H; rewrite <- H; reflexivity.
Qed.

Lemma analyzeUseGod_sample (E : string) (o : OverallStrength) (p : Pillars) :
  analyzeUseGod E o p
  = analyzeUseGod E (levelSample (getStrengthLevel o)) pillarsSample.
Proof.
  apply analyzeUseGod_by_level. symmetry. apply levelSample_level.
Qed.

Local Close Scope Q_scope.

Lemma useGod_strong_checked :
  forallb (fun l => forallb (useGod_strong_check l) elements) ["太旺"; "偏旺"] = true.
Proof. vm_compute. reflexivity. Qed.

Lemma useGod_weak_checked :
  forallb (fun l => forallb (useGod_weak_check l) elements) ["偏弱"; "太弱"] = true.
Proof. vm_compute. reflexivity. Qed.

Lemma controls_true (E x : string) :
  controls E x = true <-> destroys x E \/ produces E x \/ destroys E x.
Proof.
  unfold controls, destroys, produces.
  rewrite !orb_true_iff, !js_get_is_true. tauto.
Qed.

Lemma supports_true (E x : string) :
  supports E x = true <-> x = E \/ produces x E.
Proof.
  unfold supports, produces.
  rewrite orb_true_iff, js_get_is_true, String.eqb_eq. tauto.
Qed.

Lemma controls_element (E x : string) : controls E x = true -> In x elements.
Proof.
  intros H. apply controls_true in H.
  destruct H as [H | [H | H]].
  - apply (destroys_elements _ _ H).
  - apply (produces_elements _ _ H).
  - apply (destroys_elements _ _ H).
Qed.

Lemma supports_element (E x : string) :
  In E elements -> supports E x = true -> In x elements.
Proof.
  intros HE H. apply supports_true in H.
  destruct H as [-> | H]; [ exact HE | apply (produces_elements _ _ H) ].
Qed.

Lemma names_exactly_In (text : string) (test : string -> bool) :
  names_exactly text test = true ->
  (forall x, test x = true -> In x elements) ->
  forall x, In x (namedElements text) <-> test x = true.
Proof.
  intros Hn Hdom x. unfold namedElements. rewrite filter_In.
  unfold names_exactly in Hn.
  split.
  - intros [Hx Hc].
    pose proof (forallb_In _ _ Hn x Hx) as Hb. cbv beta in Hb.
    apply Bool.eqb_prop in Hb. congruence.
  - intros Ht. pose proof (Hdom x Ht) as Hx. split; [ exact Hx | ].
    pose proof (forallb_In _ _ Hn x Hx) as Hb. cbv beta in Hb.
    apply Bool.eqb_prop in Hb. congruence.
Qed.

Lemma useGod_strong_names (E : string) (o : OverallStrength) (p : Pillars) :
  In E elements ->
  getStrengthLevel o = "太旺" \/ getStrengthLevel o = "偏旺" ->
  (forall x, In x (namedElements (use_god (analyzeUseGod E o p)))
             <-> controls E x = true)
  /\ (forall x, In x (namedElements (avoid_god (analyzeUseGod E o p)))
                <-> supports E x = true).
Proof.
  intros HE Hl. rewrite analyzeUseGod_sample.
  assert (Hin : In (getStrengthLevel o) ["太旺"; "偏旺"])
    by (simpl; destruct Hl as [-> | ->]; tauto).
  pose proof (forallb2_In useGod_strong_check _ _ useGod_strong_checked
                _ _ Hin HE) as H.
  unfold useGod_strong_check in H. cbv zeta in H.
  apply andb_true_iff in H. destruct H as [Hu Ha].
  split.
  - apply names_exactly_In; [ exact Hu | exact (controls_element E) ].
  - apply names_exactly_In; [ exact Ha | exact (fun x => supports_element E x HE) ].
Qed.

Lemma useGod_weak_names (E : string) (o : OverallStrength) (p : Pillars) :
  In E elements ->
  getStrengthLevel o = "偏弱" \/ getStrengthLevel o = "太弱" ->
  (forall x, In x (namedElements (use_god (analyzeUseGod E o p)))
             <-> supports E x = true)
  /\ (forall x, In x (namedElements (avoid_god (analyzeUseGod E o p)))
                <-> controls E x = true).
Proof.
  intros HE Hl. rewrite analyzeUseGod_sample.
  assert (Hin : In (getStrengthLevel o) ["偏弱"; "太弱"])
    by (simpl; destruct Hl as [-> | ->]; tauto).
  pose proof (forallb2_In useGod_weak_check _ _ useGod_weak_checked
                _ _ Hin HE) as H.
  unfold useGod_weak_check in H. cbv zeta in H.
  apply andb_true_iff in H. destruct H as [Hu Ha].
  split.
  - apply names_exactly_In; [ exact Hu | exact (fun x => supports_element E x HE) ].
  - apply names_exactly_In; [ exact Ha | exact (controls_element E) ].
Qed.

(** No element both controls [E] and supports it. *)
Lemma controls_supports_disjoint (E x : string) :
  In E elements -> controls E x = true -> supports E x = true -> False.
Proof.
  intros HE Hc Hs.
  pose proof (controls_element E x Hc) as Hx.
  revert Hc Hs. unfold elements in HE, Hx. simpl in HE, Hx.
  in_cases HE; in_cases Hx; subst; vm_compute; discriminate.
Qed.

(** C5: for a Day-Master element E of the five, when the level is 太旺 or
    偏旺 the favourable text names exactly the element that destroys E, the
    element E produces and the element E destroys, and the unfavourable text
    names exactly E and the element that produces E; when the level is 偏弱
    or 太弱 the two sets are exchanged; when the level is 中和 both texts are
    fixed situational phrases that name no element, with a rationale; and
    for E = 木 at a strong level the texts are 金, 火, 土 against 木, 水. *)
Theorem analyzeUseGod_favorable_sets (E : string) (o : OverallStrength)
    (p : Pillars) :
  In E elements ->
  (getStrengthLevel o = "太旺" \/ getStrengthLevel o = "偏旺" ->
     (forall x, In x (namedElements (use_god (analyzeUseGod E o p)))
                <-> destroys x E \/ produces E x \/ destroys E x)
     /\ (forall x, In x (namedElements (avoid_god (analyzeUseGod E o p)))
                   <-> x = E \/ produces x E))
  /\ (getStrengthLevel o = "偏弱" \/ getStrengthLevel o = "太弱" ->
     (forall x, In x (namedElements (use_god (analyzeUseGod E o p)))
                <-> x = E \/ produces x E)
     /\ (forall x, In x (namedElements (avoid_god (analyzeUseGod E o p)))
                   <-> destroys x E \/ produces E x \/ destroys E x))
  /\ (getStrengthLevel o = "中和" ->
     use_god (analyzeUseGod E o p) = "因时制宜，随运而变"
     /\ avoid_god (analyzeUseGod E o p) = "过旺过弱之五行"
     /\ namedElements (use_god (analyzeUseGod E o p)) = []
     /\ namedElements (avoid_god (analyzeUseGod E o p)) = []
     /\ analysis (analyzeUseGod E o p)
        = "日主" ++ E ++ "中和，命格平衡，宜顺其自然，忌大起大落。")
  /\ (E = "木" ->
      getStrengthLevel o = "太旺" \/ getStrengthLevel o = "偏旺" ->
      use_god (analyzeUseGod E o p) = "金（官杀）、火（食伤）、土（财星）"
      /\ avoid_god (analyzeUseGod E o p) = "木（比劫）、水（印星）"
      /\ namedElements (use_god (analyzeUseGod E o p)) = ["火"; "土"; "金"]
      /\ namedElements (avoid_god (analyzeUseGod E o p)) = ["木"; "水"]).
Proof.
  intros HE. split; [ | split; [ | split ] ].
  - intros Hl. destruct (useGod_strong_names E o p HE Hl) as [Hu Ha].
    split; intros x.
    + rewrite Hu. apply controls_true.
    + rewrite Ha. apply supports_true.
  - intros Hl. destruct (useGod_weak_names E o p HE Hl) as [Hu Ha].
    split; intros x.
    + rewrite Hu. apply supports_true.
    + rewrite Ha. apply controls_true.
  - intros Hl. unfold analyzeUseGod. cbv zeta. rewrite Hl.
    repeat split; reflexivity.
  - intros -> Hl. unfold analyzeUseGod. cbv zeta.
    destruct Hl as [-> | ->]; repeat split; reflexivity.
Qed.

Lemma analyzeUseGod_favorable_sets_witness :
  In "木" elements
  /\ use_god (analyzeUseGod "木" (levelSample "偏旺") pillarsSample)
     = "金（官杀）、火（食伤）、土（财星）"
  /\ avoid_god (analyzeUseGod "木" (levelSample "偏旺") pillarsSample)
     = "木（比劫）、水（印星）".
Proof.
  assert (HE : In "木" elements) by (vm_compute; tauto).
  split; [ exact HE | ].
  destruct (analyzeUseGod_favorable_sets "木" (levelSample "偏旺") pillarsSample HE)
    as (_ & _ & _ & Hwood).
  destruct (Hwood eq_refl (or_intror eq_refl)) as (Hu & Ha & _).
  split; assumption.
Defined.

(** C8: for every element of the five and every level other than 中和, no
    element is named both in the favourable and in the unfavourable text;
    and the whole analysis is the same for any two score records of the same
    level and any two charts, at the same Day-Master element. *)
Theorem analyzeUseGod_disjoint_and_determined :
  (forall E o p x,
     In E elements ->
     getStrengthLevel o <> "中和" ->
     ~ (In x (namedElements (use_god (analyzeUseGod E o p)))
        /\ In x (namedElements (avoid_god (analyzeUseGod E o p)))))
  /\ (forall E o o' p p',
        getStrengthLevel o = getStrengthLevel o' ->
        analyzeUseGod E o p = analyzeUseGod E o' p').
Proof.
  split.
  - intros E o p x HE Hl [Hu Ha].
    pose proof (getStrengthLevel_cases o) as Hc.
    simpl in Hc.
    destruct Hc as [Hc | [Hc | [Hc | [Hc | [Hc | []]]]]]; symmetry in Hc.
    + destruct (useGod_strong_names E o p HE (or_introl Hc)) as [Hu' Ha'].
      apply Hu' in Hu. apply Ha' in Ha.
      exact (controls_supports_disjoint E x HE Hu Ha).
    + destruct (useGod_strong_names E o p HE (or_intror Hc)) as [Hu' Ha'].
      apply Hu' in Hu. apply Ha' in Ha.
      exact (controls_supports_disjoint E x HE Hu Ha).
    + contradiction.
    + destruct (useGod_weak_names E o p HE (or_introl Hc)) as [Hu' Ha'].
      apply Hu' in Hu. apply Ha' in Ha.
      exact (controls_supports_disjoint E x HE Ha Hu).
    + destruct (useGod_weak_names E o p HE (or_intror Hc)) as [Hu' Ha'].
      apply Hu' in Hu. apply Ha' in Ha.
      exact (controls_supports_disjoint E x HE Ha Hu).
  - intros E o o' p p'. apply analyzeUseGod_by_level.
Qed.

Lemma analyzeUseGod_disjoint_and_determined_witness :
  ~ (In "火" (namedElements
                (use_god (analyzeUseGod "木" (levelSample "太弱") pillarsSample)))
     /\ In "火" (namedElements
                   (avoid_god (analyzeUseGod "木" (levelSample "太弱") pillarsSample)))).
Proof.
  apply (proj1 analyzeUseGod_disjoint_and_determined
           "木" (levelSample "太弱") pillarsSample "火").
  - vm_compute; tauto.
  - vm_compute. discriminate.
Defined.

(** ** Support scores *)

Local Open Scope Q_scope.

Lemma hiddenStemScore_checked :
  forallb (fun h => forallb (hiddenStemScore_check h) elements) elements = true.
Proof. vm_compute. reflexivity. Qed.

Lemma stemScore_checked :
  forallb (fun s => forallb (stemScore_check s) elements) elements = true.
Proof. vm_compute. reflexivity. Qed.

Lemma implb_Qeq (b : bool) (P : Prop) (s v : Q) :
  (P -> b = true) -> implb b (Qeq_bool s v) = true -> P -> s == v.
Proof.
  intros HP H p. rewrite (HP p) in H. simpl in H. now apply Qeq_bool_eq.
Qed.

(** The base score the source gives a hidden stem of element [h] under the
    Day-Master element [d]: the score follows the label of
    [getElementRelation h d], read with the hidden stem as first argument. *)
Lemma hiddenStemScore_by_relation (h d : string) :
  In h elements -> In d elements ->
  (h = d -> hiddenStemScore (getElementRelation h d) == 3)
  /\ (produces h d -> hiddenStemScore (getElementRelation h d) == -1)
  /\ (produces d h -> hiddenStemScore (getElementRelation h d) == 2)
  /\ (destroys h d -> hiddenStemScore (getElementRelation h d) == -2)
  /\ (destroys d h -> hiddenStemScore (getElementRelation h d) == -3).
Proof.
  intros Hh Hd.
  pose proof (forallb2_In hiddenStemScore_check elements elements
                hiddenStemScore_checked h d Hh Hd) as H.
  unfold hiddenStemScore_check in H. cbv zeta in H.
  repeat (apply andb_true_iff in H; destruct H as [H ?]).
  unfold produces, destroys.
  split; [ | split; [ | split; [ | split ] ] ];
    (eapply implb_Qeq; [ | eassumption ]);
    first [ apply String.eqb_eq | apply js_get_is_true ].
Qed.

(** The base score the source gives a visible stem of element [s] under the
    Day-Master element [d]. *)
Lemma stemScore_by_relation (s d : string) :
  In s elements -> In d elements ->
  (s = d -> stemScore (getElementRelation s d) == 2)
  /\ (produces s d -> stemScore (getElementRelation s d) == -0.5)
  /\ (produces d s -> stemScore (getElementRelation s d) == 1.5)
  /\ (destroys s d -> stemScore (getElementRelation s d) == -1)
  /\ (destroys d s -> stemScore (getElementRelation s d) == -1.5).
Proof.
  intros Hs Hd.
  pose proof (forallb2_In stemScore_check elements elements
                stemScore_checked s d Hs Hd) as H.
  unfold stemScore_check in H. cbv zeta in H.
  repeat (apply andb_true_iff in H; destruct H as [H ?]).
  unfold produces, destroys.
  split; [ | split; [ | split; [ | split ] ] ];
    (eapply implb_Qeq; [ | eassumption ]);
    first [ apply String.eqb_eq | apply js_get_is_true ].
Qed.

(** C1 (the source at the input where it departs from the claim): under the
    Day-Master element 木, a branch 子 whose only hidden stem is 癸 (水, the
    element that produces 木) contributes -1 as a main hidden stem, so the
    chart 甲子 丙子 甲子 甲子 scores -4 with four itemized details of -1 under
    the label "generate". *)
Theorem analyzeHiddenStemSupport_producing_stem (baseData : BaseData) :
  getBranchHiddenStems baseData "子" = ["癸"] ->
  getElementFromStem "癸" = "水"
  /\ produces "水" "木"
  /\ HiddenStemSupport.total_score
       (analyzeHiddenStemSupport baseData "木" chartAllZi) == -4
  /\ HiddenStemSupport.details
       (analyzeHiddenStemSupport baseData "木" chartAllZi)
     = [HiddenStemSupport.mkDetail "子" "癸" "generate" (-1 * 1.0);
        HiddenStemSupport.mkDetail "子" "癸" "generate" (-1 * 1.0);
        HiddenStemSupport.mkDetail "子" "癸" "generate" (-1 * 1.0);
        HiddenStemSupport.mkDetail "子" "癸" "generate" (-1 * 1.0)].
Proof.
  intros H.
  unfold analyzeHiddenStemSupport, chartAllZi, Object_values.
  cbn [fold_left year month day hour branch].
  rewrite H.
  repeat split; vm_compute; reflexivity.
Qed.

Lemma analyzeHiddenStemSupport_producing_stem_witness :
  HiddenStemSupport.total_score
    (analyzeHiddenStemSupport exampleBaseData "木" chartAllZi) == -4.
Proof.
  apply (analyzeHiddenStemSupport_producing_stem exampleBaseData).
  reflexivity.
Defined.

(** C4 (the source at the input where it departs from the claim): under the
    Day-Master element 木, a visible stem 壬 (水, the element that produces
    木) scores -0.5, so the chart 壬申 壬寅 甲子 壬申 totals -1.5 with three
    itemized details of -0.5 under the label "generate". *)
Theorem analyzeStemSupport_producing_stem :
  getElementFromStem "壬" = "水"
  /\ produces "水" "木"
  /\ StemSupport.total_score (analyzeStemSupport "木" chartWaterStems) == -1.5
  /\ StemSupport.details (analyzeStemSupport "木" chartWaterStems)
     = [StemSupport.mkDetail "year" "壬" "generate" (-0.5);
        StemSupport.mkDetail "month" "壬" "generate" (-0.5);
        StemSupport.mkDetail "hour" "壬" "generate" (-0.5)].
Proof.
  repeat split; vm_compute; reflexivity.
Qed.

Lemma hiddenStemSupport_total (baseData : BaseData) (d : string)
    (pillars : Pillars) :
  HiddenStemSupport.total_score (analyzeHiddenStemSupport baseData d pillars)
  = fst (fold_left
           (fun acc pillar =>
              fold_left (hiddenStemStep d pillar)
                        (indexed (getBranchHiddenStems baseData (branch pillar)))
                        acc)
           (Object_values pillars) (0, [])).
Proof.
  unfold analyzeHiddenStemSupport.
  destruct (fold_left _ (Object_values pillars) (0, [])) as [score details].
  reflexivity.
Qed.

Lemma hiddenStemStep_score (d : string) (pillar : Pillar)
    (acc : Q * list HiddenStemSupport.detail) (index : nat) (h : string) :
  fst (hiddenStemStep d pillar acc (index, h))
  = fst acc
    + hiddenStemScore (getElementRelation (getElementFromStem h) d)
      * positionMultiplier index.
Proof.
  destruct acc as [score details]. unfold hiddenStemStep. reflexivity.
Qed.

(** X1: the hidden-stem scorer is run on four pillars whose branches hide
    one stem each, of the ten, under a Day-Master element of the five.  Its
    total is the sum of four scores, one for each hidden stem by the cycle
    relation of its element [e] to the Day-Master element [d]: 3 when they
    are the same, -1 when [e] produces [d], 2 when [d] produces [e], -2
    when [e] destroys [d], -3 when [d] destroys [e]. *)
Theorem analyzeHiddenStemSupport_by_relation (baseData : BaseData)
    (d : string) (pillars : Pillars) (hy hm hd hh : string) :
  In d elements ->
  In hy stems -> In hm stems -> In hd stems -> In hh stems ->
  getBranchHiddenStems baseData (branch (year pillars)) = [hy] ->
  getBranchHiddenStems baseData (branch (month pillars)) = [hm] ->
  getBranchHiddenStems baseData (branch (day pillars)) = [hd] ->
  getBranchHiddenStems baseData (branch (hour pillars)) = [hh] ->
  exists sy sm sd sh,
    HiddenStemSupport.total_score (analyzeHiddenStemSupport baseData d pillars)
    == sy + sm + sd + sh
    /\ hiddenStemScored (getElementFromStem hy) d sy
    /\ hiddenStemScored (getElementFromStem hm) d sm
    /\ hiddenStemScored (getElementFromStem hd) d sd
    /\ hiddenStemScored (getElementFromStem hh) d sh.
Proof.
  intros Hd Hy Hm Hdd Hh Ey Em Ed Eh.
  exists (hiddenStemScore (getElementRelation (getElementFromStem hy) d)),
         (hiddenStemScore (getElementRelation (getElementFromStem hm) d)),
         (hiddenStemScore (getElementRelation (getElementFromStem hd) d)),
         (hiddenStemScore (getElementRelation (getElementFromStem hh) d)).
  split.
  - rewrite hiddenStemSupport_total. unfold Object_values.
    cbn [fold_left]. rewrite Ey, Em, Ed, Eh.
    unfold indexed. cbn [List.length seq combine fold_left].
    rewrite !hiddenStemStep_score. cbn [fst].
    change (positionMultiplier 0) with 1.0. lra.
  - repeat split;
      apply hiddenStemScore_by_relation;
      first [ assumption | apply getElementFromStem_element; assumption ].
Qed.

Lemma analyzeHiddenStemSupport_by_relation_witness :
  exists sy sm sd sh,
    HiddenStemSupport.total_score
      (analyzeHiddenStemSupport exampleBaseData "木" chartAllZi)
    == sy + sm + sd + sh
    /\ hiddenStemScored (getElementFromStem "癸") "木" sy
    /\ hiddenStemScored (getElementFromStem "癸") "木" sm
    /\ hiddenStemScored (getElementFromStem "癸") "木" sd
    /\ hiddenStemScored (getElementFromStem "癸") "木" sh.
Proof.
  apply (analyzeHiddenStemSupport_by_relation exampleBaseData "木" chartAllZi
           "癸" "癸" "癸" "癸");
    first [ reflexivity | vm_compute; tauto ].
Defined.

Lemma stemSupport_total (d : string) (pillars : Pillars) :
  StemSupport.total_score (analyzeStemSupport d pillars)
  = fst (fold_left (stemStep d) (Object_entries pillars) (0, [])).
Proof.
  unfold analyzeStemSupport.
  destruct (fold_left (stemStep d) (Object_entries pillars) (0, []))
    as [score details].
  reflexivity.
Qed.

Lemma stemStep_score (d : string) (acc : Q * list StemSupport.detail)
    (position : string) (pillar : Pillar) :
  fst (stemStep d acc (position, pillar))
  = if String.eqb position "day" then fst acc
    else fst acc
         + stemScore (getElementRelation (getElementFromStem (stem pillar)) d).
Proof.
  destruct acc as [score details]. unfold stemStep.
  destruct (String.eqb position "day"); reflexivity.
Qed.

(** X2: the visible-stem scorer is run on four pillars whose year, month
    and hour stems are of the ten, under a Day-Master element of the five.
    Its total is the sum of three scores, the day pillar's own stem being
    left out, one for each of the other stems by the cycle relation of its
    element [e] to the Day-Master element [d]: 2 when they are the same,
    -0.5 when [e] produces [d], 1.5 when [d] produces [e], -1 when [e]
    destroys [d], -1.5 when [d] destroys [e]. *)
Theorem analyzeStemSupport_by_relation (d : string) (pillars : Pillars) :
  In d elements ->
  In (stem (year pillars)) stems ->
  In (stem (month pillars)) stems ->
  In (stem (hour pillars)) stems ->
  exists sy sm sh,
    StemSupport.total_score (analyzeStemSupport d pillars) == sy + sm + sh
    /\ stemScored (getElementFromStem (stem (year pillars))) d sy
    /\ stemScored (getElementFromStem (stem (month pillars))) d sm
    /\ stemScored (getElementFromStem (stem (hour pillars))) d sh.
Proof.
  intros Hd Hy Hm Hh.
  exists (stemScore (getElementRelation
                       (getElementFromStem (stem (year pillars))) d)),
         (stemScore (getElementRelation
                       (getElementFromStem (stem (month pillars))) d)),
         (stemScore (getElementRelation
                       (getElementFromStem (stem (hour pillars))) d)).
  split.
  - rewrite stemSupport_total. unfold Object_entries. cbn [fold_left].
    rewrite !stemStep_score.
    change (String.eqb "year" "day") with false.
    change (String.eqb "month" "day") with false.
    change (String.eqb "day" "day") with true.
    change (String.eqb "hour" "day") with false.
    cbv iota. cbn [fst]. lra.
  - repeat split;
      apply stemScore_by_relation;
      first [ assumption | apply getElementFromStem_element; assumption ].
Qed.

Lemma analyzeStemSupport_by_relation_witness :
  exists sy sm sh,
    StemSupport.total_score (analyzeStemSupport "木" chartWaterStems)
    == sy + sm + sh
    /\ stemScored (getElementFromStem "壬") "木" sy
    /\ stemScored (getElementFromStem "壬") "木" sm
    /\ stemScored (getElementFromStem "壬") "木" sh.
Proof.
  apply (analyzeStemSupport_by_relation "木" chartWaterStems);
    vm_compute; tauto.
Defined.

Local Close Scope Q_scope.

(** * Further properties of the analyzer *)

(** ** The ten gods of a Day Master *)

Lemma relation_label_checked :
  forallb (fun a => forallb (relation_label_check a) elements) elements = true.
Proof. vm_compute. reflexivity. Qed.

Lemma getElementRelation_label (a b : string) :
  In a elements -> In b elements ->
  In (getElementRelation a b) relationLabels.
Proof.
  intros Ha Hb. apply includes_In.
  exact (forallb2_In relation_label_check elements elements
           relation_label_checked a b Ha Hb).
Qed.

Lemma tenGod_once_checked : forallb tenGod_once_check stems = true.
Proof. vm_compute. reflexivity. Qed.

Lemma calculateTenGod_label (x y : string) :
  In x stems -> In y stems -> In (calculateTenGod x y) tenGodLabels.
Proof.
  intros Hx Hy.
  pose proof (forallb_In _ _ tenGod_once_checked x Hx) as H.
  unfold tenGod_once_check in H.
  apply andb_true_iff in H. destruct H as [H _].
  apply andb_true_iff in H. destruct H as [H _].
  apply includes_In. exact (forallb_In _ _ H y Hy).
Qed.

(** X3: under every Day Master of the ten stems, the ten stems get the ten
    labels, each of them exactly once: the label of a stem is one of the
    ten, two different stems get different labels, and every label is the
    label of some stem. *)
Theorem calculateTenGod_each_label_once (x : string) :
  In x stems ->
  (forall y, In y stems -> In (calculateTenGod x y) tenGodLabels)
  /\ (forall y y', In y stems -> In y' stems ->
        calculateTenGod x y = calculateTenGod x y' -> y = y')
  /\ (forall label, In label tenGodLabels ->
        exists y, In y stems /\ calculateTenGod x y = label).
Proof.
  intros Hx.
  pose proof (forallb_In _ _ tenGod_once_checked x Hx) as H.
  unfold tenGod_once_check in H.
  apply andb_true_iff in H. destruct H as [H Honto].
  apply andb_true_iff in H. destruct H as [_ Hinj].
  split; [ intros y Hy; now apply calculateTenGod_label | ].
  split.
  - intros y y' Hy Hy' E.
    pose proof (forallb_In _ _ (forallb_In _ _ Hinj y Hy) y' Hy') as Hc.
    cbv beta in Hc. rewrite E, String.eqb_refl in Hc.
    now apply String.eqb_eq in Hc.
  - intros label Hl.
    pose proof (forallb_In _ _ Honto label Hl) as Hc. cbv beta in Hc.
    apply existsb_exists in Hc. destruct Hc as (y & Hy & E).
    exists y. split; [ exact Hy | now apply String.eqb_eq ].
Qed.

Lemma calculateTenGod_each_label_once_witness :
  exists y, In y stems /\ calculateTenGod "甲" y = "七杀".
Proof.
  destruct (calculateTenGod_each_label_once "甲") as (_ & _ & Honto);
    [ vm_compute; tauto | ].
  apply Honto. vm_compute. tauto.
Defined.

(** ** Pattern determination *)

(** X4: for every chart whose Day Master is one of the ten stems and
    whose month pillar has such a stem as first hidden stem, the pattern
    is a regular one: its type is "正格", its name is one of the eight
    ten-god patterns or "建禄格", named after the ten god of the month
    branch's main hidden stem, so that the special patterns "从强格" and
    "从弱格" and the residual "杂气格" are never produced; the grade is then
    read off the month strength alone, "上等" only at 旺 with level 中和 or
    偏旺. *)
Theorem determineAccuratePattern_regular (baziChart : BaziChart)
    (mainStem : string) (rest : list string) :
  In (day_master baziChart) stems ->
  ChartPillar.hidden_stems (month_pillar baziChart) = mainStem :: rest ->
  In mainStem stems ->
  exists r,
    determineAccuratePattern baziChart = Some r
    /\ month_ten_god r = calculateTenGod (day_master baziChart) mainStem
    /\ pattern_type r = "正格"
    /\ In (pattern_name r) regularPatternNames
    /\ (In (month_ten_god r) ["比肩"; "劫财"] -> pattern_name r = "建禄格")
    /\ (~ In (month_ten_god r) ["比肩"; "劫财"] ->
        pattern_name r = month_ten_god r ++ "格")
    /\ In (strength r) patternGrades
    /\ (strength r = "上等" ->
        month_strength (element_strength baziChart) = "旺"
        /\ In (es_strength_level (element_strength baziChart)) ["中和"; "偏旺"]).
Proof.
  intros Hday Hh Hmain.
  unfold determineAccuratePattern. rewrite Hh. cbv zeta.
  pose proof (calculateTenGod_label (day_master baziChart) mainStem Hday Hmain)
    as Hl.
  set (g := calculateTenGod (day_master baziChart) mainStem) in *.
  assert (Hgrade : forall name,
            contains "从" name = false ->
            In (evaluatePatternStrength baziChart name (element_strength baziChart))
               patternGrades
            /\ (evaluatePatternStrength baziChart name (element_strength baziChart)
                = "上等" ->
                month_strength (element_strength baziChart) = "旺"
                /\ In (es_strength_level (element_strength baziChart))
                      ["中和"; "偏旺"])).
  { intros name Hc. unfold evaluatePatternStrength. cbv zeta. rewrite Hc.
    destruct (String.eqb (month_strength (element_strength baziChart)) "旺"
              && (String.eqb (es_strength_level (element_strength baziChart)) "中和"
                  || String.eqb (es_strength_level (element_strength baziChart)) "偏旺"))
      eqn:E.
    - split; [ simpl; tauto | intros _ ].
      apply andb_true_iff in E. destruct E as [Em El].
      apply String.eqb_eq in Em. apply orb_true_iff in El.
      split; [ exact Em | ].
      destruct El as [El | El]; apply String.eqb_eq in El; rewrite El;
        simpl; tauto.
    - destruct (String.eqb (month_strength (element_strength baziChart)) "相"
                || String.eqb (month_strength (element_strength baziChart)) "生");
        [ split; [ simpl; tauto | discriminate ] | ].
      destruct (String.eqb (month_strength (element_strength baziChart)) "休"
                || String.eqb (month_strength (element_strength baziChart)) "余气");
        split; first [ simpl; tauto | discriminate ]. }
  unfold tenGodLabels in Hl.
  in_cases Hl; rewrite <- Hl;
    cbn [includes existsb String.eqb Ascii.eqb Bool.eqb orb andb append];
    eexists; (split; [ reflexivity | ]);
    cbn [month_ten_god pattern_type pattern_name strength];
    (split; [ reflexivity | ]); (split; [ reflexivity | ]);
    (split; [ apply includes_In; vm_compute; reflexivity | ]);
    (split; [ intros Hin;
              first [ reflexivity
                    | exfalso; simpl in Hin; intuition discriminate ] | ]);
    (split; [ intros Hn;
              first [ reflexivity | exfalso; apply Hn; simpl; tauto ] | ]);
    apply Hgrade; reflexivity.
Qed.

Lemma determineAccuratePattern_regular_witness :
  exists chart r,
    exampleChartNoon = Some chart
    /\ determineAccuratePattern chart = Some r
    /\ pattern_type r = "正格"
    /\ In (pattern_name r) regularPatternNames.
Proof.
  destruct exampleChartNoon as [chart | ] eqn:Hc; [ | vm_compute in Hc; discriminate ].
  assert (Hstems : In (day_master chart) stems
                   /\ exists mainStem rest,
                        ChartPillar.hidden_stems (month_pillar chart)
                        = mainStem :: rest
                        /\ In mainStem stems).
  { vm_compute in Hc. injection Hc as <-. split; [ vm_compute; tauto | ].
    eexists. eexists. split; [ reflexivity | vm_compute; tauto ]. }
  destruct Hstems as (Hday & mainStem & rest & Hh & Hmain).
  destruct (determineAccuratePattern_regular chart mainStem rest Hday Hh Hmain)
    as (r & Hr & _ & Ht & Hn & _).
  exists chart, r. repeat split; assumption.
Defined.

(** ** Nayin *)

Lemma nayin_parity_checked :
  forallb (fun i => forallb (nayin_parity_check i) (seq 0 12)) (seq 0 10) = true.
Proof. vm_compute. reflexivity. Qed.

(** X5: among the 120 combinations of a stem (position [i] of the ten) and a
    branch (position [j] of the twelve), [nayinTable] has an entry exactly
    for the sixty whose positions have the same parity; for the others
    [calculateNayin] answers its default "大林木". *)
Theorem calculateNayin_valid_pairs (i j : Z) :
  0 <= i < 10 -> 0 <= j < 12 ->
  (i mod 2 = j mod 2 ->
     js_get nayinTable (at_index stems i ++ at_index branches j)
     = Some (calculateNayin (at_index stems i) (at_index branches j)))
  /\ (i mod 2 <> j mod 2 ->
       js_get nayinTable (at_index stems i ++ at_index branches j) = None
       /\ calculateNayin (at_index stems i) (at_index branches j) = "大林木").
Proof.
  intros Hi Hj.
  assert (Hin : In (Z.to_nat i) (seq 0 10)) by (apply in_seq; lia).
  assert (Hjn : In (Z.to_nat j) (seq 0 12)) by (apply in_seq; lia).
  pose proof (forallb2_In nayin_parity_check _ _ nayin_parity_checked
                _ _ Hin Hjn) as H.
  unfold nayin_parity_check in H. cbv zeta in H.
  rewrite !Z2Nat.id in H by lia.
  apply Bool.eqb_prop in H.
  assert (Hpar : Nat.eqb (Z.to_nat i mod 2) (Z.to_nat j mod 2) = true
                 <-> i mod 2 = j mod 2).
  { rewrite Nat.eqb_eq.
    rewrite <- (Z2Nat.id i) at 2 by lia. rewrite <- (Z2Nat.id j) at 2 by lia.
    change 2 with (Z.of_nat 2). rewrite <- !Nat2Z.inj_mod. lia. }
  unfold calculateNayin. cbv zeta.
  destruct (js_get nayinTable (at_index stems i ++ at_index branches j)) as [v | ].
  - split; [ reflexivity | ].
    intros Hne. exfalso. apply Hne, Hpar. now rewrite <- H.
  - split; [ | intros _; split; reflexivity ].
    intros Heq. apply Hpar in Heq. rewrite Heq in H. discriminate.
Qed.

Lemma calculateNayin_valid_pairs_witness :
  js_get nayinTable (at_index stems 0 ++ at_index branches 0) = Some "海中金"
  /\ calculateNayin (at_index stems 0) (at_index branches 1) = "大林木".
Proof.
  split.
  - apply (proj1 (calculateNayin_valid_pairs 0 0 ltac:(lia) ltac:(lia))).
    reflexivity.
  - apply (proj2 (calculateNayin_valid_pairs 0 1 ltac:(lia) ltac:(lia))).
    vm_compute. discriminate.
Defined.

(** ** The pillars in the sixty-cycle *)

Lemma calculateYearPillar_closed_form (this : BaziAnalyzer)
    (year month day hour minute : Z) :
  stemIndex (calculateYearPillar this year month day hour minute)
  = (solarYear this year month day hour minute - 1984) mod 10
  /\ branchIndex (calculateYearPillar this year month day hour minute)
     = (solarYear this year month day hour minute - 1984) mod 12.
Proof.
  unfold calculateYearPillar, solarYear. cbv zeta. simpl stemIndex. simpl branchIndex.
  rewrite rem_normalised_10, rem_normalised_12.
  destruct (isAfterSpringBeginning _ _); split; reflexivity.
Qed.

(** X6: the year pillar is a position of the sixty-cycle: its stem and branch
    indices have the same parity; an instant whose solar year is one later
    has both indices advanced by one step, in particular an instant after
    Start of Spring against one before it in the same calendar year; and
    two instants get the same indices exactly when their solar years differ
    by a multiple of 60. *)
Theorem calculateYearPillar_sixty_cycle (this : BaziAnalyzer)
    (y1 m1 d1 h1 n1 y2 m2 d2 h2 n2 : Z) :
  let p1 := calculateYearPillar this y1 m1 d1 h1 n1 in
  let p2 := calculateYearPillar this y2 m2 d2 h2 n2 in
  let s1 := solarYear this y1 m1 d1 h1 n1 in
  let s2 := solarYear this y2 m2 d2 h2 n2 in
  stemIndex p1 mod 2 = branchIndex p1 mod 2
  /\ (s2 = s1 + 1 ->
      stemIndex p2 = (stemIndex p1 + 1) mod 10
      /\ branchIndex p2 = (branchIndex p1 + 1) mod 12)
  /\ (y2 = y1 ->
      isAfterSpringBeginning (solarTermsCalculator this)
        (mkJsDate y1 (m1 - 1) d1 h1 n1) = false ->
      isAfterSpringBeginning (solarTermsCalculator this)
        (mkJsDate y2 (m2 - 1) d2 h2 n2) = true ->
      stemIndex p2 = (stemIndex p1 + 1) mod 10
      /\ branchIndex p2 = (branchIndex p1 + 1) mod 12)
  /\ (stemIndex p1 = stemIndex p2 /\ branchIndex p1 = branchIndex p2
      <-> (s2 - s1) mod 60 = 0).
Proof.
  intros p1 p2 s1 s2.
  destruct (calculateYearPillar_closed_form this y1 m1 d1 h1 n1) as [Hs1 Hb1].
  destruct (calculateYearPillar_closed_form this y2 m2 d2 h2 n2) as [Hs2 Hb2].
  fold p1 s1 in Hs1, Hb1. fold p2 s2 in Hs2, Hb2.
  assert (Hstep : s2 = s1 + 1 ->
            stemIndex p2 = (stemIndex p1 + 1) mod 10
            /\ branchIndex p2 = (branchIndex p1 + 1) mod 12).
  { intros ->. rewrite Hs1, Hb1, Hs2, Hb2.
    split; Z.div_mod_to_equations; lia. }
  split; [ rewrite Hs1, Hb1; Z.div_mod_to_equations; lia | ].
  split; [ exact Hstep | ].
  split.
  - intros -> Ha1 Ha2. apply Hstep. subst s1 s2. unfold solarYear.
    rewrite Ha1, Ha2. lia.
  - rewrite Hs1, Hb1, Hs2, Hb2. split.
    + intros [H10 H12]. Z.div_mod_to_equations. lia.
    + intros H60. split; Z.div_mod_to_equations; lia.
Qed.

Lemma calculateYearPillar_sixty_cycle_witness :
  stemIndex (calculateYearPillar exampleAnalyzer 2000 2 5 12 0)
  = (stemIndex (calculateYearPillar exampleAnalyzer 2000 2 3 12 0) + 1) mod 10
  /\ branchIndex (calculateYearPillar exampleAnalyzer 2000 2 5 12 0)
     = (branchIndex (calculateYearPillar exampleAnalyzer 2000 2 3 12 0) + 1) mod 12.
Proof.
  apply (calculateYearPillar_sixty_cycle exampleAnalyzer
           2000 2 3 12 0 2000 2 5 12 0); reflexivity.
Defined.

Lemma index_cases_10 (i : Z) :
  0 <= i < 10 ->
  In i [0; 1; 2; 3; 4; 5; 6; 7; 8; 9].
Proof. intros H. simpl. lia. Qed.

Lemma monthStemBase_closed_form (i : Z) :
  0 <= i < 10 -> js_get_num monthStemBase i = Some ((2 * i + 2) mod 10).
Proof.
  intros H. apply index_cases_10 in H. in_cases H; subst i; reflexivity.
Qed.

Lemma hourStemBase_closed_form (i : Z) :
  0 <= i < 10 -> js_get_num hourStemBase i = Some ((2 * i) mod 10).
Proof.
  intros H. apply index_cases_10 in H. in_cases H; subst i; reflexivity.
Qed.

Lemma indexOf_branchNames (b : string) :
  In b branches ->
  0 <= indexOf branchNames b < 12
  /\ at_index branches (indexOf branchNames b) = b.
Proof.
  intros H. unfold branches, branchNames in H.
  in_cases H; subst b; vm_compute; intuition discriminate.
Qed.

(** X7: the month pillar follows the five-tigers rule: when the boundary
    resolver names one of the twelve branches and the year stem index is
    0..9, the pillar exists, its branch index is the position of that
    branch, and its stem index is the 寅-month stem (2 x year stem + 2)
    advanced by the number of solar months since 寅, modulo 10; stem and
    branch indices have the same parity, and two year stems five apart give
    the same month pillar. *)
Theorem calculateMonthPillar_five_tigers (this : BaziAnalyzer)
    (year month day yearStemIndex hour minute : Z) :
  0 <= yearStemIndex < 10 ->
  In (monthBranch (getSolarTermMonth (solarTermsCalculator this)
                     (mkJsDate year (month - 1) day hour minute))) branches ->
  exists p,
    calculateMonthPillar this year month day yearStemIndex hour minute = Some p
    /\ 0 <= branchIndex p < 12
    /\ at_index branches (branchIndex p)
       = monthBranch (getSolarTermMonth (solarTermsCalculator this)
                        (mkJsDate year (month - 1) day hour minute))
    /\ stemIndex p
       = (2 * yearStemIndex + 2 + (branchIndex p - 2) mod 12) mod 10
    /\ stemIndex p mod 2 = branchIndex p mod 2
    /\ stem p = getStemByIndex (baseData this) (stemIndex p)
    /\ branch p = getBranchByIndex (baseData this) (branchIndex p)
    /\ (forall other, 0 <= other < 10 -> (other - yearStemIndex) mod 5 = 0 ->
          calculateMonthPillar this year month day other hour minute = Some p).
Proof.
  intros Hy Hb.
  destruct (indexOf_branchNames _ Hb) as [Hrange Hat].
  set (b := monthBranch _) in *.
  assert (Hstem : forall i, 0 <= i < 10 ->
            Z.rem ((2 * i + 2) mod 10 + Z.rem (indexOf branchNames b - 2 + 12) 12) 10
            = (2 * i + 2 + (indexOf branchNames b - 2) mod 12) mod 10).
  { intros i Hi. Z.to_euclidean_division_equations. lia. }
  eexists. split.
  { unfold calculateMonthPillar. cbv zeta. fold b.
    rewrite (monthStemBase_closed_form _ Hy). reflexivity. }
  cbn [stemIndex branchIndex stem branch].
  rewrite (Hstem _ Hy).
  repeat apply conj; try reflexivity; try lia.
  - exact Hat.
  - Z.div_mod_to_equations. lia.
  - intros other Ho Hfive.
    unfold calculateMonthPillar. cbv zeta. fold b.
    rewrite (monthStemBase_closed_form _ Ho), (Hstem _ Ho).
    replace ((2 * other + 2 + (indexOf branchNames b - 2) mod 12) mod 10)
      with ((2 * yearStemIndex + 2 + (indexOf branchNames b - 2) mod 12) mod 10)
      by (Z.div_mod_to_equations; lia).
    reflexivity.
Qed.

Lemma calculateMonthPillar_five_tigers_witness :
  exists p,
    calculateMonthPillar exampleAnalyzer 2000 3 10 6 12 0 = Some p
    /\ stemIndex p = 5 /\ branchIndex p = 3.
Proof.
  destruct (calculateMonthPillar_five_tigers exampleAnalyzer 2000 3 10 6 12 0)
    as (p & Hp & _ & _ & Hs & _).
  - lia.
  - vm_compute. tauto.
  - exists p. split; [ exact Hp | ].
    vm_compute in Hp. injection Hp as <-. split; reflexivity.
Defined.

(** X8: the hour pillar follows the rat-start rule on every calendar date
    and for every hour 0..23: with the effective day stem (the one handed
    in, or for hour 23 the one looked up for the calendar day after the
    date) an index 0..9, the pillar exists, its branch index
    is floor((hour + 1) / 2) modulo 12, so that the special case of hours 23
    and 0 agrees with the general formula, and its stem index is twice the
    effective day stem plus the branch index, modulo 10; stem and branch
    indices have the same parity. *)
Theorem calculateHourPillar_rat_start (this : BaziAnalyzer)
    (hour minute dayStemIndex year month day : Z) :
  let effective :=
    if hour =? 23 then
      let '(y', m', d') := nextDay year month day in
      stemIndex (getAccurateDayPillar (wanNianLi this) y' m' d')
    else dayStemIndex in
  validDate year month day ->
  0 <= hour <= 23 ->
  0 <= effective < 10 ->
  exists hp,
    calculateHourPillar this hour minute dayStemIndex year month day = Some hp
    /\ branchIndex (pillar hp) = ((hour + 1) / 2) mod 12
    /\ stemIndex (pillar hp) = (2 * effective + branchIndex (pillar hp)) mod 10
    /\ stemIndex (pillar hp) mod 2 = branchIndex (pillar hp) mod 2
    /\ stem (pillar hp) = getStemByIndex (baseData this) (stemIndex (pillar hp))
    /\ branch (pillar hp)
       = getBranchByIndex (baseData this) (branchIndex (pillar hp))
    /\ (is_late_zishi hp = true <-> hour = 23)
    /\ (is_early_zishi hp = true <-> hour = 0).
Proof.
  intros effective Hdate Hh He.
  assert (Hbranch : (if (hour =? 23) || (hour =? 0) then 0
                     else Z.rem ((hour + 1) / 2) 12)
                    = ((hour + 1) / 2) mod 12).
  { destruct (Z.eqb_spec hour 23) as [-> | H23]; [ reflexivity | ].
    destruct (Z.eqb_spec hour 0) as [-> | H0]; [ reflexivity | ].
    simpl. Z.to_euclidean_division_equations. lia. }
  assert (Hb12 : 0 <= ((hour + 1) / 2) mod 12 < 12)
    by (apply Z.mod_pos_bound; lia).
  assert (Hstem : Z.rem ((2 * effective) mod 10 + ((hour + 1) / 2) mod 12) 10
                  = (2 * effective + ((hour + 1) / 2) mod 12) mod 10).
  { Z.to_euclidean_division_equations. lia. }
  unfold calculateHourPillar.
  destruct (Z.eqb_spec hour 23) as [-> | H23].
  - subst effective. cbv beta iota in *.
    destruct (nextDay year month day) as [[y' m'] d'].
    unfold calculateDayPillar. cbv beta iota zeta.
    rewrite (hourStemBase_closed_form _ He).
    change (true || (23 =? 0)) with true in *. cbv beta iota.
    eexists. split; [ reflexivity | ].
    cbn [pillar stemIndex branchIndex stem branch is_late_zishi is_early_zishi].
    change (((23 + 1) / 2) mod 12) with 0 in *.
    repeat apply conj; try reflexivity; try tauto; try discriminate;
      try (intros; lia);
      Z.to_euclidean_division_equations; lia.
  - subst effective. cbv beta iota in *.
    destruct (Z.eqb_spec hour 0) as [-> | H0].
    + cbv beta iota zeta.
      rewrite (hourStemBase_closed_form _ He).
      change (false || true) with true. cbv beta iota.
      eexists. split; [ reflexivity | ].
      cbn [pillar stemIndex branchIndex stem branch is_late_zishi is_early_zishi].
      change (((0 + 1) / 2) mod 12) with 0 in *.
      repeat apply conj; try reflexivity; try tauto; try discriminate;
        try (intros; lia);
        Z.to_euclidean_division_equations; lia.
    + cbv beta iota zeta.
      rewrite (hourStemBase_closed_form _ He).
      change (false || false) with false in *. cbv beta iota in *.
      rewrite Hbranch, Hstem.
      eexists. split; [ reflexivity | ].
      cbn [pillar stemIndex branchIndex stem branch is_late_zishi is_early_zishi].
      repeat apply conj; try reflexivity; try tauto; try discriminate;
        try (intros; lia).
      Z.div_mod_to_equations. lia.
Qed.

Lemma calculateHourPillar_rat_start_witness :
  exists hp,
    calculateHourPillar exampleAnalyzer 14 30 4 2000 1 1 = Some hp
    /\ branchIndex (pillar hp) = 7 /\ stemIndex (pillar hp) = 5.
Proof.
  destruct (calculateHourPillar_rat_start exampleAnalyzer 14 30 4 2000 1 1)
    as (hp & Hhp & Hb & Hs & _).
  - vm_compute. intuition discriminate.
  - lia.
  - simpl. lia.
  - exists hp. split; [ exact Hhp | ].
    vm_compute in Hhp. injection Hhp as <-. split; reflexivity.
Defined.

(** ** Start of luck *)

Lemma month_cases_12 (m : Z) :
  1 <= m <= 12 -> In m [1; 2; 3; 4; 5; 6; 7; 8; 9; 10; 11; 12].
Proof. intros H. simpl. lia. Qed.

(** Evaluates the table entries and month lengths at a concrete month. *)
Ltac eval_month_tables :=
  repeat match goal with
         | |- context [js_or (js_get_num termDays ?k) 15] =>
             let v := eval vm_compute in (js_or (js_get_num termDays k) 15) in
             change (js_or (js_get_num termDays k) 15) with v
         | |- context [daysInMonth 2024 ?k] =>
             let v := eval vm_compute in (daysInMonth 2024 k) in
             change (daysInMonth 2024 k) with v
         | H : context [daysInMonth 2024 ?k] |- _ =>
             let v := eval vm_compute in (daysInMonth 2024 k) in
             change (daysInMonth 2024 k) with v in H
         end.

Lemma calculateDaysToTerm_range (month day : Z) :
  1 <= month <= 12 -> 1 <= day <= daysInMonth 2024 month ->
  1 <= calculateDaysToNextTerm month day <= 47
  /\ 1 <= calculateDaysToPrevTerm month day <= 46.
Proof.
  intros Hm Hd. apply month_cases_12 in Hm.
  unfold calculateDaysToNextTerm, calculateDaysToPrevTerm.
  in_cases Hm; subst month; cbv zeta; eval_month_tables;
    repeat match goal with
           | |- context [?a <? ?b] => destruct (Z.ltb_spec a b)
           end; lia.
Qed.

Lemma startLuckAge_bounds (index : BaseDataIndex)
    (baziChart : BaziChart) (birthMonth birthDay : Z) (gender : string) :
  1 <= birthMonth <= 12 -> 1 <= birthDay <= daysInMonth 2024 birthMonth ->
  1 <= calculateStartLuckAge index baziChart birthMonth birthDay gender <= 15.
Proof.
  intros Hm Hd.
  destruct (calculateDaysToTerm_range birthMonth birthDay Hm Hd) as [Hn Hp].
  unfold calculateStartLuckAge. cbv zeta.
  destruct (isForwardLuck index baziChart gender);
    Z.div_mod_to_equations; lia.
Qed.

(** X9: for every birth month 1..12 and day of that month, whatever the chart
    and gender: the days counted to the next solar term lie in 1..47 and
    those to the previous one in 1..46, and the age at which luck starts,
    three days to a year and never less than one year, lies between 1 and
    15. *)
Theorem calculateStartLuckAge_range (index : BaseDataIndex)
    (baziChart : BaziChart) (birthMonth birthDay : Z) (gender : string) :
  1 <= birthMonth <= 12 -> 1 <= birthDay <= daysInMonth 2024 birthMonth ->
  1 <= calculateDaysToNextTerm birthMonth birthDay <= 47
  /\ 1 <= calculateDaysToPrevTerm birthMonth birthDay <= 46
  /\ 1 <= calculateStartLuckAge index baziChart birthMonth birthDay gender <= 15.
Proof.
  intros Hm Hd.
  destruct (calculateDaysToTerm_range birthMonth birthDay Hm Hd) as [Hn Hp].
  split; [ exact Hn | split; [ exact Hp | ] ].
  now apply startLuckAge_bounds.
Qed.

Lemma calculateStartLuckAge_range_witness :
  exists chart,
    exampleChartNoon = Some chart
    /\ 1 <= calculateStartLuckAge exampleIndex chart 1 1 "female" <= 15.
Proof.
  destruct exampleChartNoon as [chart | ] eqn:Hc; [ | vm_compute in Hc; discriminate ].
  exists chart. split; [ reflexivity | ].
  apply (calculateStartLuckAge_range exampleIndex chart 1 1 "female");
    [ lia | vm_compute; intuition discriminate ].
Defined.

(** ** Luck periods *)

Lemma calculateDayunSequence_unfold (this : BaziAnalyzer) (index : BaseDataIndex)
    (baziChart : BaziChart) (gender : string) (startAge : Z) :
  let at_step :=
    dayunAt this baziChart (isForwardLuck index baziChart gender)
      (getStemIndex index (ChartPillar.stem (month_pillar baziChart)))
      (getBranchIndex index (ChartPillar.branch (month_pillar baziChart)))
      startAge in
  calculateDayunSequence this index baziChart gender startAge
  = [at_step 0; at_step 1; at_step 2; at_step 3;
     at_step 4; at_step 5; at_step 6; at_step 7].
Proof. reflexivity. Qed.

Lemma dayunAt_ages (this : BaziAnalyzer) (baziChart : BaziChart)
    (isForward : bool) (ms mb startAge i : Z) :
  period (dayunAt this baziChart isForward ms mb startAge i) = i + 1
  /\ start_age (dayunAt this baziChart isForward ms mb startAge i)
     = startAge + i * 10
  /\ end_age (dayunAt this baziChart isForward ms mb startAge i)
     = startAge + i * 10 + 9.
Proof. repeat split. Qed.

Lemma dayun_lookup (this : BaziAnalyzer) (index : BaseDataIndex)
    (baziChart : BaziChart) (gender : string) (startAge currentAge : Z) :
  let dayunSequence :=
    calculateDayunSequence this index baziChart gender startAge in
  List.length dayunSequence = 8%nat
  /\ (forall k d, nth_error dayunSequence k = Some d ->
        period d = Z.of_nat k + 1
        /\ start_age d = startAge + 10 * Z.of_nat k
        /\ end_age d = start_age d + 9)
  /\ (startAge <= currentAge <= startAge + 79 ->
      exists d,
        getCurrentDayun dayunSequence currentAge = Some d
        /\ nth_error dayunSequence (Z.to_nat ((currentAge - startAge) / 10))
           = Some d
        /\ start_age d <= currentAge <= end_age d)
  /\ (currentAge < startAge \/ startAge + 79 < currentAge ->
      getCurrentDayun dayunSequence currentAge = None).
Proof.
  intros dayunSequence. subst dayunSequence.
  rewrite calculateDayunSequence_unfold. cbv zeta.
  set (at_step := dayunAt this baziChart _ _ _ startAge).
  assert (Hages : forall i, period (at_step i) = i + 1
                            /\ start_age (at_step i) = startAge + i * 10
                            /\ end_age (at_step i) = startAge + i * 10 + 9)
    by (intros i; apply dayunAt_ages).
  split; [ reflexivity | ].
  split.
  { intros k d Hk.
    do 8 (destruct k as [ | k];
          [ injection Hk as <-; destruct (Hages (Z.of_nat 0)) as (_ & _ & _);
            repeat split; cbn [Z.of_nat]; try reflexivity;
            first [ apply Hages | rewrite (proj1 (proj2 (Hages _)));
                                   rewrite (proj2 (proj2 (Hages _))); lia
                  | rewrite (proj1 (proj2 (Hages _))); lia ]
          | simpl in Hk ]).
    destruct k; discriminate Hk. }
  unfold getCurrentDayun. cbn [find].
  repeat rewrite (proj1 (proj2 (Hages _))).
  repeat rewrite (proj2 (proj2 (Hages _))).
  split.
  - intros Hrange.
    assert (Hk : In ((currentAge - startAge) / 10) [0; 1; 2; 3; 4; 5; 6; 7])
      by (simpl; Z.div_mod_to_equations; lia).
    in_cases Hk; rewrite <- Hk; cbn [Z.to_nat Pos.to_nat Pos.iter_op Nat.add nth_error];
      repeat match goal with
             | |- context [?a <=? ?b] =>
                 destruct (Z.leb_spec a b);
                 try (exfalso; Z.div_mod_to_equations; lia)
             end;
      cbn [andb];
      eexists; (split; [ reflexivity | ]); (split; [ reflexivity | ]);
      rewrite (proj1 (proj2 (Hages _))), (proj2 (proj2 (Hages _))); lia.
  - intros Hout.
    repeat match goal with
           | |- context [?a <=? ?b] =>
               destruct (Z.leb_spec a b); try (exfalso; lia)
           end;
      reflexivity.
Qed.

(** X10: the luck sequence is eight consecutive decades from the start age:
    period k+1 runs from start age + 10k to nine years later.  Looking an
    age up in it finds the decade that contains the age, for the eighty
    years from the start age on; before the start age, and also after
    start age + 79, no period is found. *)
Theorem getCurrentDayun_decades (this : BaziAnalyzer) (index : BaseDataIndex)
    (baziChart : BaziChart) (gender : string) (startAge currentAge : Z) :
  let dayunSequence :=
    calculateDayunSequence this index baziChart gender startAge in
  List.length dayunSequence = 8%nat
  /\ (forall k d, nth_error dayunSequence k = Some d ->
        period d = Z.of_nat k + 1
        /\ start_age d = startAge + 10 * Z.of_nat k
        /\ end_age d = start_age d + 9)
  /\ (startAge <= currentAge <= startAge + 79 ->
      exists d,
        getCurrentDayun dayunSequence currentAge = Some d
        /\ nth_error dayunSequence (Z.to_nat ((currentAge - startAge) / 10))
           = Some d
        /\ start_age d <= currentAge <= end_age d)
  /\ (currentAge < startAge \/ startAge + 79 < currentAge ->
      getCurrentDayun dayunSequence currentAge = None).
Proof. apply dayun_lookup. Qed.

Lemma getCurrentDayun_decades_witness :
  exists chart d,
    exampleChartNoon = Some chart
    /\ getCurrentDayun
         (calculateDayunSequence exampleAnalyzer exampleIndex chart "male" 3) 26
       = Some d
    /\ period d = 3.
Proof.
  destruct exampleChartNoon as [chart | ] eqn:Hc; [ | vm_compute in Hc; discriminate ].
  destruct (getCurrentDayun_decades exampleAnalyzer exampleIndex chart "male" 3 26)
    as (_ & Hnth & Hin & _).
  destruct Hin as (d & Hd & Hk & _); [ lia | ].
  exists chart, d. split; [ reflexivity | split; [ exact Hd | ] ].
  exact (proj1 (Hnth _ _ Hk)).
Defined.

(** X11: the fortune record composes the two: for a birth month 1..12 and day of
    that month, the start age is 1..15; an age within the eighty years
    from the start age has a current period that contains it, and every
    age from 15 to 80 has one; an age below the start age, and also an
    age above start age + 79, so every age of 95 or more, has none and is
    reported as "未起运". *)
Theorem calculatePreciseFortune_current_period (this : BaziAnalyzer)
    (index : BaseDataIndex) (baziChart : BaziChart)
    (birthYear birthMonth birthDay : Z) (gender : string) (currentYear : Z) :
  1 <= birthMonth <= 12 -> 1 <= birthDay <= daysInMonth 2024 birthMonth ->
  let f := calculatePreciseFortune this index baziChart birthYear birthMonth
             birthDay gender currentYear in
  current_age f = currentYear - birthYear
  /\ 1 <= start_luck_age f <= 15
  /\ List.length (life_periods f) = 8%nat
  /\ (start_luck_age f <= current_age f <= start_luck_age f + 79 ->
      exists d,
        current_dayun f = Some d
        /\ In d (life_periods f)
        /\ start_age d <= current_age f <= end_age d
        /\ current_period f
           = Z_to_string (start_age d) ++ "-" ++ Z_to_string (end_age d)
             ++ "岁 " ++ dayun_stem d ++ dayun_branch d ++ "大运")
  /\ (15 <= current_age f <= 80 -> current_dayun f <> None)
  /\ (current_age f < start_luck_age f \/ start_luck_age f + 79 < current_age f ->
      current_dayun f = None /\ current_period f = "未起运")
  /\ (95 <= current_age f ->
      current_dayun f = None /\ current_period f = "未起运").
Proof.
  intros Hm Hd f.
  pose proof (startLuckAge_bounds index baziChart birthMonth birthDay gender Hm Hd)
    as Hstart.
  set (startAge := calculateStartLuckAge index baziChart birthMonth birthDay gender)
    in *.
  destruct (dayun_lookup this index baziChart gender startAge
              (currentYear - birthYear)) as (Hlen & _ & Hin & Hout).
  cbv zeta in Hlen, Hin, Hout.
  assert (Hnone : currentYear - birthYear < startAge
                  \/ startAge + 79 < currentYear - birthYear ->
                  current_dayun f = None /\ current_period f = "未起运").
  { intros Hx. subst f. unfold calculatePreciseFortune. cbv zeta.
    cbn [current_dayun current_period]. fold startAge.
    rewrite (Hout Hx). split; reflexivity. }
  assert (Hsome : startAge <= currentYear - birthYear <= startAge + 79 ->
            exists d,
              current_dayun f = Some d
              /\ In d (life_periods f)
              /\ start_age d <= currentYear - birthYear <= end_age d
              /\ current_period f
                 = Z_to_string (start_age d) ++ "-" ++ Z_to_string (end_age d)
                   ++ "岁 " ++ dayun_stem d ++ dayun_branch d ++ "大运").
  { intros Hx. destruct (Hin Hx) as (d & Hd1 & Hd2 & Hd3).
    exists d. subst f. unfold calculatePreciseFortune. cbv zeta.
    cbn [current_dayun current_period life_periods]. fold startAge.
    rewrite Hd1. repeat split; try lia.
    eapply nth_error_In; eassumption. }
  assert (Hage : current_age f = currentYear - birthYear) by reflexivity.
  assert (Hsa : start_luck_age f = startAge) by reflexivity.
  assert (Hlp : life_periods f
                = calculateDayunSequence this index baziChart gender startAge)
    by reflexivity.
  rewrite Hage, Hsa, Hlp.
  split; [ reflexivity | ].
  split; [ exact Hstart | ].
  split; [ exact Hlen | ].
  split; [ rewrite <- Hlp; exact Hsome | ].
  split.
  - intros Hx. destruct Hsome as (d & Hd1 & _); [ lia | ].
    rewrite Hd1. discriminate.
  - split; [ exact Hnone | ].
    intros Hx. apply Hnone. lia.
Qed.

Lemma calculatePreciseFortune_current_period_witness :
  exists chart,
    exampleChartNoon = Some chart
    /\ current_period
         (calculatePreciseFortune exampleAnalyzer exampleIndex chart
            1930 1 1 "male" 2026)
       = "未起运".
Proof.
  destruct exampleChartNoon as [chart | ] eqn:Hc; [ | vm_compute in Hc; discriminate ].
  exists chart. split; [ reflexivity | ].
  destruct (calculatePreciseFortune_current_period exampleAnalyzer exampleIndex
              chart 1930 1 1 "male" 2026) as (_ & _ & _ & _ & _ & _ & Hold).
  - lia.
  - vm_compute. intuition discriminate.
  - apply Hold. change (95 <= 2026 - 1930). lia.
Defined.

(** ** The current year *)

Lemma string_append_assoc (a b c : string) : (a ++ b) ++ c = a ++ (b ++ c).
Proof.
  induction a as [ | ch a IH ]; simpl; [ reflexivity | now rewrite IH ].
Qed.

Lemma yearAdvice_defined (label : string) :
  In label tenGodLabels -> exists advice, js_get yearAdvice label = Some advice.
Proof.
  intros H. unfold tenGodLabels in H.
  in_cases H; subst label; eexists; reflexivity.
Qed.

(** X12: the current-year analysis names the same stem and branch as the
    year pillar.  For a Day Master of the ten stems, base data that name
    the year's stem by one of the ten, and a current luck period, if any,
    whose stem is one of the ten: for a year from 4 on and any instant of
    that calendar year after Start of Spring, the text opens with the
    year, the year pillar's stem and branch and the ten god of that stem;
    it ends with the advice of that ten god, never with the fallback
    advice; and between the two stands one of the five sentences on the
    luck period when there is a current period, and nothing when there is
    none. *)
Theorem analyzeCurrentYear_year_pillar (this : BaziAnalyzer)
    (baziChart : BaziChart) (year month day hour minute : Z)
    (currentDayun : option Dayun) :
  4 <= year ->
  isAfterSpringBeginning (solarTermsCalculator this)
    (mkJsDate year (month - 1) day hour minute) = true ->
  In (day_master baziChart) stems ->
  In (stem (calculateYearPillar this year month day hour minute)) stems ->
  (forall dayun, currentDayun = Some dayun -> In (dayun_stem dayun) stems) ->
  let p := calculateYearPillar this year month day hour minute in
  let tenGod := calculateTenGod (day_master baziChart) (stem p) in
  exists sentence advice,
    analyzeCurrentYear this baziChart year currentDayun
    = Z_to_string year ++ "年" ++ stem p ++ branch p ++ "，流年十神为"
      ++ tenGod ++ "。" ++ sentence ++ advice
    /\ js_get yearAdvice tenGod = Some advice
    /\ (currentDayun = None -> sentence = "")
    /\ (currentDayun <> None -> In sentence dayunYearSentences).
Proof.
  intros Hy Hspring Hday Hyear Hdayun p tenGod.
  assert (Hs : Z.rem (year - 4) 10 = stemIndex p).
  { subst p. unfold calculateYearPillar. cbv zeta. simpl stemIndex.
    rewrite Hspring. simpl negb. cbv iota.
    Z.to_euclidean_division_equations. lia. }
  assert (Hb : Z.rem (year - 4) 12 = branchIndex p).
  { subst p. unfold calculateYearPillar. cbv zeta. simpl branchIndex.
    rewrite Hspring. simpl negb. cbv iota.
    Z.to_euclidean_division_equations. lia. }
  assert (Hstem : getStemByIndex (baseData this) (Z.rem (year - 4) 10) = stem p)
    by (rewrite Hs; reflexivity).
  assert (Hbranch : getBranchByIndex (baseData this) (Z.rem (year - 4) 12)
                    = branch p)
    by (rewrite Hb; reflexivity).
  destruct (yearAdvice_defined tenGod (calculateTenGod_label _ _ Hday Hyear))
    as [advice Hadvice].
  unfold analyzeCurrentYear. cbv zeta. rewrite Hstem, Hbranch.
  fold tenGod. rewrite Hadvice. cbn [js_or].
  destruct currentDayun as [dayun | ].
  - exists (dayunYearSentence
              (getElementRelation (getElementFromStem (stem p))
                 (getElementFromStem (dayun_stem dayun)))), advice.
    split; [ rewrite !string_append_assoc; reflexivity | ].
    split; [ reflexivity | ].
    split; [ discriminate | intros _ ].
    apply in_map.
    apply getElementRelation_label; apply getElementFromStem_element;
      [ exact Hyear | exact (Hdayun dayun eq_refl) ].
  - exists "", advice.
    split; [ rewrite !string_append_assoc; reflexivity | ].
    split; [ reflexivity | ].
    split; [ reflexivity | intros H; contradiction ].
Qed.

Lemma analyzeCurrentYear_year_pillar_witness :
  exists chart,
    exampleChartNoon = Some chart
    /\ String.prefix "2024年甲辰，流年十神为七杀。"
         (analyzeCurrentYear exampleAnalyzer chart 2024 None) = true.
Proof.
  destruct exampleChartNoon as [chart | ] eqn:Hc; [ | vm_compute in Hc; discriminate ].
  exists chart. split; [ reflexivity | ].
  assert (Hday : In (day_master chart) stems)
    by (vm_compute in Hc; injection Hc as <-; vm_compute; tauto).
  destruct (analyzeCurrentYear_year_pillar exampleAnalyzer chart 2024 6 1 12 0 None)
    as (sentence & advice & Htext & _).
  - lia.
  - reflexivity.
  - exact Hday.
  - vm_compute. tauto.
  - intros dayun H. discriminate H.
  - vm_compute in Hc. injection Hc as <-. vm_compute. reflexivity.
Defined.

(** ** Solar terms by calendar day *)

Ltac eval_solar_tables :=
  repeat match goal with
         | |- context [js_get_num solarTermsByDay ?k] =>
             let v := eval vm_compute in (js_get_num solarTermsByDay k) in
             change (js_get_num solarTermsByDay k) with v
         | |- context [js_get_num solarTermsDetailed ?k] =>
             let v := eval vm_compute in (js_get_num solarTermsDetailed k) in
             change (js_get_num solarTermsDetailed k) with v
         end.

Ltac split_comparisons :=
  repeat match goal with
         | |- context [?a <=? ?b] =>
             destruct (Z.leb_spec a b); try (exfalso; lia)
         | |- context [?a <? ?b] =>
             destruct (Z.ltb_spec a b); try (exfalso; lia)
         end.

(** X13: the two solar-term functions agree, for every month 1..12 and every
    day: both tables give the month the same two term days; within two
    days of a term day [calculateSolarTerm] names that term and the
    detailed text is the name followed by "期间"; on every other day
    [calculateSolarTerm] answers "节气间" and the detailed text is an
    interval "...后至...前". *)
Theorem calculateSolarTerm_agrees_with_detailed (month day : Z) :
  1 <= month <= 12 ->
  exists d1 n1 d2 n2,
    js_get_num solarTermsByDay month = Some [(d1, n1); (d2, n2)]
    /\ js_get_num solarTermsDetailed month = Some [(d1, n1); (d2, n2)]
    /\ d1 + 2 < d2 - 2
    /\ (d1 - 2 <= day <= d1 + 2 ->
        calculateSolarTerm month day = n1
        /\ calculateDetailedSolarTerm month day = n1 ++ "期间")
    /\ (d2 - 2 <= day <= d2 + 2 ->
        calculateSolarTerm month day = n2
        /\ calculateDetailedSolarTerm month day = n2 ++ "期间")
    /\ (~ (d1 - 2 <= day <= d1 + 2) -> ~ (d2 - 2 <= day <= d2 + 2) ->
        calculateSolarTerm month day = "节气间"
        /\ contains "后至" (calculateDetailedSolarTerm month day) = true
        /\ contains "期间" (calculateDetailedSolarTerm month day) = false).
Proof.
  intros Hm. apply month_cases_12 in Hm.
  in_cases Hm; subst month;
    do 4 eexists;
    (split; [ reflexivity | ]); (split; [ reflexivity | ]);
    (split; [ lia | ]);
    unfold calculateSolarTerm, calculateDetailedSolarTerm;
    eval_solar_tables; cbn [twoTerms find fst snd];
    (split; [ | split ]); intros;
    split_comparisons; cbn [andb find fst snd]; split_comparisons;
    repeat split; try reflexivity; try lia.
Qed.

Lemma calculateSolarTerm_agrees_with_detailed_witness :
  calculateSolarTerm 2 4 = "立春"
  /\ calculateDetailedSolarTerm 2 4 = "立春期间".
Proof.
  destruct (calculateSolarTerm_agrees_with_detailed 2 4 ltac:(lia))
    as (d1 & n1 & d2 & n2 & H1 & _ & _ & Hfirst & _).
  injection H1 as <- <- <- <-.
  apply Hfirst. lia.
Defined.

(** * Hexagrams *)

Lemma In_Zrange (lo n : nat) (x : Z) :
  Z.of_nat lo <= x < Z.of_nat lo + Z.of_nat n -> In x (Zrange lo n).
Proof.
  intros H. unfold Zrange. apply in_map_iff.
  exists (Z.to_nat x). split; [ lia | apply in_seq; lia ].
Qed.

Lemma Zrange_In (lo n : nat) (x : Z) :
  In x (Zrange lo n) -> Z.of_nat lo <= x < Z.of_nat lo + Z.of_nat n.
Proof.
  unfold Zrange. intros H. apply in_map_iff in H.
  destruct H as (k & <- & Hk). apply in_seq in Hk. lia.
Qed.

Lemma hexagramNumber_checked :
  forallb (fun u => forallb (hexagramNumber_check u) (Zrange 1 8)) (Zrange 1 8)
  = true.
Proof. vm_compute. reflexivity. Qed.

Lemma hexagramKey_checked : forallb hexagramKey_check (Zrange 1 64) = true.
Proof. vm_compute. reflexivity. Qed.

Lemma is_trigram_true (trigram : string) (name : option string) :
  is_trigram trigram name = true <-> name = Some trigram.
Proof.
  destruct name as [n | ]; simpl.
  - rewrite String.eqb_eq. split; [ now intros -> | now intros [= ->] ].
  - split; discriminate.
Qed.

Lemma js_get_num_In {A : Type} (tbl : list (Z * A)) (k : Z) (v : A) :
  js_get_num tbl k = Some v -> In (k, v) tbl.
Proof.
  induction tbl as [ | [k' v'] rest IH ]; simpl; [ discriminate | ].
  destruct (Z.eqb_spec k' k) as [-> | Hne].
  - intros [= ->]. now left.
  - intros H. right. now apply IH.
Qed.

Lemma trigramMap_injective (u u' : Z) (name : string) :
  js_get_num trigramMap u = Some name ->
  js_get_num trigramMap u' = Some name -> u = u'.
Proof.
  intros H H'. apply js_get_num_In in H. apply js_get_num_In in H'.
  unfold trigramMap in H, H'.
  in_cases H; injection H as <- <-; in_cases H'; congruence.
Qed.

Lemma trigramMap_domain (u : Z) :
  ~ (1 <= u <= 8) -> js_get_num trigramMap u = None.
Proof.
  intros H. unfold trigramMap. cbn [js_get_num].
  repeat match goal with
         | |- context [?a =? u] =>
             destruct (Z.eqb_spec a u); [ exfalso; lia | ]
         end.
  reflexivity.
Qed.

(** Turns the boolean comparisons among the hypotheses into arithmetic. *)
Ltac reflect_comparisons :=
  repeat match goal with
         | H : _ && _ = true |- _ =>
             apply andb_true_iff in H; destruct H
         | H : (_ <=? _) = true |- _ => apply Z.leb_le in H
         | H : (_ <? _) = true |- _ => apply Z.ltb_lt in H
         | H : (_ =? _) = true |- _ => apply Z.eqb_eq in H
         | H : negb (_ =? _) = true |- _ =>
             apply negb_true_iff, Z.eqb_neq in H
         end.

Lemma getHexagramNumber_found (u l : Z) :
  1 <= u <= 8 -> 1 <= l <= 8 ->
  exists h,
    1 <= getHexagramNumber u l <= 64
    /\ getHexagramInfo (getHexagramNumber u l) = Some h
    /\ Hexagram.number h = getHexagramNumber u l
    /\ js_get_num trigramMap u = Some (Hexagram.upperTrigram h)
    /\ js_get_num trigramMap l = Some (Hexagram.lowerTrigram h).
Proof.
  intros Hu Hl.
  pose proof (forallb2_In hexagramNumber_check _ _ hexagramNumber_checked u l
                (In_Zrange 1 8 u ltac:(lia)) (In_Zrange 1 8 l ltac:(lia))) as H.
  unfold hexagramNumber_check in H. cbv zeta in H.
  destruct (getHexagramInfo (getHexagramNumber u l)) as [h | ];
    [ | rewrite andb_false_r in H; discriminate ].
  repeat (apply andb_true_iff in H; destruct H as [H ?]).
  reflect_comparisons.
  exists h. repeat split; try lia; try reflexivity;
    now apply is_trigram_true.
Qed.

(** X14: [getHexagramNumber] is a one-to-one correspondence between the pairs
    of trigram numbers 1..8 and the hexagram numbers 1..64: the hexagram it
    names is in the table under that number and carries the two trigrams;
    different pairs name different hexagrams; every number 1..64 is named
    by a pair; and a number outside 1..8 on either side falls back to
    hexagram 1. *)
Theorem getHexagramNumber_bijection :
  (forall u l, 1 <= u <= 8 -> 1 <= l <= 8 ->
     exists h,
       1 <= getHexagramNumber u l <= 64
       /\ getHexagramInfo (getHexagramNumber u l) = Some h
       /\ Hexagram.number h = getHexagramNumber u l
       /\ js_get_num trigramMap u = Some (Hexagram.upperTrigram h)
       /\ js_get_num trigramMap l = Some (Hexagram.lowerTrigram h))
  /\ (forall u l u' l',
        1 <= u <= 8 -> 1 <= l <= 8 -> 1 <= u' <= 8 -> 1 <= l' <= 8 ->
        getHexagramNumber u l = getHexagramNumber u' l' -> u = u' /\ l = l')
  /\ (forall n, 1 <= n <= 64 ->
        exists u l, 1 <= u <= 8 /\ 1 <= l <= 8 /\ getHexagramNumber u l = n)
  /\ (forall u l, ~ (1 <= u <= 8) \/ ~ (1 <= l <= 8) ->
        getHexagramNumber u l = 1).
Proof.
  split; [ exact getHexagramNumber_found | ].
  split; [ | split ].
  - intros u l u' l' Hu Hl Hu' Hl' Heq.
    destruct (getHexagramNumber_found u l Hu Hl) as (h & _ & Hh & _ & Hup & Hlo).
    destruct (getHexagramNumber_found u' l' Hu' Hl')
      as (h' & _ & Hh' & _ & Hup' & Hlo').
    rewrite Heq in Hh. rewrite Hh in Hh'. injection Hh' as <-.
    split; eapply trigramMap_injective; eassumption.
  - intros n Hn.
    pose proof (forallb_In hexagramKey_check _ hexagramKey_checked n
                  (In_Zrange 1 64 n ltac:(lia))) as H.
    unfold hexagramKey_check in H.
    destruct (js_get_num ALL_HEXAGRAMS n) as [h | ]; [ | discriminate ].
    cbv zeta in H.
    repeat (apply andb_true_iff in H; destruct H as [H ?]).
    reflect_comparisons.
    exists (trigramIndex (Hexagram.upperTrigram h)),
           (trigramIndex (Hexagram.lowerTrigram h)).
    repeat split; lia.
  - intros u l Hout. unfold getHexagramNumber. cbv zeta.
    assert (Hnone : forall entry : Z * Hexagram.t,
              is_trigram (Hexagram.upperTrigram (snd entry)) (js_get_num trigramMap u)
              && is_trigram (Hexagram.lowerTrigram (snd entry))
                   (js_get_num trigramMap l) = false).
    { intros entry. destruct Hout as [Hu | Hl].
      - rewrite (trigramMap_domain u Hu). reflexivity.
      - rewrite (trigramMap_domain l Hl). simpl. apply andb_false_r. }
    destruct (find _ ALL_HEXAGRAMS) as [[k h] | ] eqn:Hf; [ | reflexivity ].
    apply find_some in Hf. destruct Hf as [_ Hf].
    rewrite Hnone in Hf. discriminate.
Qed.

Lemma getHexagramNumber_bijection_witness :
  exists h,
    getHexagramInfo (getHexagramNumber 6 4) = Some h
    /\ Hexagram.name h = "屯".
Proof.
  destruct (proj1 getHexagramNumber_bijection 6 4 ltac:(lia) ltac:(lia))
    as (h & _ & Hh & _).
  exists h. split; [ exact Hh | ].
  vm_compute in Hh. injection Hh as <-. reflexivity.
Defined.

(** ** Casting from the time *)

Lemma digits_only_digits (s : string) :
  Forall (fun c => is_digit c = true) (list_ascii_of_string (digits_only s)).
Proof.
  induction s as [ | c s IH ]; simpl; [ constructor | ].
  destruct (is_digit c) eqn:E; [ simpl; constructor; assumption | exact IH ].
Qed.

Lemma digits_only_length (s : string) :
  (String.length (digits_only s) <= String.length s)%nat.
Proof.
  induction s as [ | c s IH ]; simpl; [ lia | ].
  destruct (is_digit c); simpl; lia.
Qed.

Lemma substring_length_le (n m : nat) (s : string) :
  (String.length (substring n m s) <= m)%nat.
Proof.
  revert n m. induction s as [ | c s IH ]; intros n m.
  - destruct n, m; simpl; lia.
  - destruct n as [ | n ]; destruct m as [ | m ]; simpl; try lia.
    + specialize (IH 0%nat m). lia.
    + apply IH.
    + apply IH.
Qed.

Lemma parse_fold_bounds (cs : list ascii) (acc : Z) :
  Forall (fun c => is_digit c = true) cs ->
  acc * 10 ^ Z.of_nat (List.length cs)
  <= fold_left (fun acc c => 10 * acc + (Z.of_nat (nat_of_ascii c) - 48)) cs acc
  < (acc + 1) * 10 ^ Z.of_nat (List.length cs).
Proof.
  intros H. revert acc.
  induction H as [ | c cs Hc _ IH ]; intros acc.
  - simpl. lia.
  - cbn [fold_left List.length].
    specialize (IH (10 * acc + (Z.of_nat (nat_of_ascii c) - 48))).
    unfold is_digit in Hc. apply andb_true_iff in Hc.
    destruct Hc as [Hlo Hhi]. apply Z.leb_le in Hlo. apply Z.leb_le in Hhi.
    rewrite Nat2Z.inj_succ, Z.pow_succ_r by lia.
    assert (Hp : 0 < 10 ^ Z.of_nat (List.length cs))
      by (apply Z.pow_pos_nonneg; lia).
    nia.
Qed.

Lemma list_ascii_length (s : string) :
  List.length (list_ascii_of_string s) = String.length s.
Proof. induction s as [ | c s IH ]; simpl; [ reflexivity | now rewrite IH ]. Qed.

Lemma userFactorOf_range (userId : option string) :
  0 <= userFactorOf userId <= 99999.
Proof.
  destruct userId as [text | ]; [ | simpl; lia ].
  unfold userFactorOf. cbv zeta.
  destruct (String.eqb (digits_only (slice_last5 text)) ""); [ vm_compute; split; discriminate | ].
  unfold parse_digits.
  pose proof (parse_fold_bounds _ 0 (digits_only_digits (slice_last5 text))) as H.
  rewrite list_ascii_length in H.
  pose proof (digits_only_length (slice_last5 text)) as Hlen.
  pose proof (substring_length_le (String.length text - 5) 5 text) as Hsub.
  fold (slice_last5 text) in Hsub.
  assert (Hpow : 10 ^ Z.of_nat (String.length (digits_only (slice_last5 text)))
                 <= 10 ^ 5)
    by (apply Z.pow_le_mono_r; lia).
  change (10 ^ 5) with 100000 in Hpow. lia.
Qed.

Lemma trigramNumber_range (n : Z) : 0 <= n -> 1 <= trigramNumber n <= 8.
Proof.
  intros Hn. unfold trigramNumber.
  destruct (Z.eqb_spec (Z.rem n 8) 0) as [E | E]; [ lia | ].
  Z.to_euclidean_division_equations. lia.
Qed.

Lemma getHexagramInfo_In (n : Z) (h : Hexagram.t) :
  getHexagramInfo n = Some h -> In h hexagrams.
Proof.
  unfold getHexagramInfo, hexagrams. intros H.
  destruct (js_get_num ALL_HEXAGRAMS n) as [h0 | ] eqn:E.
  - injection H as <-. apply js_get_num_In in E.
    apply in_map_iff. now exists (n, h0).
  - apply js_get_num_In in H. apply in_map_iff. now exists (1, h).
Qed.

Lemma substring_list (n m : nat) (s : string) :
  list_ascii_of_string (substring n m s)
  = firstn m (skipn n (list_ascii_of_string s)).
Proof.
  revert n m. induction s as [ | c s IH ]; intros n m.
  - destruct n, m; reflexivity.
  - destruct n as [ | n ].
    + destruct m as [ | m ]; [ reflexivity | ].
      cbn [substring list_ascii_of_string skipn firstn].
      f_equal. exact (IH 0%nat m).
    + cbn [substring list_ascii_of_string skipn]. apply IH.
Qed.

Lemma slice_last5_list (text : string) :
  list_ascii_of_string (slice_last5 text) = lastFive text.
Proof.
  unfold slice_last5, lastFive. rewrite substring_list.
  apply firstn_all2. rewrite length_skipn, list_ascii_length. lia.
Qed.

Lemma digits_only_list (s : string) :
  list_ascii_of_string (digits_only s)
  = filter is_digit (list_ascii_of_string s).
Proof.
  induction s as [ | c s IH ]; [ reflexivity | ].
  cbn [digits_only list_ascii_of_string filter].
  destruct (is_digit c); cbn [list_ascii_of_string]; now rewrite IH.
Qed.

Lemma parse_fold_decimal (cs : list ascii) (acc : Z) :
  fold_left (fun acc c => 10 * acc + (Z.of_nat (nat_of_ascii c) - 48)) cs acc
  = acc * 10 ^ Z.of_nat (List.length cs) + decimalValue cs.
Proof.
  revert acc. induction cs as [ | c cs IH ]; intros acc.
  - cbn [fold_left List.length decimalValue]. change (10 ^ Z.of_nat 0) with 1. lia.
  - cbn [fold_left List.length decimalValue]. rewrite IH.
    rewrite Nat2Z.inj_succ, Z.pow_succ_r by lia.
    unfold digitValue. ring.
Qed.

Lemma userFactorOf_digits (userId : option string) :
  userFactorOf userId
  = match idDigits userId with
    | [] => 12
    | _ :: _ => decimalValue (idDigits userId)
    end.
Proof.
  destruct userId as [text | ]; [ | reflexivity ].
  unfold userFactorOf, idDigits. cbv zeta.
  rewrite <- slice_last5_list, <- digits_only_list.
  destruct (digits_only (slice_last5 text)) as [ | c rest ] eqn:E.
  - reflexivity.
  - cbn [String.eqb list_ascii_of_string]. unfold parse_digits.
    rewrite parse_fold_decimal. cbn [list_ascii_of_string]. lia.
Qed.

(** X15: for a user id of ASCII characters, or none, the factor of the
    cast is 12 when the id is absent or has no digit among its last five
    characters, and otherwise the number that the digits among those
    characters write in decimal; there are at most five such digits, and
    the factor lies in 0..99999.  For a time whose parts add up to no
    negative number, the cast names a hexagram of the table, 1..64, that
    carries the trigrams of the two trigram numbers, and exactly one
    changing line, 1..6, the sum of all parts and the factor modulo 6 plus
    one. *)
Theorem generateHexagram_ranges (year month day hour minute : Z)
    (userId : option string) :
  0 <= year + month + day -> 0 <= hour + minute ->
  (forall text, userId = Some text -> asciiText text = true) ->
  let digits := idDigits userId in
  let factor :=
    match digits with
    | [] => 12
    | _ :: _ => decimalValue digits
    end in
  let total := year + month + day + hour + minute + factor in
  let cast := generateHexagram year month day hour minute userId in
  userFactorOf userId = factor
  /\ (userId = None -> userFactorOf userId = 12)
  /\ (digits = [] -> userFactorOf userId = 12)
  /\ (digits <> [] -> userFactorOf userId = decimalValue digits)
  /\ (List.length digits <= 5)%nat
  /\ 0 <= factor <= 99999
  /\ 1 <= mainHex cast <= 64
  /\ (exists h,
        getHexagramInfo (mainHex cast) = Some h
        /\ In h hexagrams
        /\ Hexagram.number h = mainHex cast
        /\ js_get_num trigramMap (trigramNumber (year + month + day + factor))
           = Some (Hexagram.upperTrigram h)
        /\ js_get_num trigramMap (trigramNumber total)
           = Some (Hexagram.lowerTrigram h))
  /\ changingLines cast = [total mod 6 + 1]
  /\ 1 <= total mod 6 + 1 <= 6.
Proof.
  intros Hdate Htime Hascii digits factor total cast.
  pose proof (userFactorOf_range userId) as Hf.
  assert (Hfactor : userFactorOf userId = factor)
    by (subst factor digits; apply userFactorOf_digits).
  assert (Hlen : (List.length digits <= 5)%nat).
  { subst digits. unfold idDigits.
    destruct userId as [text | ]; [ | simpl; lia ].
    pose proof (filter_length_le is_digit (lastFive text)) as Hle.
    unfold lastFive in Hle |- *.
    rewrite length_skipn, list_ascii_length in Hle. lia. }
  assert (Hu : 1 <= trigramNumber (year + month + day + userFactorOf userId) <= 8)
    by (apply trigramNumber_range; lia).
  assert (Hl : 1 <= trigramNumber
                      (year + month + day + hour + minute + userFactorOf userId)
               <= 8)
    by (apply trigramNumber_range; lia).
  destruct (getHexagramNumber_found _ _ Hu Hl) as (h & Hn & Hh & Hnum & Hup & Hlo).
  split; [ exact Hfactor | ].
  split; [ intros ->; reflexivity | ].
  split; [ intros Hnone; rewrite Hfactor; subst factor; now rewrite Hnone | ].
  split.
  { intros Hsome. rewrite Hfactor. subst factor.
    destruct digits; [ now elim Hsome | reflexivity ]. }
  split; [ exact Hlen | ].
  rewrite <- Hfactor. subst total. rewrite <- Hfactor.
  split; [ exact Hf | ].
  split; [ exact Hn | ].
  split.
  { exists h. split; [ exact Hh | ].
    split; [ exact (getHexagramInfo_In _ _ Hh) | ].
    repeat split; assumption. }
  split.
  - subst cast. unfold generateHexagram. cbv zeta. cbn [changingLines].
    rewrite Z.rem_mod_nonneg by lia. reflexivity.
  - pose proof (Z.mod_pos_bound
                  (year + month + day + hour + minute + userFactorOf userId) 6
                  ltac:(lia)). lia.
Qed.

Lemma generateHexagram_ranges_witness :
  userFactorOf (Some "user-00042") = 42
  /\ 1 <= mainHex (generateHexagram 2024 5 17 9 30 (Some "user-00042")) <= 64
  /\ changingLines (generateHexagram 2024 5 17 9 30 (Some "user-00042")) = [4].
Proof.
  destruct (generateHexagram_ranges 2024 5 17 9 30 (Some "user-00042"))
    as (Hfactor & _ & _ & _ & _ & _ & Hmain & _ & Hline & _).
  - lia.
  - lia.
  - intros text Htext. injection Htext as <-. reflexivity.
  - split; [ exact Hfactor | ]. split; [ exact Hmain | exact Hline ].
Defined.

(** ** The changing hexagram *)

Lemma changingHexagram_checked :
  forallb (fun h => forallb (changingHexagram_check h) (Zrange 1 6)) hexagrams
  = true.
Proof. vm_compute. reflexivity. Qed.

Lemma getChangingHexagram_Some (h h' : Hexagram.t) (changing : list Z) :
  getChangingHexagram h changing = Some h' ->
  changing <> []
  /\ In h' hexagrams
  /\ Hexagram.binary h' = fold_left flipLine changing (Hexagram.binary h).
Proof.
  unfold getChangingHexagram. intros H.
  destruct changing as [ | pos rest ]; [ discriminate | ].
  split; [ discriminate | ].
  destruct (find _ ALL_HEXAGRAMS) as [[n h0] | ] eqn:E; [ | discriminate ].
  simpl in H. injection H as <-.
  apply find_some in E. destruct E as [Hin Hbin].
  split.
  - unfold hexagrams. apply in_map_iff. now exists (n, h0).
  - apply String.eqb_eq in Hbin. exact Hbin.
Qed.

(** X16: with one changing line 1..6, the changing hexagram of a hexagram of
    the table is a hexagram of the table whose [binary] is that of the
    original with the character at index 6 - line flipped; it is another
    hexagram than the original, and the lowest-numbered one with that
    [binary].  Nothing is returned exactly when no hexagram of the table
    has the flipped [binary]. *)
Theorem getChangingHexagram_single_line (h : Hexagram.t) (pos : Z) :
  In h hexagrams -> 1 <= pos <= 6 ->
  let flipped := flipAt (Z.to_nat (6 - pos)) (Hexagram.binary h) in
  match getChangingHexagram h [pos] with
  | Some h' =>
      In h' hexagrams
      /\ Hexagram.binary h' = flipped
      /\ Hexagram.number h' <> Hexagram.number h
      /\ forall other, In other hexagrams ->
                       Hexagram.binary other = flipped ->
                       Hexagram.number h' <= Hexagram.number other
  | None =>
      forall other, In other hexagrams -> Hexagram.binary other <> flipped
  end.
Proof.
  intros Hh Hpos flipped.
  pose proof (forallb_In _ _ changingHexagram_checked h Hh) as Hc.
  assert (Hrange : In pos (Zrange 1 6)) by (apply In_Zrange; lia).
  pose proof (forallb_In _ _ Hc pos Hrange) as Hcheck.
  clear Hc. unfold changingHexagram_check in Hcheck. cbv zeta in Hcheck.
  fold flipped in Hcheck.
  destruct (getChangingHexagram h [pos]) as [h' | ] eqn:E.
  - apply andb_true_iff in Hcheck. destruct Hcheck as [Hcheck Hmin].
    apply andb_true_iff in Hcheck. destruct Hcheck as [Hbin Hne].
    apply String.eqb_eq in Hbin.
    apply negb_true_iff, Z.eqb_neq in Hne.
    destruct (getChangingHexagram_Some _ _ _ E) as (_ & Hin & _).
    repeat split; try assumption.
    intros other Hother Hsame.
    pose proof (forallb_In _ _ Hmin other Hother) as Ho. cbv beta in Ho.
    apply orb_true_iff in Ho. destruct Ho as [Ho | Ho].
    + apply negb_true_iff in Ho. apply String.eqb_neq in Ho. contradiction.
    + apply Z.leb_le in Ho. exact Ho.
  - intros other Hother Hsame.
    pose proof (forallb_In _ _ Hcheck other Hother) as Ho. cbv beta in Ho.
    apply negb_true_iff in Ho. apply String.eqb_neq in Ho. contradiction.
Qed.

Lemma getChangingHexagram_single_line_witness :
  match getChangingHexagram hexagram_1 [1] with
  | Some h' => Hexagram.binary h' = "111110"
  | None => False
  end.
Proof.
  pose proof (getChangingHexagram_single_line hexagram_1 1) as H.
  cbv zeta in H.
  assert (Hin : In hexagram_1 hexagrams) by (vm_compute; left; reflexivity).
  specialize (H Hin ltac:(lia)).
  destruct (getChangingHexagram hexagram_1 [1]) as [h' | ] eqn:E.
  - destruct H as (_ & Hbin & _). exact Hbin.
  - vm_compute in E. discriminate E.
Defined.

Lemma sixLines_checked : forallb sixLines_check hexagrams = true.
Proof. vm_compute. reflexivity. Qed.

Lemma castsWithoutChange_count :
  List.length hexagrams = 64%nat
  /\ List.length distinctBinaries = 56%nat
  /\ List.length castsWithoutChange = 46%nat.
Proof. vm_compute. repeat split. Qed.

(** X17: the table holds 64 hexagrams but only 56 different [binary] strings,
    so the search by [binary] cannot reach every hexagram: of the 384
    casts of a table hexagram with one changing line 1..6, exactly the 46
    of [castsWithoutChange] get no changing hexagram, and a hexagram that
    shares its [binary] with a lower-numbered one is never returned. *)
Theorem getChangingHexagram_unreachable :
  List.length hexagrams = 64%nat
  /\ List.length distinctBinaries = 56%nat
  /\ List.length castsWithoutChange = 46%nat
  /\ (forall h pos,
        In (h, pos) castsWithoutChange <->
        In h hexagrams /\ 1 <= pos <= 6 /\ getChangingHexagram h [pos] = None)
  /\ (forall h changing h' lower,
        getChangingHexagram h changing = Some h' ->
        In lower hexagrams ->
        Hexagram.binary lower = Hexagram.binary h' ->
        Hexagram.number lower < Hexagram.number h' -> False).
Proof.
  destruct castsWithoutChange_count as (H64 & H56 & H46).
  split; [ exact H64 | ]. split; [ exact H56 | ]. split; [ exact H46 | ].
  split.
  - intros h pos. unfold castsWithoutChange. rewrite filter_In, in_prod_iff.
    cbn [fst snd]. split.
    + intros [[Hh Hpos] Hnone]. apply Zrange_In in Hpos.
      split; [ exact Hh | ]. split; [ lia | ].
      destruct (getChangingHexagram h [pos]); [ discriminate | reflexivity ].
    + intros (Hh & Hpos & Hnone). split.
      * split; [ exact Hh | apply In_Zrange; lia ].
      * rewrite Hnone. reflexivity.
  - intros h changing h' lower Hsome Hlower Hbin Hlt.
    unfold getChangingHexagram in Hsome.
    destruct changing as [ | p rest ]; [ discriminate | ].
    set (target := fold_left flipLine (p :: rest) (Hexagram.binary h)) in Hsome.
    destruct (find _ ALL_HEXAGRAMS) as [[n h0] | ] eqn:E; [ | discriminate ].
    simpl in Hsome. injection Hsome as <-.
    pose proof (find_some _ _ E) as [_ Hb]. cbn [snd] in Hb.
    apply String.eqb_eq in Hb.
    revert E Hlower Hbin Hlt. rewrite <- Hb. clear.
    intros E Hlower Hbin Hlt.
    assert (Hfirst :
      forallb (fun a =>
        forallb (fun b =>
          negb (String.eqb (Hexagram.binary b) (Hexagram.binary a))
          || negb (Hexagram.number b <? Hexagram.number a)
          || match find (fun entry : Z * Hexagram.t =>
                           String.eqb (Hexagram.binary (snd entry))
                                      (Hexagram.binary a)) ALL_HEXAGRAMS with
             | Some (_, f) => negb (Hexagram.number f =? Hexagram.number a)
             | None => true
             end) hexagrams) hexagrams = true)
      by (vm_compute; reflexivity).
    assert (Hh0 : In h0 hexagrams).
    { apply find_some in E. destruct E as [Hin _].
      unfold hexagrams. apply in_map_iff. now exists (n, h0). }
    pose proof (forallb_In _ _ Hfirst h0 Hh0) as H1. cbv beta in H1.
    pose proof (forallb_In _ _ H1 lower Hlower) as H2. cbv beta in H2.
    rewrite E in H2.
    apply orb_true_iff in H2. destruct H2 as [H2 | H2].
    + apply orb_true_iff in H2. destruct H2 as [H2 | H2].
      * apply negb_true_iff, String.eqb_neq in H2. contradiction.
      * apply negb_true_iff, Z.ltb_ge in H2. lia.
    + apply negb_true_iff, Z.eqb_neq in H2. congruence.
Qed.

(** ** Reading the changing line *)

Lemma changingLine_checked :
  forallb (fun h => forallb (changingLine_check h) (Zrange 1 6)) hexagrams
  = true.
Proof. vm_compute. reflexivity. Qed.

Lemma analyzeChangingLines_in_table (h : Hexagram.t) (pos : Z) :
  In h hexagrams -> 1 <= pos <= 6 ->
  exists lineData lineName,
    js_index (Hexagram.lines h) (pos - 1) = Some lineData
    /\ js_index lineNames (pos - 1) = Some lineName
    /\ (Line.type lineData = "yang" \/ Line.type lineData = "yin")
    /\ method (analyzeChangingLines h [pos]) = "以动爻爻辞为断"
    /\ changing_line_position (analyzeChangingLines h [pos])
       = Some (lineName
               ++ (if String.eqb (Line.type lineData) "yang" then "九" else "六")
               ++ "（第" ++ Z_to_string pos ++ "爻）").
Proof.
  intros Hh Hpos.
  pose proof (forallb_In _ _ changingLine_checked h Hh) as Hc.
  assert (Hrange : In pos (Zrange 1 6)) by (apply In_Zrange; lia).
  pose proof (forallb_In _ _ Hc pos Hrange) as Hcheck. clear Hc.
  unfold changingLine_check in Hcheck.
  destruct (js_index (Hexagram.lines h) (pos - 1)) as [lineData | ];
    [ | discriminate ].
  destruct (js_index lineNames (pos - 1)) as [lineName | ]; [ | discriminate ].
  cbv zeta in Hcheck.
  apply andb_true_iff in Hcheck. destruct Hcheck as [Hcheck Htype].
  apply andb_true_iff in Hcheck. destruct Hcheck as [Hmethod Hposition].
  exists lineData, lineName.
  split; [ reflexivity | ]. split; [ reflexivity | ].
  split.
  { apply orb_true_iff in Htype.
    destruct Htype as [E | E]; apply String.eqb_eq in E; auto. }
  split; [ now apply String.eqb_eq | ].
  destruct (changing_line_position (analyzeChangingLines h [pos])) as [text | ];
    [ | discriminate ].
  apply String.eqb_eq in Hposition. now rewrite Hposition.
Qed.

(** X18: for a hexagram of the table, a first changing line 1..6 is read from
    that line's text: the position is named 初, 二, 三, 四, 五 or 上 followed
    by 九 for a yang line and 六 for a yin line; any other first changing
    line gives the answer 动爻分析异常 with an empty guidance; and with no
    changing line, whatever the hexagram, the judgment is the guidance. *)
Theorem analyzeChangingLines_reading (h : Hexagram.t) (pos : Z)
    (others : list Z) :
  In h hexagrams ->
  (1 <= pos <= 6 ->
   exists lineData lineName,
     js_index (Hexagram.lines h) (pos - 1) = Some lineData
     /\ js_index lineNames (pos - 1) = Some lineName
     /\ (Line.type lineData = "yang" \/ Line.type lineData = "yin")
     /\ method (analyzeChangingLines h (pos :: others)) = "以动爻爻辞为断"
     /\ changing_line_position (analyzeChangingLines h (pos :: others))
        = Some (lineName
                ++ (if String.eqb (Line.type lineData) "yang"
                    then "九" else "六")
                ++ "（第" ++ Z_to_string pos ++ "爻）")
     /\ line_meaning (analyzeChangingLines h (pos :: others))
        = Some ("【爻辞】曰：" ++ Line.text lineData))
  /\ (~ 1 <= pos <= 6 ->
      method (analyzeChangingLines h (pos :: others)) = "动爻分析异常"
      /\ cl_guidance (analyzeChangingLines h (pos :: others)) = "")
  /\ method (analyzeChangingLines h []) = "以本卦卦辞为断"
  /\ cl_guidance (analyzeChangingLines h []) = Hexagram.judgment h.
Proof.
  intros Hh. split; [ | split ].
  - intros Hpos.
    destruct (analyzeChangingLines_in_table h pos Hh Hpos)
      as (lineData & lineName & Hline & Hname & Htype & Hmethod & Hposition).
    exists lineData, lineName.
    split; [ exact Hline | ]. split; [ exact Hname | ].
    split; [ exact Htype | ].
    split; [ exact Hmethod | ]. split; [ exact Hposition | ].
    unfold analyzeChangingLines. cbv zeta. rewrite Hline. reflexivity.
  - intros Hout.
    assert (Hnone : js_index (Hexagram.lines h) (pos - 1) = None).
    { unfold js_index. destruct (Z.ltb_spec (pos - 1) 0); [ reflexivity | ].
      apply nth_error_None.
      pose proof (forallb_In _ _ sixLines_checked h Hh) as Hsix.
      unfold sixLines_check in Hsix. apply andb_true_iff in Hsix.
      destruct Hsix as [Hsix _]. apply Nat.eqb_eq in Hsix. lia. }
    unfold analyzeChangingLines. cbv zeta. rewrite Hnone. split; reflexivity.
  - split; reflexivity.
Qed.

Lemma analyzeChangingLines_reading_witness :
  method (analyzeChangingLines hexagram_2 [7]) = "动爻分析异常"
  /\ method (analyzeChangingLines hexagram_2 []) = "以本卦卦辞为断".
Proof.
  assert (Hin : In hexagram_2 hexagrams)
    by (vm_compute; right; left; reflexivity).
  destruct (analyzeChangingLines_reading hexagram_2 7 [] Hin)
    as (_ & Hout & Hnone & _).
  split; [ apply Hout; lia | exact Hnone ].
Defined.

(** ** The analysis of a cast *)

(** X19: for a time whose parts add up to no negative number, the analysis
    exists, names a hexagram of the table and one changing line 1..6, and
    always reads that line from its text, never as an anomaly; the
    changing hexagram is either reported as 无, both by name and by
    symbol, or is a hexagram of the table other than the main one. *)
Theorem performYijingAnalysis_cast (year month day hour minute : Z)
    (user_id : option string) :
  0 <= year + month + day -> 0 <= hour + minute ->
  exists r h pos,
    performYijingAnalysis year month day hour minute user_id = Some r
    /\ In h hexagrams
    /\ main_hexagram r = Hexagram.name h
    /\ main_hexagram_symbol r = Hexagram.symbol h
    /\ changing_lines r = [pos]
    /\ 1 <= pos <= 6
    /\ method (changing_lines_analysis r) = "以动爻爻辞为断"
    /\ ((changing_hexagram r = "无" /\ changing_hexagram_symbol r = "无")
        \/ exists h',
             In h' hexagrams
             /\ Hexagram.number h' <> Hexagram.number h
             /\ changing_hexagram r = Hexagram.name h'
             /\ changing_hexagram_symbol r = Hexagram.symbol h').
Proof.
  intros Hdate Htime.
  pose proof (userFactorOf_range user_id) as Hf.
  set (total := year + month + day + hour + minute + userFactorOf user_id).
  assert (Hu : 1 <= trigramNumber (year + month + day + userFactorOf user_id) <= 8)
    by (apply trigramNumber_range; lia).
  assert (Hl : 1 <= trigramNumber total <= 8)
    by (apply trigramNumber_range; subst total; lia).
  destruct (getHexagramNumber_found _ _ Hu Hl) as (h & _ & Hh & _).
  assert (Hpos : 1 <= Z.rem total 6 + 1 <= 6)
    by (subst total; Z.to_euclidean_division_equations; lia).
  pose proof (getHexagramInfo_In _ _ Hh) as Hin.
  unfold performYijingAnalysis. cbv zeta.
  unfold generateHexagram. cbv zeta. cbn [mainHex changingLines].
  fold total. rewrite Hh.
  eexists. exists h, (Z.rem total 6 + 1).
  split; [ reflexivity | ]. cbn [main_hexagram main_hexagram_symbol
    changing_lines changing_lines_analysis changing_hexagram
    changing_hexagram_symbol].
  split; [ exact Hin | ].
  split; [ reflexivity | ]. split; [ reflexivity | ].
  split; [ reflexivity | ]. split; [ exact Hpos | ].
  split.
  - destruct (analyzeChangingLines_in_table h _ Hin Hpos)
      as (_ & _ & _ & _ & _ & Hmethod & _).
    exact Hmethod.
  - pose proof (forallb_In _ _ changingHexagram_checked h Hin) as Hc.
    assert (Hrange : In (Z.rem total 6 + 1) (Zrange 1 6))
      by (apply In_Zrange; lia).
    pose proof (forallb_In _ _ Hc _ Hrange) as Hcheck. clear Hc.
    unfold changingHexagram_check in Hcheck. cbv zeta in Hcheck.
    destruct (getChangingHexagram h [Z.rem total 6 + 1]) as [h' | ] eqn:E.
    + right. exists h'.
      destruct (getChangingHexagram_Some _ _ _ E) as (_ & Hin' & _).
      apply andb_true_iff in Hcheck. destruct Hcheck as [Hcheck _].
      apply andb_true_iff in Hcheck. destruct Hcheck as [_ Hne].
      apply negb_true_iff, Z.eqb_neq in Hne.
      repeat split; assumption || reflexivity.
    + left. split; reflexivity.
Qed.

Lemma performYijingAnalysis_cast_witness :
  exists r,
    performYijingAnalysis 2024 5 17 9 30 (Some "user-00042") = Some r
    /\ method (changing_lines_analysis r) = "以动爻爻辞为断".
Proof.
  destruct (performYijingAnalysis_cast 2024 5 17 9 30 (Some "user-00042"))
    as (r & h & pos & Hr & _ & _ & _ & _ & _ & Hmethod & _); [ lia | lia | ].
  exists r. split; [ exact Hr | exact Hmethod ].
Defined.

(** * The distribution of the five elements *)

Lemma js_update_keys {A : Type} (tbl : list (string * A)) (key : string)
    (f : A -> A) :
  map fst (js_update tbl key f) = map fst tbl.
Proof.
  unfold js_update. rewrite map_map. apply map_ext.
  intros [k v]. cbn [fst snd]. destruct (String.eqb k key); reflexivity.
Qed.

Lemma js_get_update {A : Type} (tbl : list (string * A)) (key : string)
    (f : A -> A) (k : string) :
  js_get (js_update tbl key f) k
  = if String.eqb key k then option_map f (js_get tbl k) else js_get tbl k.
Proof.
  induction tbl as [ | [k0 v] rest IH ].
  - simpl. destruct (String.eqb key k); reflexivity.
  - cbn [js_update map fst snd js_get]. fold (js_update rest key f).
    destruct (String.eqb_spec k0 key) as [-> | Hne]; cbn [js_get].
    + destruct (String.eqb_spec key k) as [-> | Hk].
      * reflexivity.
      * rewrite IH. destruct (String.eqb_spec key k); [ contradiction | ].
        reflexivity.
    + destruct (String.eqb_spec k0 k) as [-> | Hk].
      * destruct (String.eqb_spec key k); [ congruence | reflexivity ].
      * exact IH.
Qed.

Lemma has_key_In {A : Type} (tbl : list (string * A)) (key : string) :
  In key (map fst tbl) -> has_key tbl key = true.
Proof.
  intros H. unfold has_key. apply existsb_exists.
  apply in_map_iff in H. destruct H as (entry & <- & Hin).
  exists entry. split; [ exact Hin | apply String.eqb_refl ].
Qed.

Lemma fold_tally_map {B : Type} (f : B -> Tally) (xs : list B)
    (state : option WuxingAnalysis) :
  fold_left (fun st x => tallyStep st (f x)) xs state
  = fold_left tallyStep (map f xs) state.
Proof.
  revert state. induction xs as [ | x xs IH ]; intros state;
    [ reflexivity | apply IH ].
Qed.

Lemma fold_tally_flat_map {B C : Type} (inner : B -> list C)
    (f : B -> C -> Tally) (xs : list B) (state : option WuxingAnalysis) :
  fold_left (fun st x => fold_left (fun st' y => tallyStep st' (f x y))
                                   (inner x) st) xs state
  = fold_left tallyStep (flat_map (fun x => map (f x) (inner x)) xs) state.
Proof.
  revert state. induction xs as [ | x xs IH ]; intros state;
    [ reflexivity | ].
  cbn [fold_left flat_map]. rewrite fold_left_app, IH. f_equal.
  apply (fold_tally_map (f x)).
Qed.

Lemma performDetailedWuxingAnalysis_tallies (chart : BaziChart) :
  performDetailedWuxingAnalysis chart
  = fold_left tallyStep (tallies chart)
      (Some (mkWuxingAnalysis
               [("木", 0%Q); ("火", 0%Q); ("土", 0%Q); ("金", 0%Q); ("水", 0%Q)]
               [("木", []); ("火", []); ("土", []); ("金", []); ("水", [])])).
Proof.
  unfold performDetailedWuxingAnalysis, tallies. cbv zeta.
  rewrite fold_left_app.
  rewrite <- (fold_tally_flat_map
                (fun pillar =>
                   indexed (ChartPillar.hidden_stems (snd pillar)))
                (fun pillar hidden =>
                   mkTally (getElementFromStem (snd hidden))
                           (hiddenWeight (fst hidden))
                           (fst pillar ++ "支藏" ++ snd hidden))).
  rewrite <- (fold_tally_map
                (fun pillar =>
                   mkTally (ChartPillar.element (snd pillar)) 2%Q
                           (fst pillar ++ "干" ++ ChartPillar.stem (snd pillar)))).
  reflexivity.
Qed.

Lemma share_cons (t : Tally) (ts : list Tally) (k : string) :
  share (t :: ts) k
  = if String.eqb (tally_key t) k then (tally_amount t + share ts k)%Q
    else share ts k.
Proof.
  unfold share, talliesOf. cbn [filter].
  destruct (String.eqb (tally_key t) k); reflexivity.
Qed.

Lemma fold_tallyStep (ts : list Tally) (st : WuxingAnalysis) :
  (forall t, In t ts -> In (tally_key t) (map fst (element_details st))) ->
  exists st',
    fold_left tallyStep ts (Some st) = Some st'
    /\ map fst (distribution st') = map fst (distribution st)
    /\ map fst (element_details st') = map fst (element_details st)
    /\ forall k,
         (forall v, js_get (distribution st) k = Some v ->
                    exists v', js_get (distribution st') k = Some v'
                               /\ (v' == v + share ts k)%Q)
         /\ (forall l, js_get (element_details st) k = Some l ->
                       js_get (element_details st') k
                       = Some (l ++ map tally_text (talliesOf ts k))%list).
Proof.
  revert st. induction ts as [ | t ts IH ]; intros st Hkeys.
  - exists st. split; [ reflexivity | ]. split; [ reflexivity | ].
    split; [ reflexivity | ]. intros k. split.
    + intros v Hv. exists v. split; [ exact Hv | ].
      unfold share. simpl. lra.
    + intros l Hl. simpl. rewrite app_nil_r. exact Hl.
  - cbn [fold_left]. unfold tallyStep at 2. unfold tally.
    rewrite (has_key_In _ _ (Hkeys t (or_introl eq_refl))).
    match goal with
    | |- context [fold_left tallyStep ts (Some ?s)] => set (st1 := s)
    end.
    destruct (IH st1) as (st' & Hfold & Hk1 & Hk2 & Hget).
    { intros t' Ht'. subst st1. cbn [element_details].
      rewrite js_update_keys. apply Hkeys. now right. }
    exists st'. split; [ exact Hfold | ].
    split; [ rewrite Hk1; subst st1; apply js_update_keys | ].
    split; [ rewrite Hk2; subst st1; apply js_update_keys | ].
    intros k. destruct (Hget k) as [Hv Hl]. split.
    + intros v Hget0.
      destruct (Hv (if String.eqb (tally_key t) k
                    then (v + tally_amount t)%Q else v)) as (v' & Hv' & Heq).
      { subst st1. cbn [distribution]. rewrite js_get_update, Hget0.
        destruct (String.eqb (tally_key t) k); reflexivity. }
      exists v'. split; [ exact Hv' | ].
      rewrite share_cons.
      destruct (String.eqb (tally_key t) k); lra.
    + intros l Hget0.
      rewrite (Hl (if String.eqb (tally_key t) k
                   then (l ++ [tally_text t])%list else l)).
      * unfold talliesOf. cbn [filter].
        destruct (String.eqb (tally_key t) k); [ | reflexivity ].
        cbn [map]. rewrite <- app_assoc. reflexivity.
      * subst st1. cbn [element_details]. rewrite js_get_update, Hget0.
        destruct (String.eqb (tally_key t) k); reflexivity.
Qed.

Lemma Qsum_cons (x : Q) (xs : list Q) : Qsum (x :: xs) = (x + Qsum xs)%Q.
Proof. reflexivity. Qed.

Lemma Qsum_nil : Qsum [] = 0%Q.
Proof. reflexivity. Qed.

Lemma Qsum_app (xs ys : list Q) :
  (Qsum (xs ++ ys) == Qsum xs + Qsum ys)%Q.
Proof.
  induction xs as [ | x xs IH ].
  - rewrite Qsum_nil. cbn [app]. lra.
  - cbn [app]. rewrite !Qsum_cons. lra.
Qed.

Lemma hiddenWeight_pos (index : nat) : (0 < hiddenWeight index)%Q.
Proof. destruct index as [ | [ | index ] ]; reflexivity. Qed.

Lemma indexed_In {A : Type} (xs : list A) (entry : nat * A) :
  In entry (indexed xs) -> In (snd entry) xs.
Proof.
  unfold indexed. destruct entry as [i x]. intros Hin.
  exact (in_combine_r _ _ _ _ Hin).
Qed.

Lemma tallies_keys (chart : BaziChart) :
  (forall pillar, In pillar (chartPillars chart) ->
                  In (ChartPillar.element (snd pillar)) elements) ->
  (forall pillar hidden,
      In pillar (chartPillars chart) ->
      In hidden (ChartPillar.hidden_stems (snd pillar)) -> In hidden stems) ->
  forall t, In t (tallies chart) ->
            In (tally_key t) elements /\ (0 < tally_amount t)%Q.
Proof.
  intros Hpillars Hhidden t Ht. unfold tallies in Ht. apply in_app_iff in Ht.
  destruct Ht as [Ht | Ht].
  - apply in_map_iff in Ht. destruct Ht as (pillar & <- & Hin).
    split; [ exact (Hpillars pillar Hin) | reflexivity ].
  - apply in_flat_map in Ht. destruct Ht as (pillar & Hpillar & Ht).
    apply in_map_iff in Ht. destruct Ht as (hidden & <- & Hin).
    split; [ | apply hiddenWeight_pos ].
    apply getElementFromStem_element.
    exact (Hhidden pillar (snd hidden) Hpillar (indexed_In _ _ Hin)).
Qed.

Lemma share_sign (ts : list Tally) (k : string) :
  (forall t, In t ts -> (0 < tally_amount t)%Q) ->
  (0 <= share ts k)%Q /\ ((0 < share ts k)%Q <-> talliesOf ts k <> []).
Proof.
  intros Hpos. induction ts as [ | t ts IH ].
  - split; [ unfold share; simpl; lra | ].
    split; [ unfold share; simpl; lra | intros H; now elim H ].
  - destruct IH as [IH0 IH1]; [ intros t' Ht'; apply Hpos; now right | ].
    pose proof (Hpos t (or_introl eq_refl)) as Ht.
    rewrite share_cons. unfold talliesOf. cbn [filter].
    destruct (String.eqb (tally_key t) k).
    + split; [ lra | ]. split; [ discriminate | intros _; lra ].
    + split; [ exact IH0 | exact IH1 ].
Qed.

Lemma share_member (ts : list Tally) (t : Tally) :
  (forall t', In t' ts -> (0 < tally_amount t')%Q) ->
  In t ts -> (tally_amount t <= share ts (tally_key t))%Q.
Proof.
  intros Hpos Hin. induction ts as [ | t0 ts IH ]; [ contradiction | ].
  pose proof (Hpos t0 (or_introl eq_refl)) as H0.
  assert (Hrest : forall t', In t' ts -> (0 < tally_amount t')%Q)
    by (intros t' Ht'; apply Hpos; now right).
  pose proof (share_sign ts (tally_key t) Hrest) as [Hnonneg _].
  rewrite share_cons. destruct Hin as [-> | Hin].
  - rewrite String.eqb_refl. lra.
  - specialize (IH Hrest Hin).
    destruct (String.eqb (tally_key t0) (tally_key t)); lra.
Qed.

(** Evaluates the comparisons of two literal strings. *)
Ltac eval_string_eqb :=
  repeat match goal with
         | |- context [String.eqb ?a ?b] =>
             let v := eval vm_compute in (String.eqb a b) in
             match v with
             | true => change (String.eqb a b) with true
             | false => change (String.eqb a b) with false
             end
         end;
  cbv iota.

Lemma share_partition (ts : list Tally) :
  (forall t, In t ts -> In (tally_key t) elements) ->
  (share ts "木" + share ts "火" + share ts "土" + share ts "金"
   + share ts "水" == Qsum (map tally_amount ts))%Q.
Proof.
  intros Hkeys. induction ts as [ | t ts IH ].
  - unfold share. simpl. lra.
  - specialize (IH (fun t' Ht' => Hkeys t' (or_intror Ht'))).
    pose proof (Hkeys t (or_introl eq_refl)) as Hk.
    rewrite !share_cons. cbn [map]. rewrite Qsum_cons.
    unfold elements, generateCycle in Hk. cbn [map fst] in Hk.
    in_cases Hk; rewrite <- Hk; eval_string_eqb; lra.
Qed.

Lemma indexed_positions {A : Type} (xs : list A) :
  map fst (indexed xs) = seq 0 (List.length xs).
Proof.
  unfold indexed. generalize 0%nat.
  induction xs as [ | x xs IH ]; intros n; [ reflexivity | ].
  cbn [List.length seq combine map fst]. now rewrite IH.
Qed.

Lemma tallies_total (chart : BaziChart) :
  (Qsum (map tally_amount (tallies chart)) == 8 + hiddenTotal chart)%Q.
Proof.
  unfold tallies. rewrite map_app, Qsum_app.
  assert (Hhidden : forall name (p : ChartPillar.t),
    map tally_amount
        (map (fun hidden : nat * string =>
                mkTally (getElementFromStem (snd hidden))
                        (hiddenWeight (fst hidden))
                        (name ++ "支藏" ++ snd hidden))
             (indexed (ChartPillar.hidden_stems p)))
    = map hiddenWeight (seq 0 (List.length (ChartPillar.hidden_stems p)))).
  { intros name p. rewrite map_map. cbn [tally_amount].
    rewrite <- indexed_positions, map_map. reflexivity. }
  unfold hiddenTotal, chartPillars.
  cbn [map flat_map fst snd tally_amount app].
  rewrite !map_app, !Qsum_app, !Hhidden.
  change (map tally_amount []) with (@nil Q).
  rewrite !Qsum_cons, !Qsum_nil. lra.
Qed.

Lemma hiddenWeights_bounds (n : nat) :
  (1 <= n <= 3)%nat ->
  (1.5 <= Qsum (map hiddenWeight (seq 0 n)) <= 3)%Q.
Proof.
  intros Hn.
  assert (Hcases : n = 1%nat \/ n = 2%nat \/ n = 3%nat) by lia.
  destruct Hcases as [-> | [-> | ->]]; vm_compute; split; discriminate.
Qed.

(** X20: when the element of every pillar is one of the five and every
    hidden stem of the four branches is one of the ten stems, the count
    succeeds and keeps the five keys in their order.  Each element's count
    is the sum of the weights of the steps that name it, 2 for a stem and
    1.5, 1 or 0.5 for a hidden stem by position, and its details are the
    texts of those steps; a count is never negative, and it is positive
    exactly when the element has details.  The element of each pillar's
    stem counts at least 2.  The five counts add up to 8 plus the weights
    of all hidden stems, which is between 14 and 20 when every branch
    hides one to three stems.  When a pillar's element is none of the
    five, the function throws. *)
Theorem performDetailedWuxingAnalysis_distribution (chart : BaziChart) :
  ((forall pillar, In pillar (chartPillars chart) ->
                   In (ChartPillar.element (snd pillar)) elements) ->
   (forall pillar hidden,
       In pillar (chartPillars chart) ->
       In hidden (ChartPillar.hidden_stems (snd pillar)) -> In hidden stems) ->
   exists counted,
     performDetailedWuxingAnalysis chart = Some counted
     /\ map fst (distribution counted) = elements
     /\ map fst (element_details counted) = elements
     /\ (forall k, In k elements ->
           exists count texts,
             js_get (distribution counted) k = Some count
             /\ js_get (element_details counted) k = Some texts
             /\ (count == share (tallies chart) k)%Q
             /\ texts = map tally_text (talliesOf (tallies chart) k)
             /\ (0 <= count)%Q
             /\ ((0 < count)%Q <-> texts <> []))
     /\ (forall pillar, In pillar (chartPillars chart) ->
           exists count,
             js_get (distribution counted)
                    (ChartPillar.element (snd pillar)) = Some count
             /\ (2 <= count)%Q)
     /\ (Qsum (map snd (distribution counted)) == 8 + hiddenTotal chart)%Q
     /\ ((forall pillar, In pillar (chartPillars chart) ->
            (1 <= List.length (ChartPillar.hidden_stems (snd pillar)) <= 3)%nat) ->
         (14 <= Qsum (map snd (distribution counted)) <= 20)%Q))
  /\ (~ In (ChartPillar.element (year_pillar chart)) elements ->
      performDetailedWuxingAnalysis chart = None).
Proof.
  split.
  - intros Hpillars Hstems.
    pose proof (tallies_keys chart Hpillars Hstems) as Hts.
    rewrite performDetailedWuxingAnalysis_tallies.
    match goal with
    | |- context [fold_left tallyStep _ (Some ?s)] => set (start := s)
    end.
    destruct (fold_tallyStep (tallies chart) start)
      as (counted & Hfold & Hk1 & Hk2 & Hget).
    { intros t Ht. exact (proj1 (Hts t Ht)). }
    assert (Hpos : forall t, In t (tallies chart) -> (0 < tally_amount t)%Q)
      by (intros t Ht; exact (proj2 (Hts t Ht))).
    assert (Hkey : forall k, In k elements ->
      exists count texts,
        js_get (distribution counted) k = Some count
        /\ js_get (element_details counted) k = Some texts
        /\ (count == share (tallies chart) k)%Q
        /\ texts = map tally_text (talliesOf (tallies chart) k)).
    { intros k Hk. destruct (Hget k) as [Hv Hl].
      assert (H0 : js_get (distribution start) k = Some 0%Q
                   /\ js_get (element_details start) k = Some [])
        by (unfold elements, generateCycle in Hk; cbn [map fst] in Hk;
            in_cases Hk; rewrite <- Hk; split; reflexivity).
      destruct H0 as [Hd He].
      destruct (Hv _ Hd) as (count & Hcount & Heq).
      exists count, (map tally_text (talliesOf (tallies chart) k)).
      split; [ exact Hcount | ].
      split; [ rewrite (Hl _ He); reflexivity | ].
      split; [ lra | reflexivity ]. }
    assert (Htotal :
      (Qsum (map snd (distribution counted)) == 8 + hiddenTotal chart)%Q).
    { rewrite <- tallies_total.
      rewrite <- (share_partition (tallies chart)
                    (fun t Ht => proj1 (Hts t Ht))).
      assert (Hshape : map fst (distribution counted) = elements)
        by (rewrite Hk1; reflexivity).
      destruct (Hkey "木") as (c1 & _ & G1 & _ & E1 & _);
        [ vm_compute; tauto | ].
      destruct (Hkey "火") as (c2 & _ & G2 & _ & E2 & _);
        [ vm_compute; tauto | ].
      destruct (Hkey "土") as (c3 & _ & G3 & _ & E3 & _);
        [ vm_compute; tauto | ].
      destruct (Hkey "金") as (c4 & _ & G4 & _ & E4 & _);
        [ vm_compute; tauto | ].
      destruct (Hkey "水") as (c5 & _ & G5 & _ & E5 & _);
        [ vm_compute; tauto | ].
      destruct (distribution counted)
        as [ | [k1 v1] [ | [k2 v2] [ | [k3 v3] [ | [k4 v4]
             [ | [k5 v5] [ | extra rest ] ] ] ] ] ];
        try discriminate Hshape.
      unfold elements, generateCycle in Hshape. cbn [map fst] in Hshape.
      injection Hshape as -> -> -> -> ->.
      vm_compute in G1. vm_compute in G2. vm_compute in G3.
      vm_compute in G4. vm_compute in G5.
      injection G1 as ->. injection G2 as ->. injection G3 as ->.
      injection G4 as ->. injection G5 as ->.
      cbn [map snd]. rewrite !Qsum_cons, Qsum_nil. lra. }
    exists counted. split; [ exact Hfold | ].
    split; [ rewrite Hk1; reflexivity | ].
    split; [ rewrite Hk2; reflexivity | ].
    split.
    { intros k Hk. destruct (Hkey k Hk) as (count & texts & G & T & E & Ht).
      exists count, texts.
      destruct (share_sign (tallies chart) k Hpos) as [Hnonneg Hiff].
      split; [ exact G | ]. split; [ exact T | ].
      split; [ exact E | ]. split; [ exact Ht | ].
      split; [ lra | ].
      subst texts. split.
      - intros Hc Hnil. apply map_eq_nil in Hnil.
        assert (Hs : (0 < share (tallies chart) k)%Q) by lra.
        apply Hiff in Hs. contradiction.
      - intros Hne.
        assert (Hs : (0 < share (tallies chart) k)%Q).
        { apply Hiff. intros Hnil. apply Hne. now rewrite Hnil. }
        lra. }
    split.
    { intros pillar Hin.
      destruct (Hkey _ (Hpillars pillar Hin)) as (count & _ & G & _ & E & _).
      exists count. split; [ exact G | ].
      assert (Hmember :
        In (mkTally (ChartPillar.element (snd pillar)) 2%Q
                    (fst pillar ++ "干" ++ ChartPillar.stem (snd pillar)))
           (tallies chart)).
      { unfold tallies. apply in_app_iff. left.
        apply in_map_iff. exists pillar. split; [ reflexivity | exact Hin ]. }
      pose proof (share_member _ _ Hpos Hmember) as Hge.
      cbn [tally_amount tally_key] in Hge. lra. }
    split; [ exact Htotal | ].
    intros Hhidden.
    assert (Hbounds : (6 <= hiddenTotal chart <= 12)%Q).
    { unfold hiddenTotal.
      pose proof (fun pillar Hin =>
                    hiddenWeights_bounds _ (Hhidden pillar Hin)) as Hw.
      unfold chartPillars in Hw |- *.
      pose proof (Hw _ (or_introl eq_refl)) as W1.
      pose proof (Hw _ (or_intror (or_introl eq_refl))) as W2.
      pose proof (Hw _ (or_intror (or_intror (or_introl eq_refl)))) as W3.
      pose proof (Hw _ (or_intror (or_intror (or_intror (or_introl eq_refl)))))
        as W4.
      cbn [snd] in W1, W2, W3, W4.
      cbn [map snd]. rewrite !Qsum_cons, Qsum_nil.
      lra. }
    lra.
  - intros Hout.
    assert (Hno : has_key
      [("木", @nil string); ("火", []); ("土", []); ("金", []); ("水", [])]
      (ChartPillar.element (year_pillar chart)) = false).
    { apply not_true_is_false. intros Hhas.
      apply Hout. unfold has_key in Hhas. apply existsb_exists in Hhas.
      destruct Hhas as (entry & Hin & Heq). apply String.eqb_eq in Heq.
      rewrite <- Heq. cbn [In] in Hin.
      in_cases Hin; rewrite <- Hin; vm_compute; tauto. }
    rewrite performDetailedWuxingAnalysis_tallies.
    unfold tallies, chartPillars. cbn [map app fold_left fst snd].
    match goal with
    | |- fold_left tallyStep ?rest (tallyStep ?s ?t) = None =>
        assert (Hfirst : tallyStep s t = None)
    end.
    { unfold tallyStep, tally. cbn [tally_key element_details].
      rewrite Hno. reflexivity. }
    rewrite Hfirst.
    match goal with
    | |- fold_left tallyStep ?rest None = None => induction rest as [ | t ts IH ]
    end; [ reflexivity | exact IH ].
Qed.

Lemma performDetailedWuxingAnalysis_distribution_witness :
  exists chart counted,
    exampleChartNoon = Some chart
    /\ performDetailedWuxingAnalysis chart = Some counted
    /\ (14 <= Qsum (map snd (distribution counted)) <= 20)%Q.
Proof.
  destruct exampleChartNoon as [chart | ] eqn:Hc;
    [ | vm_compute in Hc; discriminate ].
  assert (Hpillars : forall pillar, In pillar (chartPillars chart) ->
            In (ChartPillar.element (snd pillar)) elements
            /\ (1 <= List.length (ChartPillar.hidden_stems (snd pillar)) <= 3)%nat
            /\ (forall hidden,
                  In hidden (ChartPillar.hidden_stems (snd pillar)) ->
                  In hidden stems)).
  { vm_compute in Hc. injection Hc as <-. intros pillar Hin.
    unfold chartPillars in Hin. cbn [year_pillar month_pillar day_pillar
      hour_pillar] in Hin.
    in_cases Hin; rewrite <- Hin; cbn [snd ChartPillar.element
      ChartPillar.hidden_stems List.length];
      (split; [ vm_compute; tauto | split; [ lia | ] ]);
      intros hidden Hhidden; in_cases Hhidden; rewrite <- Hhidden;
      vm_compute; tauto. }
  destruct (performDetailedWuxingAnalysis_distribution chart) as [Hcount _].
  destruct (Hcount (fun pillar Hin => proj1 (Hpillars pillar Hin))
                   (fun pillar hidden Hin =>
                      proj2 (proj2 (Hpillars pillar Hin)) hidden))
    as (counted & Hr & _ & _ & _ & _ & _ & Hbounds).
  exists chart, counted. split; [ reflexivity | ]. split; [ exact Hr | ].
  apply Hbounds. intros pillar Hin. exact (proj1 (proj2 (Hpillars pillar Hin))).
Defined.

(** * Validation *)

Lemma is_digit_In (c : ascii) : is_digit c = true -> In c digitChars.
Proof.
  destruct c as [[] [] [] [] [] [] [] []]; vm_compute; intros H;
    try discriminate H; tauto.
Qed.

Lemma time_checked :
  forallb (fun a => forallb (fun b => forallb (fun d =>
    forallb (time_check a b d) digitChars) digitChars) digitChars) digitChars
  = true.
Proof. vm_compute. reflexivity. Qed.

Lemma timeText_checked :
  forallb (fun h => forallb (timeText_check h) (Zrange 0 60)) (Zrange 0 24)
  = true.
Proof. vm_compute. reflexivity. Qed.

Lemma is_none_true {A : Type} (o : option A) : is_none o = true <-> o = None.
Proof. destruct o; simpl; split; congruence. Qed.

Lemma readsAs_true (birth_time : option string) (h m : Z) :
  readsAs birth_time h m = true -> birthHourMinute birth_time = Some (h, m).
Proof.
  unfold readsAs. destruct (birthHourMinute birth_time) as [[h' m'] | ];
    [ | discriminate ].
  intros H. apply andb_true_iff in H. destruct H as [Hh Hm].
  apply Z.eqb_eq in Hh. apply Z.eqb_eq in Hm. now subst.
Qed.

Lemma timeRegex_test_shape (text : string) :
  timeRegex_test text = true ->
  exists a b d e,
    text = String a (String b (String ":"%char (String d (String e ""))))
    /\ time_check a b d e = true.
Proof.
  intros H. unfold timeRegex_test in H.
  destruct text as [ | a [ | b [ | c [ | d [ | e [ | f rest ] ] ] ] ] ];
    try discriminate H.
  apply andb_true_iff in H. destruct H as [H He].
  apply andb_true_iff in H. destruct H as [H Hd].
  apply andb_true_iff in H. destruct H as [H Hc].
  apply andb_true_iff in H. destruct H as [Ha Hb].
  apply Ascii.eqb_eq in Hc. subst c.
  exists a, b, d, e. split; [ reflexivity | ].
  pose proof (forallb_In _ _ time_checked a (is_digit_In _ Ha)) as H1.
  pose proof (forallb_In _ _ H1 b (is_digit_In _ Hb)) as H2.
  pose proof (forallb_In _ _ H2 d (is_digit_In _ Hd)) as H3.
  exact (forallb_In _ _ H3 e (is_digit_In _ He)).
Qed.

Lemma timeText_accepted (h m : Z) :
  0 <= h <= 23 -> 0 <= m <= 59 ->
  validateBirthTime (Some (timeText h m)) = None
  /\ birthHourMinute (Some (timeText h m)) = Some (h, m).
Proof.
  intros Hh Hm.
  assert (Hin : In h (Zrange 0 24)) by (apply In_Zrange; lia).
  assert (Him : In m (Zrange 0 60)) by (apply In_Zrange; lia).
  pose proof (forallb_In _ _ timeText_checked h Hin) as H1.
  pose proof (forallb_In _ _ H1 m Him) as H2.
  unfold timeText_check in H2. apply andb_true_iff in H2.
  destruct H2 as [Hv Hr].
  split; [ now apply is_none_true | now apply readsAs_true ].
Qed.

(** X21: the validator lets a birth time pass exactly when it is absent or the
    HH:MM text of an hour 0..23 and a minute 0..59; nothing else, such as
    a time without leading zeros, with seconds or with hour 24, passes.
    The check at the head of the analysis accepts the same values.  The
    chart then reads the text back as that hour and minute, and an absent
    time as noon. *)
Theorem validateBirthTime_accepts (birth_time : option string) :
  (validateBirthTime birth_time = None <->
   truthy birth_time = None
   \/ exists h m, 0 <= h <= 23 /\ 0 <= m <= 59
                  /\ birth_time = Some (timeText h m))
  /\ (checkBirthTime birth_time = None <-> validateBirthTime birth_time = None)
  /\ (forall h m, 0 <= h <= 23 -> 0 <= m <= 59 ->
                  birth_time = Some (timeText h m) ->
                  birthHourMinute birth_time = Some (h, m))
  /\ (truthy birth_time = None -> birthHourMinute birth_time = Some (12, 0)).
Proof.
  assert (Hshape : forall text, text <> "" ->
    (validateBirthTime (Some text) = None ->
     exists h m, 0 <= h <= 23 /\ 0 <= m <= 59 /\ text = timeText h m)
    /\ (checkBirthTime (Some text) = None <->
        validateBirthTime (Some text) = None)).
  { intros text Hne.
    assert (Htruthy : truthy (Some text) = Some text)
      by (destruct text; [ contradiction | reflexivity ]).
    destruct (timeRegex_test text) eqn:Hre.
    - destruct (timeRegex_test_shape text Hre) as (a & b & d & e & -> & Hc).
      unfold time_check in Hc. cbv zeta in Hc.
      apply andb_true_iff in Hc. destruct Hc as [Hc _].
      apply andb_true_iff in Hc. destruct Hc as [Hc Hm0].
      apply andb_true_iff in Hc. destruct Hc as [Hc Hh0].
      apply andb_true_iff in Hc. destruct Hc as [Hc Htext].
      apply andb_true_iff in Hc. destruct Hc as [Hvalid Hagree].
      apply Bool.eqb_prop in Hvalid. apply Bool.eqb_prop in Hagree.
      apply String.eqb_eq in Htext.
      apply Z.leb_le in Hh0. apply Z.leb_le in Hm0.
      split.
      + intros Hv. apply is_none_true in Hv. rewrite Hv in Hvalid.
        symmetry in Hvalid. apply andb_true_iff in Hvalid.
        destruct Hvalid as [Hh Hm]. apply Z.leb_le in Hh. apply Z.leb_le in Hm.
        eexists. eexists. split; [ | split; [ | exact Htext ] ]; lia.
      + rewrite <- !is_none_true. rewrite Hagree. tauto.
    - unfold validateBirthTime, checkBirthTime. rewrite Htruthy, Hre.
      cbn [negb]. split; [ discriminate | split; discriminate ]. }
  assert (Habsent : truthy birth_time = None ->
            validateBirthTime birth_time = None
            /\ checkBirthTime birth_time = None
            /\ birthHourMinute birth_time = Some (12, 0)).
  { intros Hn. unfold validateBirthTime, checkBirthTime, birthHourMinute.
    rewrite Hn. repeat split. }
  split; [ | split; [ | split ] ].
  - split.
    + intros Hv. destruct birth_time as [text | ]; [ | now left ].
      destruct (string_dec text "") as [-> | Hne]; [ now left | ].
      right. destruct (proj1 (Hshape text Hne) Hv) as (h & m & Hh & Hm & ->).
      now exists h, m.
    + intros [Hn | (h & m & Hh & Hm & ->)].
      * exact (proj1 (Habsent Hn)).
      * exact (proj1 (timeText_accepted h m Hh Hm)).
  - destruct birth_time as [text | ];
      [ | split; intros _; apply (Habsent eq_refl) ].
    destruct (string_dec text "") as [-> | Hne];
      [ split; intros _; apply (Habsent eq_refl) | ].
    exact (proj2 (Hshape text Hne)).
  - intros h m Hh Hm ->. exact (proj2 (timeText_accepted h m Hh Hm)).
  - intros Hn. apply (Habsent Hn).
Qed.

(** X22: of the genders the validator accepts, the analysis accepts every one
    that is present; it further accepts 男性 and 女性, and rejects an
    absent gender, which the validator lets pass.  The fortune reads an
    accepted gender only as one of two classes: male and 男 count as male,
    and female, 女, 男性 and 女性 all count as female, in the direction of
    the luck periods as in the gender shown in the personal data. *)
Theorem checkGender_classes (gender : option string) :
  (checkGender gender = None <->
   exists text, gender = Some text /\ In text acceptedGenders)
  /\ (validateGender gender = None -> truthy gender <> None ->
      checkGender gender = None)
  /\ (truthy gender = None ->
      validateGender gender = None /\ checkGender gender <> None)
  /\ (forall text, gender = Some text -> checkGender gender = None ->
      (genderClass text = "male" <-> text = "male" \/ text = "男")
      /\ personalDataGender text
         = (if String.eqb (genderClass text) "male" then "男性" else "女性")
      /\ forall this index baziChart birthYear birthMonth birthDay currentYear,
           calculatePreciseFortune this index baziChart birthYear birthMonth
             birthDay text currentYear
           = calculatePreciseFortune this index baziChart birthYear birthMonth
               birthDay (genderClass text) currentYear).
Proof.
  assert (Haccepted : forall text,
            checkGender (Some text) = None -> In text acceptedGenders).
  { intros text H. unfold checkGender in H.
    destruct text as [ | c rest ]; [ discriminate | ]. cbn [truthy] in H.
    destruct (includes _ (String c rest)) eqn:E; [ | discriminate ].
    exact (includes_In _ _ E). }
  split; [ | split; [ | split ] ].
  - split.
    + intros H. destruct gender as [text | ]; [ | discriminate ].
      exists text. split; [ reflexivity | exact (Haccepted text H) ].
    + intros (text & -> & Hin). unfold acceptedGenders in Hin.
      in_cases Hin; rewrite <- Hin; reflexivity.
  - intros Hv Hpresent. destruct gender as [text | ]; [ | now elim Hpresent ].
    destruct text as [ | c rest ]; [ now elim Hpresent | ].
    unfold validateGender in Hv. cbn [truthy] in Hv.
    destruct (includes _ (String c rest)) eqn:E; [ | discriminate ].
    apply includes_In in E.
    in_cases E; rewrite <- E; reflexivity.
  - intros Hn. unfold validateGender, checkGender. rewrite Hn.
    split; [ reflexivity | discriminate ].
  - intros text -> Hc. pose proof (Haccepted text Hc) as Hin.
    assert (Hfortune :
      forall this index baziChart birthYear birthMonth birthDay currentYear,
        calculatePreciseFortune this index baziChart birthYear birthMonth
          birthDay text currentYear
        = calculatePreciseFortune this index baziChart birthYear birthMonth
            birthDay (genderClass text) currentYear).
    { intros. unfold calculatePreciseFortune, calculateStartLuckAge,
        calculateDayunSequence, isForwardLuck. cbv zeta.
      assert (Hsame : isMaleGender (genderClass text) = isMaleGender text)
        by (unfold genderClass; destruct (isMaleGender text); reflexivity).
      rewrite Hsame. reflexivity. }
    unfold acceptedGenders in Hin.
    in_cases Hin; rewrite <- Hin in Hfortune |- *;
      (split; [ vm_compute; split;
                [ intros H; first [ discriminate H | tauto ]
                | intros [H | H]; first [ discriminate H | reflexivity ] ]
              | split; [ reflexivity | exact Hfortune ] ]).
Qed.

(** * The daily limit on AI requests *)

Lemma usageOf_iff (ip date : string) (row : UsageRow) :
  usageOf ip date row = true <-> ip_address row = ip /\ request_date row = date.
Proof.
  unfold usageOf. rewrite andb_true_iff, !String.eqb_eq. tauto.
Qed.

Lemma selectUsage_update_same (db : list UsageRow) (user : option Z)
    (p ip date : string) :
  selectUsage (updateUsage db user p ip date) ip date
  = option_map (fun count => count + 1) (selectUsage db ip date).
Proof.
  unfold selectUsage, updateUsage.
  induction db as [ | row db IH ]; [ reflexivity | ].
  cbn [map find]. destruct (usageOf ip date row) eqn:E.
  - assert (E' : usageOf ip date
             (mkUsageRow (match user with
                          | Some id => Some id
                          | None => user_id row
                          end)
                         (ip_address row) p (request_date row)
                         (request_count row + 1)) = true)
      by exact E.
    rewrite E'. reflexivity.
  - rewrite E. exact IH.
Qed.

Lemma selectUsage_update_other (db : list UsageRow) (user : option Z)
    (p ip' date' ip date : string) :
  ~ (ip' = ip /\ date' = date) ->
  selectUsage (updateUsage db user p ip' date') ip date
  = selectUsage db ip date.
Proof.
  intros Hother. unfold selectUsage, updateUsage.
  induction db as [ | row db IH ]; [ reflexivity | ].
  cbn [map find]. destruct (usageOf ip' date' row) eqn:E'.
  - assert (E : usageOf ip date
             (mkUsageRow (match user with
                          | Some id => Some id
                          | None => user_id row
                          end)
                         (ip_address row) p (request_date row)
                         (request_count row + 1)) = usageOf ip date row)
      by reflexivity.
    rewrite E. destruct (usageOf ip date row) eqn:Erow; [ | exact IH ].
    apply usageOf_iff in E'. apply usageOf_iff in Erow.
    exfalso. apply Hother. destruct E', Erow. split; congruence.
  - destruct (usageOf ip date row); [ reflexivity | exact IH ].
Qed.

Lemma selectUsage_insert (db : list UsageRow) (user : option Z)
    (ip' p date' ip date : string) :
  selectUsage (insertUsage db user ip' p date') ip date
  = match selectUsage db ip date with
    | Some count => Some count
    | None => if String.eqb ip' ip && String.eqb date' date then Some 1 else None
    end.
Proof.
  unfold selectUsage, insertUsage.
  induction db as [ | row db IH ].
  - cbn [app find option_map]. unfold usageOf. cbn [ip_address request_date].
    destruct (String.eqb ip' ip && String.eqb date' date); reflexivity.
  - cbn [app find]. destruct (usageOf ip date row); [ reflexivity | exact IH ].
Qed.

Lemma fromClient_iff (ip date : string) (req : Request) :
  fromClient ip date req = true <-> clientIp req = ip /\ today req = date.
Proof.
  unfold fromClient. rewrite andb_true_iff, !String.eqb_eq. tauto.
Qed.

Lemma aiRateLimit_step (dailyLimit : Z) (db : list UsageRow) (req : Request)
    (ip date : string) :
  1 <= dailyLimit ->
  let before := used (getAiUsageStats dailyLimit db ip date) in
  let db1 := fst (aiRateLimit true dailyLimit db req) in
  let outcome := snd (aiRateLimit true dailyLimit db req) in
  let after := used (getAiUsageStats dailyLimit db1 ip date) in
  if fromClient ip date req
  then if before <? dailyLimit
       then is_passed outcome = true /\ after = before + 1
       else is_passed outcome = false /\ db1 = db
  else after = before.
Proof.
  intros Hlimit. cbv zeta. unfold getAiUsageStats. cbn [used].
  unfold aiRateLimit. cbn [negb].
  destruct (fromClient ip date req) eqn:Hfrom.
  - apply fromClient_iff in Hfrom. destruct Hfrom as [-> ->].
    destruct (selectUsage db ip date) as [count | ] eqn:E; cbv beta iota.
    + destruct (Z.leb_spec dailyLimit count) as [Hfull | Hroom].
      * destruct (Z.ltb_spec count dailyLimit); [ lia | ].
        cbn [fst snd is_passed]. split; reflexivity.
      * destruct (Z.ltb_spec count dailyLimit); [ | lia ].
        cbn [fst snd is_passed]. rewrite selectUsage_update_same, E.
        split; reflexivity.
    + destruct (Z.ltb_spec 0 dailyLimit); [ | lia ].
      cbn [fst snd is_passed]. rewrite selectUsage_insert, E, !String.eqb_refl.
      split; reflexivity.
  - assert (Hother : ~ (clientIp req = ip /\ today req = date)).
    { intros H. apply fromClient_iff in H. congruence. }
    destruct (selectUsage db (clientIp req) (today req)) as [count | ].
    + destruct (dailyLimit <=? count); cbn [fst];
        [ reflexivity | ].
      rewrite (selectUsage_update_other _ _ _ _ _ _ _ Hother). reflexivity.
    + cbn [fst]. rewrite selectUsage_insert.
      unfold fromClient in Hfrom. rewrite Hfrom.
      destruct (selectUsage db ip date); reflexivity.
Qed.

(** X23: with a daily limit of at least 1, however the requests of different
    clients and days are interleaved: of the requests a client sends on a
    day, exactly the first ones pass, as many as the limit leaves after
    what the table already holds for that client and day; the rest is
    answered 429.  The table afterwards holds the earlier count plus the
    number of requests let through, so that a count within the limit
    stays within it, and on a fresh table the remaining quota reported is
    the limit minus the requests let through. *)
Theorem aiRateLimit_daily_cap (dailyLimit : Z) (db : list UsageRow)
    (reqs : list Request) (ip date : string) :
  1 <= dailyLimit ->
  let before := used (getAiUsageStats dailyLimit db ip date) in
  let served := serve true dailyLimit db reqs in
  let after := getAiUsageStats dailyLimit (fst served) ip date in
  map fst (snd served) = reqs
  /\ passedFrom ip date (snd served)
     = Z.max 0 (Z.min (requestsFrom ip date reqs) (dailyLimit - before))
  /\ used after = before + passedFrom ip date (snd served)
  /\ (before <= dailyLimit -> used after <= dailyLimit)
  /\ (db = [] ->
      remaining after = dailyLimit - passedFrom ip date (snd served)).
Proof.
  intros Hlimit. cbv zeta.
  assert (Hmain : forall reqs db,
    map fst (snd (serve true dailyLimit db reqs)) = reqs
    /\ passedFrom ip date (snd (serve true dailyLimit db reqs))
       = Z.max 0 (Z.min (requestsFrom ip date reqs)
                        (dailyLimit - used (getAiUsageStats dailyLimit db ip date)))
    /\ used (getAiUsageStats dailyLimit
               (fst (serve true dailyLimit db reqs)) ip date)
       = used (getAiUsageStats dailyLimit db ip date)
         + passedFrom ip date (snd (serve true dailyLimit db reqs))).
  { clear db reqs. induction reqs as [ | req rest IH ]; intros db.
    - cbn [serve fst snd map]. unfold passedFrom, requestsFrom.
      cbn [filter List.length]. split; [ reflexivity | ]. split; lia.
    - pose proof (aiRateLimit_step dailyLimit db req ip date Hlimit) as Hstep.
      cbv zeta in Hstep. cbn [serve].
      destruct (aiRateLimit true dailyLimit db req) as [db1 outcome].
      cbn [fst snd] in Hstep.
      specialize (IH db1). destruct (serve true dailyLimit db1 rest) as [db2 log].
      cbn [fst snd] in IH |- *. destruct IH as (Hlog & Hpassed & Hused).
      split; [ cbn [map fst]; now rewrite Hlog | ].
      unfold passedFrom, requestsFrom in *. cbn [filter fst snd].
      destruct (fromClient ip date req).
      + destruct (Z.ltb_spec (used (getAiUsageStats dailyLimit db ip date))
                             dailyLimit) as [Hroom | Hfull].
        * destruct Hstep as [Hpass Hafter]. rewrite Hpass. cbn [andb List.length].
          rewrite Hafter in Hpassed, Hused. split; lia.
        * destruct Hstep as [Hpass Hsame]. rewrite Hpass. subst db1.
          cbn [andb List.length]. split; lia.
      + cbn [andb]. rewrite Hstep in Hpassed, Hused. split; lia. }
  destruct (Hmain reqs db) as (Hlog & Hpassed & Hused).
  split; [ exact Hlog | ]. split; [ exact Hpassed | ].
  split; [ exact Hused | ]. split.
  - intros Hbefore. rewrite Hused, Hpassed.
    unfold requestsFrom. lia.
  - intros ->.
    assert (Hfresh : used (getAiUsageStats dailyLimit [] ip date) = 0)
      by reflexivity.
    assert (Hrem : forall db',
              remaining (getAiUsageStats dailyLimit db' ip date)
              = Z.max 0 (dailyLimit
                         - used (getAiUsageStats dailyLimit db' ip date)))
      by reflexivity.
    rewrite Hfresh in Hused, Hpassed.
    rewrite Hrem, Hused, Hpassed. unfold requestsFrom. lia.
Qed.

Lemma aiRateLimit_daily_cap_witness :
  passedFrom "10.0.0.1" "2024-05-17"
    (snd (serve true 2 []
            [mkRequest "10.0.0.1" None "2024-05-17" "/api/ai";
             mkRequest "10.0.0.2" None "2024-05-17" "/api/ai";
             mkRequest "10.0.0.1" (Some 7) "2024-05-17" "/api/ai";
             mkRequest "10.0.0.1" None "2024-05-17" "/api/ai"]))
  = 2.
Proof.
  destruct (aiRateLimit_daily_cap 2 []
              [mkRequest "10.0.0.1" None "2024-05-17" "/api/ai";
               mkRequest "10.0.0.2" None "2024-05-17" "/api/ai";
               mkRequest "10.0.0.1" (Some 7) "2024-05-17" "/api/ai";
               mkRequest "10.0.0.1" None "2024-05-17" "/api/ai"]
              "10.0.0.1" "2024-05-17")
    as (_ & Hpassed & _); [ lia | ].
  exact Hpassed.
Defined.

(** * The lunar date *)








(** * The outlook on the coming years *)

(** Settles the comparisons of the goal that linear arithmetic decides. *)
Ltac decide_comparisons :=
  repeat match goal with
         | |- context [?a <? ?b] =>
             first [ replace (a <? b) with true
                       by (symmetry; apply Z.ltb_lt; lia)
                   | replace (a <? b) with false
                       by (symmetry; apply Z.ltb_ge; lia) ]
         | |- context [?a <=? ?b] =>
             first [ replace (a <=? b) with true
                       by (symmetry; apply Z.leb_le; lia)
                   | replace (a <=? b) with false
                       by (symmetry; apply Z.leb_gt; lia) ]
         end.

(** X25: the outlook on the next ten years names at most one luck period of the
    sequence: the one that starts after the current age and at most ten
    years later.  There is such a period from ten years before the start
    age until the start of the eighth period; earlier, and during the
    whole eighth period, the outlook is the sentence that the current
    period goes on. *)
Theorem generateDecadeForecast_next_period (this : BaziAnalyzer)
    (index : BaseDataIndex) (baziChart : BaziChart) (gender : string)
    (startAge currentAge : Z) :
  let dayunSequence :=
    calculateDayunSequence this index baziChart gender startAge in
  (startAge - 10 <= currentAge < startAge + 70 ->
   exists d,
     nth_error dayunSequence (Z.to_nat ((currentAge - startAge) / 10 + 1))
     = Some d
     /\ currentAge < start_age d <= currentAge + 10
     /\ generateDecadeForecast baziChart dayunSequence currentAge
        = "未来十年运势展望：" ++ Z_to_string (start_age d) ++ "-"
          ++ Z_to_string (end_age d) ++ "岁" ++ ganzhi d ++ "运，"
          ++ dayun_analysis d ++ "。")
  /\ (currentAge < startAge - 10 \/ startAge + 70 <= currentAge ->
      generateDecadeForecast baziChart dayunSequence currentAge
      = "未来十年继续当前大运的影响，建议保持稳定发展。").
Proof.
  intros dayunSequence. subst dayunSequence.
  rewrite calculateDayunSequence_unfold. cbv zeta.
  set (at_step := dayunAt this baziChart _ _ _ startAge).
  assert (Hages : forall i, start_age (at_step i) = startAge + i * 10)
    by (intros i; apply dayunAt_ages).
  unfold generateDecadeForecast. cbv zeta. cbn [filter].
  rewrite !Hages.
  split.
  - intros Hage.
    assert (Hk : exists k, (currentAge - startAge) / 10 + 1 = k /\ 0 <= k <= 7).
    { eexists. split; [ reflexivity | ]. Z.div_mod_to_equations. lia. }
    destruct Hk as (k & Hk & Hrange). rewrite Hk.
    assert (Hwindow : currentAge < startAge + k * 10 <= currentAge + 10)
      by (Z.div_mod_to_equations; lia).
    assert (Hcases : k = 0 \/ k = 1 \/ k = 2 \/ k = 3 \/ k = 4 \/ k = 5
                     \/ k = 6 \/ k = 7) by lia.
    exists (at_step k). rewrite Hages.
    split; [ | split; [ exact Hwindow | ] ].
    + destruct Hcases as [-> | [-> | [-> | [-> | [-> | [-> | [-> | ->]]]]]]];
        reflexivity.
    + destruct Hcases as [-> | [-> | [-> | [-> | [-> | [-> | [-> | ->]]]]]]];
        decide_comparisons; cbn [andb fold_left];
        rewrite Hages; reflexivity.
  - intros [Hage | Hage]; decide_comparisons; reflexivity.
Qed.

Lemma generateDecadeForecast_next_period_witness :
  exists chart d,
    exampleChartNoon = Some chart
    /\ nth_error (calculateDayunSequence exampleAnalyzer exampleIndex chart
                    "male" 3) 3 = Some d
    /\ 26 < start_age d <= 36.
Proof.
  destruct exampleChartNoon as [chart | ] eqn:Hc;
    [ | vm_compute in Hc; discriminate ].
  destruct (generateDecadeForecast_next_period exampleAnalyzer exampleIndex
              chart "male" 3 26) as [Hnext _].
  destruct Hnext as (d & Hd & Hwindow & _); [ lia | ].
  exists chart, d. split; [ reflexivity | ]. split; [ exact Hd | exact Hwindow ].
Defined.

(** X26: the yearly analysis covers the current year and the five after
    it, one entry a year with the age growing along; from the year 4 on
    each entry carries the stem and branch at the year's place in the
    cycle of sixty and the ten god of that stem, which is one of the ten
    labels when the Day Master and the year's stem are among the ten
    stems.  Every entry is labelled with the
    luck period handed in, or as before the first period when there is
    none: the label does not move on when, within the six years, the age
    passes the end of that period, although the luck sequence then has
    the next period for that age. *)
Theorem generateDetailedYearlyAnalysis_six_years (this : BaziAnalyzer)
    (index : BaseDataIndex) (baziChart : BaziChart) (gender : string)
    (currentDayun : option Dayun) (startAge currentYear currentAge : Z) :
  4 <= currentYear ->
  let years :=
    generateDetailedYearlyAnalysis this baziChart currentDayun currentYear
      currentAge in
  let label :=
    match currentDayun with
    | Some dayun => ganzhi dayun ++ "大运"
    | None => "未起运"
    end in
  List.length years = 6%nat
  /\ (forall i entry, nth_error years i = Some entry ->
        analysis_year entry = currentYear + Z.of_nat i
        /\ analysis_age entry = currentAge + Z.of_nat i
        /\ year_stem entry
           = getStemByIndex (baseData this) ((analysis_year entry - 4) mod 10)
        /\ year_branch entry
           = getBranchByIndex (baseData this) ((analysis_year entry - 4) mod 12)
        /\ year_ganzhi entry = year_stem entry ++ year_branch entry
        /\ year_ten_god entry
           = calculateTenGod (day_master baziChart) (year_stem entry)
        /\ (In (day_master baziChart) stems -> In (year_stem entry) stems ->
            In (year_ten_god entry) tenGodLabels)
        /\ dayun_period entry = label)
  /\ (forall d i entry,
        currentDayun
        = getCurrentDayun
            (calculateDayunSequence this index baziChart gender startAge)
            currentAge ->
        currentDayun = Some d ->
        nth_error years i = Some entry ->
        end_age d < analysis_age entry <= startAge + 79 ->
        dayun_period entry = ganzhi d ++ "大运"
        /\ exists next,
             getCurrentDayun
               (calculateDayunSequence this index baziChart gender startAge)
               (analysis_age entry) = Some next
             /\ period d < period next).
Proof.
  intros Hyear years label.
  assert (Hentry : forall i entry, nth_error years i = Some entry ->
    analysis_year entry = currentYear + Z.of_nat i
    /\ analysis_age entry = currentAge + Z.of_nat i
    /\ year_stem entry
       = getStemByIndex (baseData this) ((analysis_year entry - 4) mod 10)
    /\ year_branch entry
       = getBranchByIndex (baseData this) ((analysis_year entry - 4) mod 12)
    /\ year_ganzhi entry = year_stem entry ++ year_branch entry
    /\ year_ten_god entry
       = calculateTenGod (day_master baziChart) (year_stem entry)
    /\ (In (day_master baziChart) stems -> In (year_stem entry) stems ->
        In (year_ten_god entry) tenGodLabels)
    /\ dayun_period entry = label).
  { intros i entry Hnth. subst years. unfold generateDetailedYearlyAnalysis in Hnth.
    rewrite nth_error_map in Hnth.
    destruct (nth_error (seq 0 6) i) as [k | ] eqn:Hk; [ | discriminate ].
    assert (Hki : k = i).
    { pose proof (nth_error_nth _ _ 0%nat Hk) as Hn.
      assert (Hlt : (i < 6)%nat)
        by (apply (proj1 (nth_error_Some (seq 0 6) i)); rewrite Hk;
            discriminate).
      rewrite seq_nth in Hn by lia. lia. }
    subst k. cbn [option_map] in Hnth. injection Hnth as <-.
    cbv zeta.
    cbn [analysis_year analysis_age year_stem year_branch year_ganzhi
         year_ten_god dayun_period].
    assert (Hs : Z.rem (currentYear + Z.of_nat i - 4) 10
                 = (currentYear + Z.of_nat i - 4) mod 10)
      by (apply Z.rem_mod_nonneg; lia).
    assert (Hb : Z.rem (currentYear + Z.of_nat i - 4) 12
                 = (currentYear + Z.of_nat i - 4) mod 12)
      by (apply Z.rem_mod_nonneg; lia).
    rewrite Hs, Hb.
    repeat (split; [ reflexivity | ]).
    split; [ apply calculateTenGod_label | ].
    subst label. unfold getDayunForAge.
    destruct currentDayun as [dayun | ]; [ | reflexivity ].
    destruct ((start_age dayun <=? currentAge + Z.of_nat i)
              && (currentAge + Z.of_nat i <=? end_age dayun)); reflexivity. }
  split; [ reflexivity | ]. split; [ exact Hentry | ].
  intros d i entry Hcurrent Hd Hnth Hpast.
  destruct (Hentry i entry Hnth) as (_ & Hage & _ & _ & _ & _ & _ & Hlabel).
  split; [ rewrite Hlabel; subst label; rewrite Hd; reflexivity | ].
  pose proof (dayun_lookup this index baziChart gender startAge currentAge)
    as Hnow.
  pose proof (dayun_lookup this index baziChart gender startAge
                (analysis_age entry)) as Hthen.
  cbv zeta in Hnow, Hthen.
  destruct Hnow as (_ & Hperiods & Hin & Hout).
  destruct Hthen as (_ & _ & Hin' & _).
  assert (Hrange : startAge <= currentAge <= startAge + 79).
  { assert (Hc : currentAge < startAge \/ startAge + 79 < currentAge
                 \/ startAge <= currentAge <= startAge + 79) by lia.
    destruct Hc as [Hc | [Hc | Hc]]; [ | | exact Hc ].
    - rewrite (Hout (or_introl Hc)) in Hcurrent. congruence.
    - rewrite (Hout (or_intror Hc)) in Hcurrent. congruence. }
  destruct (Hin Hrange) as (d0 & Hd0 & Hk0 & Hspan0).
  assert (d0 = d) by congruence. subst d0.
  destruct (Hperiods _ _ Hk0) as (Hp0 & Hs0 & He0).
  destruct Hin' as (next & Hnext & Hk1 & Hspan1); [ lia | ].
  destruct (Hperiods _ _ Hk1) as (Hp1 & Hs1 & He1).
  exists next. split; [ exact Hnext | ].
  rewrite Hp0, Hp1.
  assert (Hz0 : 0 <= (currentAge - startAge) / 10)
    by (apply Z.div_pos; lia).
  assert (Hz1 : 0 <= (analysis_age entry - startAge) / 10)
    by (apply Z.div_pos; lia).
  rewrite !Z2Nat.id by assumption.
  rewrite Z2Nat.id in Hs0, Hs1 by assumption.
  lia.
Qed.

Lemma generateDetailedYearlyAnalysis_six_years_witness :
  exists chart,
    exampleChartNoon = Some chart
    /\ List.length (generateDetailedYearlyAnalysis exampleAnalyzer chart None
                      2026 26) = 6%nat
    /\ forall entry,
         nth_error (generateDetailedYearlyAnalysis exampleAnalyzer chart None
                      2026 26) 0 = Some entry ->
         In (year_ten_god entry) tenGodLabels.
Proof.
  destruct exampleChartNoon as [chart | ] eqn:Hc;
    [ | vm_compute in Hc; discriminate ].
  exists chart. split; [ reflexivity | ].
  destruct (generateDetailedYearlyAnalysis_six_years exampleAnalyzer
              exampleIndex chart "male" None 3 2026 26) as (Hlen & Hentry & _);
    [ lia | ].
  split; [ exact Hlen | ].
  intros entry Hnth.
  destruct (Hentry 0%nat entry Hnth) as (_ & _ & _ & _ & _ & _ & Hgod & _).
  apply Hgod.
  - vm_compute in Hc. injection Hc as <-. vm_compute. tauto.
  - vm_compute in Hnth. injection Hnth as <-. vm_compute. tauto.
Defined.

(** * The note on the Zi hour *)

Lemma calculateHourPillar_flags (this : BaziAnalyzer)
    (hour minute dayStemIndex year month day : Z) (hp : HourPillar) :
  calculateHourPillar this hour minute dayStemIndex year month day = Some hp ->
  zishi_type hp = (if hour =? 23 then Some "晚子时"
                   else if hour =? 0 then Some "早子时" else None)
  /\ is_late_zishi hp = (hour =? 23)
  /\ is_early_zishi hp = ((hour =? 0) && negb (hour =? 23)).
Proof.
  unfold calculateHourPillar. intros H.
  destruct (hour =? 23) eqn:E23.
  - destruct (nextDay year month day) as [[y' m'] d'].
    destruct (js_get_num hourStemBase _) as [start | ]; [ | discriminate ].
    injection H as <-. cbn [zishi_type is_late_zishi is_early_zishi].
    rewrite andb_false_r. repeat split.
  - destruct (hour =? 0) eqn:E0;
      (destruct (js_get_num hourStemBase _) as [start | ]; [ | discriminate ]);
      injection H as <-; repeat split.
Qed.

Lemma timeText_hour (h m : Z) :
  0 <= h <= 23 -> 0 <= m <= 59 ->
  truthy (Some (timeText h m)) = Some (timeText h m)
  /\ digits_value (nth_error (split_on ":"%char (timeText h m)) 0) = Some h.
Proof.
  intros Hh Hm.
  destruct (timeText_accepted h m Hh Hm) as [_ Hread].
  assert (Htruthy : truthy (Some (timeText h m)) = Some (timeText h m))
    by reflexivity.
  split; [ exact Htruthy | ].
  unfold birthHourMinute in Hread. rewrite Htruthy in Hread. cbv zeta in Hread.
  destruct (digits_value (nth_error (split_on ":"%char (timeText h m)) 0))
    as [hour | ]; [ | discriminate ].
  destruct (digits_value (nth_error (split_on ":"%char (timeText h m)) 1))
    as [minute | ]; [ | discriminate ].
  congruence.
Qed.

(** X27: for the birth time HH:MM of an hour 0..23 and the chart computed from
    that hour, the note and the chart agree on the Zi hour: there is a
    note exactly when the hour is 23 or 0, and it names the late Zi hour
    for 23 and the early one for 0, as the chart's hour pillar does; for
    the hours 1..22 there is no note and the hour pillar carries no Zi
    hour. *)
Theorem generateZishiCalculationNote_agrees (this : BaziAnalyzer)
    (year month day h m : Z) (chart : BaziChart) :
  0 <= h <= 23 -> 0 <= m <= 59 ->
  calculatePreciseBazi this year month day (Some (h, m)) = Some chart ->
  match generateZishiCalculationNote chart (Some (timeText h m)) with
  | Some note =>
      (h = 23 \/ h = 0)
      /\ is_zishi note = true
      /\ note_zishi_type note = (if h =? 23 then "晚子时" else "早子时")
      /\ ChartPillar.extra (hour_pillar chart)
         = ZiShi (Some (note_zishi_type note)) (h =? 23) (h =? 0)
  | None =>
      1 <= h <= 22
      /\ ChartPillar.extra (hour_pillar chart) = ZiShi None false false
  end.
Proof.
  intros Hh Hm Hchart.
  destruct (timeText_hour h m Hh Hm) as [Htruthy Hhour].
  unfold generateZishiCalculationNote. rewrite Htruthy, Hhour.
  unfold calculatePreciseBazi in Hchart. cbv zeta in Hchart.
  destruct (calculateMonthPillar this year month day _ h m)
    as [monthPillar | ]; [ | discriminate ].
  destruct (calculateHourPillar this h m _ year month day)
    as [hourPillar | ] eqn:Hhp; [ | discriminate ].
  destruct (calculateHourPillar_flags _ _ _ _ _ _ _ _ Hhp)
    as (Htype & Hlate & Hearly).
  injection Hchart as <-. cbn [hour_pillar day_pillar ChartPillar.extra
    ChartPillar.stem ChartPillar.branch].
  rewrite Htype, Hlate, Hearly.
  destruct (Z.eqb_spec h 23) as [-> | H23].
  - cbn [orb andb negb]. cbv zeta. cbn [is_zishi note_zishi_type].
    change (23 =? 23) with true. change (23 =? 0) with false. cbv iota.
    repeat split. now left.
  - destruct (Z.eqb_spec h 0) as [-> | H0].
    + cbn [orb andb negb]. cbv zeta. cbn [is_zishi note_zishi_type].
      change (0 =? 23) with false. cbv iota.
      repeat split. now right.
    + cbn [orb andb negb]. split; [ lia | reflexivity ].
Qed.

Lemma generateZishiCalculationNote_agrees_witness :
  exists chart note,
    calculatePreciseBazi exampleAnalyzer 2000 1 1 (Some (23, 30)) = Some chart
    /\ generateZishiCalculationNote chart (Some "23:30") = Some note
    /\ note_zishi_type note = "晚子时".
Proof.
  destruct (calculatePreciseBazi exampleAnalyzer 2000 1 1 (Some (23, 30)))
    as [chart | ] eqn:Hc; [ | vm_compute in Hc; discriminate ].
  pose proof (generateZishiCalculationNote_agrees exampleAnalyzer 2000 1 1
                23 30 chart ltac:(lia) ltac:(lia) Hc) as H.
  change (timeText 23 30) with "23:30" in H.
  destruct (generateZishiCalculationNote chart (Some "23:30"))
    as [note | ] eqn:Hnote.
  - destruct H as (_ & _ & Htype & _).
    exists chart, note. split; [ reflexivity | ]. split; [ exact Hnote | ].
    exact Htype.
  - exfalso. lia.
Defined.
